(** * ARQ-ALPHA-V4: the CPL protocol pipeline and its resilient generator

    A shallow embedding of [services/cpl_devastador_protocol.py], of the
    repair pass of [services/enhanced_synthesis_engine.py] and of the job
    runner of [routes/enhanced_workflow.py], with the properties the design
    document states about them.

    Python strings are sequences of Unicode code points; they are modelled as
    [list N].  Source literals are written as Rocq strings (UTF-8 bytes) and
    decoded by [py]; inside such a literal the character [~] stands for the
    double quote, which the source texts never use otherwise. *)

From Stdlib Require Import List String Ascii NArith ZArith Lia Bool.
From stdpp Require Import gmap.
Import ListNotations.

Set Default Proof Using "Type".
Set Warnings "-register-all".

(** ** Python strings *)

Module Py.

Abbreviation pystr := (list N).

Fixpoint bytes_of_string (s : string) : list N :=
  match s with
  | EmptyString => []
  | String a s' => N_of_ascii a :: bytes_of_string s'
  end.

(** UTF-8 decoding of a source literal (the literals of this file are
    well-formed; a truncated sequence ends the decoding). *)
Fixpoint utf8_decode (bs : list N) : pystr :=
  match bs with
  | [] => []
  | b0 :: r =>
      if (b0 <? 0x80)%N then b0 :: utf8_decode r
      else if (b0 <? 0xE0)%N then
        match r with
        | b1 :: r1 => ((b0 - 0xC0) * 64 + (b1 - 0x80))%N :: utf8_decode r1
        | _ => []
        end
      else if (b0 <? 0xF0)%N then
        match r with
        | b1 :: b2 :: r2 =>
            ((b0 - 0xE0) * 4096 + (b1 - 0x80) * 64 + (b2 - 0x80))%N :: utf8_decode r2
        | _ => []
        end
      else
        match r with
        | b1 :: b2 :: b3 :: r3 =>
            ((b0 - 0xF0) * 262144 + (b1 - 0x80) * 4096 + (b2 - 0x80) * 64 + (b3 - 0x80))%N
              :: utf8_decode r3
        | _ => []
        end
  end.

Definition dquote : N := 34%N.
Definition LF : N := 10%N.

(** A source literal: [~] is read as the double quote. *)
Definition py (s : string) : pystr :=
  map (fun c => if (c =? 126)%N then dquote else c) (utf8_decode (bytes_of_string s)).

Fixpoint pystr_eqb (a b : pystr) : bool :=
  match a, b with
  | [], [] => true
  | x :: a', y :: b' => (x =? y)%N && pystr_eqb a' b'
  | _, _ => false
  end.

(** The code point of a one-character ASCII literal. *)
Definition ch (s : string) : N :=
  match s with
  | String a _ => N_of_ascii a
  | EmptyString => 0%N
  end.

(** [str.isspace] / the regex class [\s] on [str] patterns. *)
Definition space_chars : list N :=
  [9; 10; 11; 12; 13; 28; 29; 30; 31; 32; 133; 160; 5760;
   8192; 8193; 8194; 8195; 8196; 8197; 8198; 8199; 8200; 8201; 8202;
   8232; 8233; 8239; 8287; 12288]%N.

Definition is_space (c : N) : bool := existsb (N.eqb c) space_chars.

Fixpoint lstrip (s : pystr) : pystr :=
  match s with
  | c :: s' => if is_space c then lstrip s' else s
  | [] => []
  end.

Definition rstrip (s : pystr) : pystr := rev (lstrip (rev s)).

(** [s.strip()] *)
Definition strip (s : pystr) : pystr := rstrip (lstrip s).

(** [s.startswith(p)] *)
Fixpoint startswith (s p : pystr) : bool :=
  match p, s with
  | [], _ => true
  | a :: p', b :: s' => (a =? b)%N && startswith s' p'
  | _ :: _, [] => false
  end.

(** [p in s] *)
Fixpoint contains (s p : pystr) : bool :=
  startswith s p ||
  match s with
  | [] => false
  | _ :: s' => contains s' p
  end.

(** [s.split('\n')]: the lines of [s]; never empty. *)
Fixpoint split_lines (s : pystr) : list pystr :=
  match s with
  | [] => [[]]
  | c :: s' =>
      if (c =? LF)%N then [] :: split_lines s'
      else match split_lines s' with
           | l :: ls => (c :: l) :: ls
           | [] => [[c]]
           end
  end.

(** [sep.join(parts)] *)
Fixpoint join (sep : pystr) (parts : list pystr) : pystr :=
  match parts with
  | [] => []
  | [p] => p
  | p :: rest => p ++ sep ++ join sep rest
  end.

(** Decimal text of a natural number, as [str(n)] gives it. *)
Fixpoint digits_fuel (fuel : nat) (n : N) (acc : pystr) : pystr :=
  match fuel with
  | O => acc
  | S f =>
      let acc' := (48 + n mod 10)%N :: acc in
      if (n <? 10)%N then acc' else digits_fuel f (n / 10)%N acc'
  end.

Definition str_of_nat (n : nat) : pystr :=
  digits_fuel (S n) (N.of_nat n) [].

End Py.
Export Py.

(** ** JSON values, [json.dumps] and [json.loads] *)

Module Json.

(** What [json.loads] returns.  An integer literal becomes a Python [int];
    a literal with a fraction or an exponent, and [NaN], [Infinity] and
    [-Infinity], become a [float], kept here as the text that was read.
    An object is a [dict]: insertion ordered, one entry per key. *)
Inductive json :=
| JNull
| JBool (b : bool)
| JInt (z : Z)
| JFloat (lexeme : pystr)
| JStr (s : pystr)
| JArr (items : list json)
| JObj (members : list (pystr * json)).

(** [d[k] = v] on an insertion-ordered dict. *)
Fixpoint dict_set {A} (k : pystr) (v : A) (d : list (pystr * A)) : list (pystr * A) :=
  match d with
  | [] => [(k, v)]
  | (k', v') :: d' =>
      if pystr_eqb k k' then (k, v) :: d' else (k', v') :: dict_set k v d'
  end.

Fixpoint dict_get {A} (k : pystr) (d : list (pystr * A)) : option A :=
  match d with
  | [] => None
  | (k', v) :: d' => if pystr_eqb k k' then Some v else dict_get k d'
  end.

(** [dict(pairs)] *)
Definition mkdict {A} (pairs : list (pystr * A)) : list (pystr * A) :=
  fold_left (fun d kv => dict_set (fst kv) (snd kv) d) pairs [].

(** *** [json.dumps(obj)] with the default [ensure_ascii=True] and the
    default separators. *)

Definition hex_digit (n : N) : N :=
  if (n <? 10)%N then (48 + n)%N else (87 + n)%N.

Definition u_escape (c : N) : pystr :=
  [ch "\"; ch "u"; hex_digit ((c / 4096) mod 16); hex_digit ((c / 256) mod 16);
   hex_digit ((c / 16) mod 16); hex_digit (c mod 16)]%N.

Definition escape_char (c : N) : pystr :=
  if (c =? dquote)%N then [ch "\"; dquote]
  else if (c =? ch "\")%N then [ch "\"; ch "\"]
  else if (c =? 10)%N then [ch "\"; ch "n"]
  else if (c =? 13)%N then [ch "\"; ch "r"]
  else if (c =? 9)%N then [ch "\"; ch "t"]
  else if (c =? 8)%N then [ch "\"; ch "b"]
  else if (c =? 12)%N then [ch "\"; ch "f"]
  else if ((32 <=? c) && (c <=? 126))%N then [c]
  else if (c <? 0x10000)%N then u_escape c
  else
    let v := (c - 0x10000)%N in
    u_escape (0xD800 + v / 1024)%N ++ u_escape (0xDC00 + v mod 1024)%N.

Definition dumps_str (s : pystr) : pystr :=
  dquote :: flat_map escape_char s ++ [dquote].

Definition dumps_int (z : Z) : pystr :=
  match z with
  | Z0 => py "0"
  | Zpos p => str_of_nat (Pos.to_nat p)
  | Zneg p => ch "-" :: str_of_nat (Pos.to_nat p)
  end.

Fixpoint json_dumps (v : json) : pystr :=
  match v with
  | JNull => py "null"
  | JBool true => py "true"
  | JBool false => py "false"
  | JInt z => dumps_int z
  | JFloat lexeme => lexeme
  | JStr s => dumps_str s
  | JArr items => [ch "["] ++ join (py ", ") (map json_dumps items) ++ [ch "]"]
  | JObj members =>
      [ch "{"]
      ++ join (py ", ")
           (map (fun kv => dumps_str (fst kv) ++ py ": " ++ json_dumps (snd kv)) members)
      ++ [ch "}"]
  end.

(** *** [json.loads(s)]

    The decoder of the standard library is modelled as a push-down
    recogniser that reads the text one code point at a time: [step] is the
    transition, [run] reads a text, and [finish] says which value, if any,
    the text read so far amounts to.  It accepts what the C scanner of
    CPython accepts: the JSON grammar, with [NaN], [Infinity] and
    [-Infinity], strict strings (no raw control character), [\uXXXX]
    escapes with surrogate pairs joined, and objects built as dicts. *)

(** Inside a string literal. *)
Inductive strst :=
| SPlain
| SEsc (hi : option N)                     (* after a backslash *)
| SHex (hi : option N) (k : nat) (acc : N) (* in [\uXXXX], [k] digits read *)
| SHigh (h : N).                           (* a high surrogate was read *)

(** Inside a number literal. *)
Inductive numst := NMinus | NZero | NInt | NDot | NFrac | NE | NESign | NExp.

Inductive mode :=
| MValue                                   (* a value starts here *)
| MArrStart                                (* after [[]: a value or []] *)
| MObjStart                                (* after [{]: a key or [}] *)
| MObjKey                                  (* after [,] in an object: a key *)
| MColon (key : pystr)                     (* after a key *)
| MAfter (v : json)                        (* a value is complete *)
| MStr (is_key : bool) (st : strst) (acc : pystr)
| MNum (st : numst) (lex : pystr)
| MLit (rest : pystr) (v : json)           (* the rest of [true], [null], ... *)
| MErr.

(** An enclosing container under construction; accumulators are reversed. *)
Inductive frame :=
| FArr (acc : list json)
| FObj (acc : list (pystr * json))
| FObjV (acc : list (pystr * json)) (key : pystr).

Definition state : Type := mode * list frame.

Definition init : state := (MValue, []).
Definition err : state := (MErr, []).

Definition is_json_ws (c : N) : bool :=
  ((c =? 32) || (c =? 9) || (c =? 10) || (c =? 13))%N.

Definition is_digit (c : N) : bool := ((48 <=? c) && (c <=? 57))%N.

Definition hex_value (c : N) : option N :=
  if is_digit c then Some (c - 48)%N
  else if ((97 <=? c) && (c <=? 102))%N then Some (c - 87)%N
  else if ((65 <=? c) && (c <=? 70))%N then Some (c - 55)%N
  else None.

Definition is_high (u : N) : bool := ((0xD800 <=? u) && (u <=? 0xDBFF))%N.
Definition is_low (u : N) : bool := ((0xDC00 <=? u) && (u <=? 0xDFFF))%N.
Definition join_surrogates (h l : N) : N :=
  (0x10000 + (h - 0xD800) * 1024 + (l - 0xDC00))%N.

(** The integer a literal [-?digits] denotes ([lex] is not reversed). *)
Definition int_of_lexeme (lex : pystr) : Z :=
  let digits := fun ds => fold_left (fun a d => (a * 10 + Z.of_N (d - 48))%Z) ds 0%Z in
  match lex with
  | c :: ds => if (c =? ch "-")%N then (- digits ds)%Z else digits lex
  | [] => 0%Z
  end.

Definition num_done (st : numst) : bool :=
  match st with
  | NZero | NInt | NFrac | NExp => true
  | _ => false
  end.

Definition num_value (st : numst) (lex : pystr) : json :=
  match st with
  | NZero | NInt => JInt (int_of_lexeme (rev lex))
  | _ => JFloat (rev lex)
  end.

(** The first code point of a value. *)
Definition start_value (c : N) (stack : list frame) : state :=
  if (c =? dquote)%N then (MStr false SPlain [], stack)
  else if (c =? ch "{")%N then (MObjStart, FObj [] :: stack)
  else if (c =? ch "[")%N then (MArrStart, FArr [] :: stack)
  else if (c =? ch "n")%N then (MLit (py "ull") JNull, stack)
  else if (c =? ch "t")%N then (MLit (py "rue") (JBool true), stack)
  else if (c =? ch "f")%N then (MLit (py "alse") (JBool false), stack)
  else if (c =? ch "N")%N then (MLit (py "aN") (JFloat (py "NaN")), stack)
  else if (c =? ch "I")%N then (MLit (py "nfinity") (JFloat (py "Infinity")), stack)
  else if (c =? ch "-")%N then (MNum NMinus [c], stack)
  else if (c =? ch "0")%N then (MNum NZero [c], stack)
  else if is_digit c then (MNum NInt [c], stack)
  else err.

(** After a complete value [v]: a separator or the end of the container. *)
Definition after_value (v : json) (c : N) (stack : list frame) : state :=
  if is_json_ws c then (MAfter v, stack)
  else
    match stack with
    | FArr acc :: st =>
        if (c =? ch ",")%N then (MValue, FArr (v :: acc) :: st)
        else if (c =? ch "]")%N then (MAfter (JArr (rev (v :: acc))), st)
        else err
    | FObjV acc key :: st =>
        if (c =? ch ",")%N then (MObjKey, FObj ((key, v) :: acc) :: st)
        else if (c =? ch "}")%N then (MAfter (JObj (mkdict (rev ((key, v) :: acc)))), st)
        else err
    | _ => err
    end.

(** A string literal is complete. *)
Definition end_string (is_key : bool) (acc : pystr) (stack : list frame) : state :=
  if is_key then (MColon (rev acc), stack) else (MAfter (JStr (rev acc)), stack).

(** A code point inside a string, outside an escape. *)
Definition plain_char (is_key : bool) (acc : pystr) (c : N) (stack : list frame) : state :=
  if (c =? dquote)%N then end_string is_key acc stack
  else if (c =? ch "\")%N then (MStr is_key (SEsc None) acc, stack)
  else if (c <? 32)%N then err
  else (MStr is_key SPlain (c :: acc), stack).

(** The code point after a backslash. *)
Definition escaped_char (is_key : bool) (acc : pystr) (c : N) (stack : list frame) : state :=
  let emit := fun x => (MStr is_key SPlain (x :: acc), stack) in
  if (c =? dquote)%N then emit dquote
  else if (c =? ch "\")%N then emit (ch "\")
  else if (c =? ch "/")%N then emit (ch "/")
  else if (c =? ch "b")%N then emit 8%N
  else if (c =? ch "f")%N then emit 12%N
  else if (c =? ch "n")%N then emit 10%N
  else if (c =? ch "r")%N then emit 13%N
  else if (c =? ch "t")%N then emit 9%N
  else if (c =? ch "u")%N then (MStr is_key (SHex None 0 0%N) acc, stack)
  else err.

(** A [\uXXXX] escape denoting the code unit [u] is complete. *)
Definition unit_read (is_key : bool) (acc : pystr) (u : N) (stack : list frame) : state :=
  if is_high u then (MStr is_key (SHigh u) acc, stack)
  else (MStr is_key SPlain (u :: acc), stack).

Definition step_string (is_key : bool) (st : strst) (acc : pystr) (c : N)
    (stack : list frame) : state :=
  match st with
  | SPlain => plain_char is_key acc c stack
  | SEsc None => escaped_char is_key acc c stack
  | SEsc (Some h) =>
      if (c =? ch "u")%N then (MStr is_key (SHex (Some h) 0 0%N) acc, stack)
      else escaped_char is_key (h :: acc) c stack
  | SHex hi k a =>
      match hex_value c with
      | None => err
      | Some d =>
          let u := (a * 16 + d)%N in
          if (k <? 3)%nat then (MStr is_key (SHex hi (S k) u) acc, stack)
          else
            match hi with
            | Some h =>
                if is_low u then (MStr is_key SPlain (join_surrogates h u :: acc), stack)
                else unit_read is_key (h :: acc) u stack
            | None => unit_read is_key acc u stack
            end
      end
  | SHigh h =>
      if (c =? ch "\")%N then (MStr is_key (SEsc (Some h)) acc, stack)
      else plain_char is_key (h :: acc) c stack
  end.

Definition is_exp_mark (c : N) : bool := ((c =? ch "e") || (c =? ch "E"))%N.

Definition step_number (st : numst) (lex : pystr) (c : N) (stack : list frame) : state :=
  let next := fun st' => (MNum st' (c :: lex), stack) in
  let done := after_value (num_value st lex) c stack in
  match st with
  | NMinus =>
      if (c =? ch "0")%N then next NZero
      else if is_digit c then next NInt
      else if (c =? ch "I")%N then (MLit (py "nfinity") (JFloat (py "-Infinity")), stack)
      else err
  | NZero =>
      if (c =? ch ".")%N then next NDot
      else if is_exp_mark c then next NE
      else done
  | NInt =>
      if is_digit c then next NInt
      else if (c =? ch ".")%N then next NDot
      else if is_exp_mark c then next NE
      else done
  | NDot => if is_digit c then next NFrac else err
  | NFrac =>
      if is_digit c then next NFrac
      else if is_exp_mark c then next NE
      else done
  | NE =>
      if is_digit c then next NExp
      else if ((c =? ch "+") || (c =? ch "-"))%N then next NESign
      else err
  | NESign => if is_digit c then next NExp else err
  | NExp => if is_digit c then next NExp else done
  end.

Definition step (s : state) (c : N) : state :=
  let '(m, stack) := s in
  match m with
  | MValue => if is_json_ws c then s else start_value c stack
  | MArrStart =>
      if is_json_ws c then s
      else if (c =? ch "]")%N then
        match stack with
        | FArr _ :: st => (MAfter (JArr []), st)
        | _ => err
        end
      else start_value c stack
  | MObjStart =>
      if is_json_ws c then s
      else if (c =? ch "}")%N then
        match stack with
        | FObj _ :: st => (MAfter (JObj []), st)
        | _ => err
        end
      else if (c =? dquote)%N then (MStr true SPlain [], stack)
      else err
  | MObjKey =>
      if is_json_ws c then s
      else if (c =? dquote)%N then (MStr true SPlain [], stack)
      else err
  | MColon key =>
      if is_json_ws c then s
      else if (c =? ch ":")%N then
        match stack with
        | FObj acc :: st => (MValue, FObjV acc key :: st)
        | _ => err
        end
      else err
  | MAfter v => after_value v c stack
  | MStr is_key st acc => step_string is_key st acc c stack
  | MNum st lex => step_number st lex c stack
  | MLit rest v =>
      match rest with
      | [x] => if (c =? x)%N then (MAfter v, stack) else err
      | x :: rest' => if (c =? x)%N then (MLit rest' v, stack) else err
      | [] => err
      end
  | MErr => err
  end.

Definition run (s : state) (text : pystr) : state := fold_left step text s.

Definition finish (s : state) : option json :=
  match s with
  | (MAfter v, []) => Some v
  | (MNum st lex, []) => if num_done st then Some (num_value st lex) else None
  | _ => None
  end.

(** [json.loads(text)]; [None] stands for [JSONDecodeError]. *)
Definition json_loads (text : pystr) : option json := finish (run init text).

(** The literal being matched in [MLit] holds no white space; the states
    the decoder reaches all satisfy this. *)
Definition lit_ok (st : state) : Prop :=
  match st with
  | (MLit rest _, _) => forallb (fun x => negb (is_space x)) rest = true
  | _ => True
  end.

End Json.
Export Json.

(** ** The resilient generator of [cpl_devastador_protocol.py] *)

Module Protocol.

(** Python exceptions of class [Exception], as far as the controller tells
    them apart.  What is raised outside of this class, such as
    [asyncio.CancelledError], ends the task: see [awaited] below. *)
Inductive exn :=
| Exception (msg : pystr)
| KeyError (key : pystr)
| TypeError
| AttributeError
| JSONDecodeError
| OSError.

(** The outcome of an expression that may raise. *)
Inductive res (A : Type) :=
| Ok (a : A)
| Raise (e : exn).
Arguments Ok {A} a.
Arguments Raise {A} e.

Definition rbind {A B} (r : res A) (k : A -> res B) : res B :=
  match r with
  | Ok a => k a
  | Raise e => Raise e
  end.

(** [try: body / except Exception: handler] *)
Definition try_except {A} (body : res A) (handler : exn -> res A) : res A :=
  match body with
  | Ok a => Ok a
  | Raise e => handler e
  end.

(** What the generation capability may hand back: [None], a string, or any
    other object, of which the code takes the truth value and [str()].
    Either may raise: [truth] is what [bool()] does with the object (an
    array or a tensor raises there), and [as_str] is [None] when [str()]
    raises. *)
Inductive pyobj :=
| PyNone
| PyStr (s : pystr)
| PyOther (truth : res bool) (as_str : option pystr).

(** [bool(response)], as [if not response] takes it. *)
Definition truthy_obj (o : pyobj) : res bool :=
  match o with
  | PyNone => Ok false
  | PyStr s => Ok (negb (pystr_eqb s []))
  | PyOther truth _ => truth
  end.

(** [str(response)] *)
Definition str_obj (o : pyobj) : res pystr :=
  match o with
  | PyNone => Ok (py "None")
  | PyStr s => Ok s
  | PyOther _ (Some s) => Ok s
  | PyOther _ None => Raise TypeError
  end.

Definition fence : pystr := py "```".

(** Lines 117-131: the removal of a markdown block from a stripped text. *)
Definition remove_markdown (response : pystr) : pystr :=
  let lines := split_lines response in
  let response :=
    if (2 <? length lines)%nat then join [LF] (removelast (tl lines))
    else if (1 <? length lines)%nat then nth 1 lines []
    else response in
  let response :=
    if startswith (strip response) (py "json") then skipn 4 (strip response)
    else response in
  strip response.

(** [_clean_json_response], lines 94-138.  The truth test of line 98
    stands outside every [try]: what it raises leaves the function. *)
Definition _clean_json_response (response : pyobj) : res pystr :=
  rbind (truthy_obj response)
    (fun truthy =>
       if negb truthy then Ok []
       else
         rbind
           (match response with
            | PyStr s => Ok (Some s)
            | _ => try_except (rbind (str_obj response) (fun s => Ok (Some s)))
                              (fun _ => Ok None)
            end)
           (fun converted =>
              match converted with
              | None => Ok []
              | Some response =>
                  let response := strip response in
                  let response :=
                    if startswith response fence then remove_markdown response
                    else response in
                  if pystr_eqb response [] then Ok [] else Ok response
              end)).

(** The payload of line 147 of the source. *)
Definition fallback_evento : json :=
  JObj
    [(py "versao_escolhida", JStr (py "A"));
     (py "nome_evento", JStr (py "Revolução Digital Devastadora"));
     (py "promessa_central", JStr (py "Como transformar seu negócio em 4 dias usando estratégias que 99% ignora"));
     (py "arquitetura_cpls",
      JObj
        [(py "cpl1", JStr (py "A Descoberta Chocante - Revelação que muda tudo"));
         (py "cpl2", JStr (py "A Prova Impossível - Evidências irrefutáveis"));
         (py "cpl3", JStr (py "O Caminho Revolucionário - Método único revelado"));
         (py "cpl4", JStr (py "A Decisão Inevitável - Momento de transformação"))]);
     (py "mapeamento_psicologico",
      JObj
        [(py "gatilho_principal", JStr (py "FOMO + Urgência + Exclusividade"));
         (py "jornada_emocional", JStr (py "Curiosidade → Choque → Desejo → Ação"));
         (py "pontos_pressao",
          JArr
            [JStr (py "Medo de ficar para trás");
             JStr (py "Desejo de transformação");
             JStr (py "Necessidade de resultados")])]);
     (py "justificativa", JStr (py "Combina urgência temporal com exclusividade de método"))].

(** The payload of line 166 of the source. *)
Definition fallback_cpl1 : json :=
  JObj
    [(py "titulo", JStr (py "CPL1 - A Descoberta Que Muda Tudo"));
     (py "objetivo", JStr (py "Revelar oportunidade única que gera FOMO visceral"));
     (py "conteudo_principal", JStr (py "Revelação de estratégia secreta que poucos conhecem"));
     (py "loops_abertos",
      JArr
        [JStr (py "Qual é o método secreto que será revelado?");
         JStr (py "Como isso pode transformar resultados em 4 dias?");
         JStr (py "Por que apenas 1% conhece essa estratégia?")]);
     (py "quebras_padrao",
      JArr
        [JStr (py "Contrário ao que todos fazem");
         JStr (py "Método nunca revelado publicamente");
         JStr (py "Estratégia usada apenas por experts");
         JStr (py "Abordagem revolucionária");
         JStr (py "Técnica contra-intuitiva")]);
     (py "provas_sociais",
      JArr
        [JStr (py "Resultados de clientes reais");
         JStr (py "Casos de sucesso documentados");
         JStr (py "Depoimentos autênticos");
         JStr (py "Dados de performance");
         JStr (py "Evidências visuais")]);
     (py "elementos_cinematograficos",
      JArr
        [JStr (py "Abertura impactante com revelação");
         JStr (py "Construção de tensão gradual");
         JStr (py "Clímax com descoberta chocante");
         JStr (py "Gancho irresistível para CPL2")]);
     (py "gatilhos_psicologicos",
      JArr
        [JStr (py "Curiosidade extrema");
         JStr (py "FOMO visceral");
         JStr (py "Exclusividade");
         JStr (py "Urgência temporal")]);
     (py "call_to_action", JStr (py "Aguarde CPL2 para descobrir a prova impossível"))].

(** The payload of line 205 of the source. *)
Definition fallback_cpl2 : json :=
  JObj
    [(py "titulo", JStr (py "CPL2 - A Prova Que Ninguém Acredita"));
     (py "objetivo", JStr (py "Apresentar evidências irrefutáveis da transformação"));
     (py "conteudo_principal", JStr (py "Demonstração prática com resultados reais"));
     (py "loops_mantidos",
      JArr
        [JStr (py "Como essa prova foi obtida?");
         JStr (py "Qual será o método completo?")]);
     (py "quebras_padrao",
      JArr
        [JStr (py "Resultados que desafiam lógica");
         JStr (py "Prova visual incontestável");
         JStr (py "Método surpreendente")]);
     (py "casos_transformacao",
      JArr
        [JStr (py "Screenshots de resultados");
         JStr (py "Vídeos de transformação");
         JStr (py "Dados antes/depois")]);
     (py "elementos_cinematograficos",
      JArr
        [JStr (py "Revelação dramática da prova");
         JStr (py "Demonstração passo a passo");
         JStr (py "Gancho para o método completo")]);
     (py "gatilhos_psicologicos",
      JArr
        [JStr (py "Incredulidade seguida de convencimento");
         JStr (py "Desejo de replicar resultado");
         JStr (py "Urgência de conhecer método")]);
     (py "call_to_action", JStr (py "CPL3 revelará o caminho completo"))].

(** The payload of line 237 of the source. *)
Definition fallback_cpl3 : json :=
  JObj
    [(py "titulo", JStr (py "CPL3 - O Método Que Muda Tudo"));
     (py "objetivo", JStr (py "Revelar o sistema completo de transformação"));
     (py "nome_metodo", JStr (py "Sistema de Transformação Acelerada"));
     (py "estrutura_passos",
      JArr
        [JStr (py "Passo 1: Diagnóstico Estratégico");
         JStr (py "Passo 2: Implementação do Framework");
         JStr (py "Passo 3: Otimização e Escala")]);
     (py "faq_estrategico",
      JArr
        [JStr (py "Como implementar em meu negócio?");
         JStr (py "Quanto tempo leva para ver resultados?")]);
     (py "justificativa_escassez", JStr (py "Vagas limitadas por questões de mentoria"));
     (py "loops_fechados",
      JArr
        [JStr (py "Método completo revelado")]);
     (py "preparacao_decisao", JStr (py "Preparado para transformação definitiva"));
     (py "call_to_action", JStr (py "CPL4 será sua última chance de transformação"))].

(** The payload of line 257 of the source. *)
Definition fallback_cpl4 : json :=
  JObj
    [(py "titulo", JStr (py "CPL4 - Sua Última Chance de Transformação"));
     (py "objetivo", JStr (py "Conversão máxima"));
     (py "stack_valor",
      JArr
        [JStr (py "Bônus 1: Acesso vitalício");
         JStr (py "Bônus 2: Mentoria exclusiva");
         JStr (py "Bônus 3: Comunidade VIP")]);
     (py "precificacao",
      JObj
        [(py "valor_total", JStr (py "R$ 2.997"));
         (py "valor_oferta", JStr (py "R$ 997"));
         (py "economia", JStr (py "R$ 2.000"))]);
     (py "garantias",
      JArr
        [JStr (py "Garantia de 30 dias");
         JStr (py "Garantia de resultados")]);
     (py "urgencia_final", JStr (py "Apenas 50 vagas disponíveis - encerrando em 48h"));
     (py "fechamento", JStr (py "Momento de decisão definitiva para sua transformação"));
     (py "call_to_action", JStr (py "AÇÃO IMEDIATA - Garanta sua vaga agora"))].

(** The payload of line 280 of the source. *)
Definition fallback_default : json :=
  JObj
    [(py "status", JStr (py "fallback_response"));
     (py "message", JStr (py "Resposta estruturada básica gerada"));
     (py "data", JStr (py "Conteúdo baseado em estrutura padrão"))].

(** The literal of line 288. *)
Definition fallback_error_text : pystr :=
  py "{~error~: ~Falha na geração de resposta~, ~status~: ~error~}".

(** [_generate_fallback_response], lines 140-288.  [json.dumps] of a dict
    literal of strings does not raise; the handler of line 286 is kept for
    the shape of the code. *)
Definition _generate_fallback_response (prompt : pystr) : res pystr :=
  try_except
    (if contains prompt (py "FASE 1") || contains prompt (py "ARQUITETURA DO EVENTO")
     then Ok (json_dumps fallback_evento)
     else if contains prompt (py "CPL1") || contains prompt (py "OPORTUNIDADE PARALISANTE")
     then Ok (json_dumps fallback_cpl1)
     else if contains prompt (py "CPL2") || contains prompt (py "TRANSFORMAÇÃO IMPOSSÍVEL")
     then Ok (json_dumps fallback_cpl2)
     else if contains prompt (py "CPL3") || contains prompt (py "CAMINHO REVOLUCIONÁRIO")
     then Ok (json_dumps fallback_cpl3)
     else if contains prompt (py "CPL4") || contains prompt (py "DECISÃO INEVITÁVEL")
     then Ok (json_dumps fallback_cpl4)
     else Ok (json_dumps fallback_default))
    (fun _ => Ok fallback_error_text).

(** [_generate_with_ai], lines 290-298: [call] is what
    [await api.generate(prompt)] does. *)
Definition _generate_with_ai (call : res pyobj) : res pyobj :=
  try_except call (fun _ => Ok (PyStr [])).

(** How an awaited call ends: with a value, with an exception of class
    [Exception] (the ones of [exn]), or with one that is not of that class
    ([asyncio.CancelledError], [KeyboardInterrupt], [SystemExit]); the last
    ends the task, whatever [except Exception] handlers stand around it. *)
Inductive awaited (A : Type) :=
| Returned (a : A)
| Failed (e : exn)
| Cancelled.
Arguments Returned {A} a.
Arguments Failed {A} e.
Arguments Cancelled {A}.

Definition awaited_of_res {A} (r : res A) : awaited A :=
  match r with
  | Ok a => Returned a
  | Raise e => Failed e
  end.

(** [_generate_with_ai] again, as a task that can be cancelled: its
    [except Exception] lets the cancellation through. *)
Definition generate_with_ai_awaited (call : awaited pyobj) : awaited pyobj :=
  match call with
  | Returned response => Returned response
  | Failed _ => Returned (PyStr [])
  | Cancelled => Cancelled
  end.

(** A fenced block: the opening fence with an optional language tag on its
    line, the inner text, and the closing fence on a line of its own. *)
Definition fenced (tag inner : pystr) : pystr :=
  fence ++ tag ++ [LF] ++ inner ++ [LF] ++ fence.

(** What lines 126-127 make of the inner text of a block. *)
Definition drop_json_tag (inner : pystr) : pystr :=
  if startswith (strip inner) (py "json") then skipn 4 (strip inner) else inner.

(* PROTO-END *)
End Protocol.
Export Protocol.

(** ** Regular expressions: [re.sub]

    The fragment of Python's regular expressions that the patterns of
    [enhanced_synthesis_engine.py] use: literal characters, character
    classes, [.], [\s], greedy and lazy stars of a one-character matcher,
    [\b], and capturing groups that hold no group.  Matching backtracks as
    Python's does: alternatives are tried in the order of the pattern, a
    greedy star first takes as much as it can, a lazy star as little. *)

Module Re.

(** A matcher of one character. *)
Inductive cls :=
| CChar (c : N)                              (* a literal character *)
| CAny                                       (* [.], without [DOTALL] *)
| CAll                                       (* [.], with [DOTALL] *)
| CSpace                                     (* [\s] *)
| CSet (neg : bool) (ranges : list (N * N)). (* [[...]] and [[^...]] *)

Inductive atom :=
| One (c : cls)
| Star (greedy : bool) (c : cls)
| WordB.                                     (* [\b] *)

Inductive item :=
| Atom (a : atom)
| Group (body : list atom).

(** A replacement template: literal text and references [\1], [\2]. *)
Inductive part :=
| Lit (s : pystr)
| Ref (n : nat).

Definition in_range (x : N) (r : N * N) : bool :=
  ((fst r <=? x) && (x <=? snd r))%N.

Definition cls_match (c : cls) (x : N) : bool :=
  match c with
  | CChar y => (x =? y)%N
  | CAny => negb (x =? LF)%N
  | CAll => true
  | CSpace => is_space x
  | CSet neg ranges => xorb neg (existsb (in_range x) ranges)
  end.

(** [\w]: the underscore and the code points that [str.isalnum()] takes
    as letters or digits, by the table of Python 3.11 (Unicode 14.0.0). *)
Definition word_ranges : list (N * N) :=
    [(48, 57); (65, 90); (95, 95); (97, 122); (170, 170); (178, 179); (181, 181); (185, 186);
     (188, 190); (192, 214); (216, 246); (248, 705); (710, 721); (736, 740); (748, 748);
     (750, 750); (880, 884); (886, 887); (890, 893); (895, 895); (902, 902); (904, 906);
     (908, 908); (910, 929); (931, 1013); (1015, 1153); (1162, 1327); (1329, 1366);
     (1369, 1369); (1376, 1416); (1488, 1514); (1519, 1522); (1568, 1610); (1632, 1641);
     (1646, 1647); (1649, 1747); (1749, 1749); (1765, 1766); (1774, 1788); (1791, 1791);
     (1808, 1808); (1810, 1839); (1869, 1957); (1969, 1969); (1984, 2026); (2036, 2037);
     (2042, 2042); (2048, 2069); (2074, 2074); (2084, 2084); (2088, 2088); (2112, 2136);
     (2144, 2154); (2160, 2183); (2185, 2190); (2208, 2249); (2308, 2361); (2365, 2365);
     (2384, 2384); (2392, 2401); (2406, 2415); (2417, 2432); (2437, 2444); (2447, 2448);
     (2451, 2472); (2474, 2480); (2482, 2482); (2486, 2489); (2493, 2493); (2510, 2510);
     (2524, 2525); (2527, 2529); (2534, 2545); (2548, 2553); (2556, 2556); (2565, 2570);
     (2575, 2576); (2579, 2600); (2602, 2608); (2610, 2611); (2613, 2614); (2616, 2617);
     (2649, 2652); (2654, 2654); (2662, 2671); (2674, 2676); (2693, 2701); (2703, 2705);
     (2707, 2728); (2730, 2736); (2738, 2739); (2741, 2745); (2749, 2749); (2768, 2768);
     (2784, 2785); (2790, 2799); (2809, 2809); (2821, 2828); (2831, 2832); (2835, 2856);
     (2858, 2864); (2866, 2867); (2869, 2873); (2877, 2877); (2908, 2909); (2911, 2913);
     (2918, 2927); (2929, 2935); (2947, 2947); (2949, 2954); (2958, 2960); (2962, 2965);
     (2969, 2970); (2972, 2972); (2974, 2975); (2979, 2980); (2984, 2986); (2990, 3001);
     (3024, 3024); (3046, 3058); (3077, 3084); (3086, 3088); (3090, 3112); (3114, 3129);
     (3133, 3133); (3160, 3162); (3165, 3165); (3168, 3169); (3174, 3183); (3192, 3198);
     (3200, 3200); (3205, 3212); (3214, 3216); (3218, 3240); (3242, 3251); (3253, 3257);
     (3261, 3261); (3293, 3294); (3296, 3297); (3302, 3311); (3313, 3314); (3332, 3340);
     (3342, 3344); (3346, 3386); (3389, 3389); (3406, 3406); (3412, 3414); (3416, 3425);
     (3430, 3448); (3450, 3455); (3461, 3478); (3482, 3505); (3507, 3515); (3517, 3517);
     (3520, 3526); (3558, 3567); (3585, 3632); (3634, 3635); (3648, 3654); (3664, 3673);
     (3713, 3714); (3716, 3716); (3718, 3722); (3724, 3747); (3749, 3749); (3751, 3760);
     (3762, 3763); (3773, 3773); (3776, 3780); (3782, 3782); (3792, 3801); (3804, 3807);
     (3840, 3840); (3872, 3891); (3904, 3911); (3913, 3948); (3976, 3980); (4096, 4138);
     (4159, 4169); (4176, 4181); (4186, 4189); (4193, 4193); (4197, 4198); (4206, 4208);
     (4213, 4225); (4238, 4238); (4240, 4249); (4256, 4293); (4295, 4295); (4301, 4301);
     (4304, 4346); (4348, 4680); (4682, 4685); (4688, 4694); (4696, 4696); (4698, 4701);
     (4704, 4744); (4746, 4749); (4752, 4784); (4786, 4789); (4792, 4798); (4800, 4800);
     (4802, 4805); (4808, 4822); (4824, 4880); (4882, 4885); (4888, 4954); (4969, 4988);
     (4992, 5007); (5024, 5109); (5112, 5117); (5121, 5740); (5743, 5759); (5761, 5786);
     (5792, 5866); (5870, 5880); (5888, 5905); (5919, 5937); (5952, 5969); (5984, 5996);
     (5998, 6000); (6016, 6067); (6103, 6103); (6108, 6108); (6112, 6121); (6128, 6137);
     (6160, 6169); (6176, 6264); (6272, 6276); (6279, 6312); (6314, 6314); (6320, 6389);
     (6400, 6430); (6470, 6509); (6512, 6516); (6528, 6571); (6576, 6601); (6608, 6618);
     (6656, 6678); (6688, 6740); (6784, 6793); (6800, 6809); (6823, 6823); (6917, 6963);
     (6981, 6988); (6992, 7001); (7043, 7072); (7086, 7141); (7168, 7203); (7232, 7241);
     (7245, 7293); (7296, 7304); (7312, 7354); (7357, 7359); (7401, 7404); (7406, 7411);
     (7413, 7414); (7418, 7418); (7424, 7615); (7680, 7957); (7960, 7965); (7968, 8005);
     (8008, 8013); (8016, 8023); (8025, 8025); (8027, 8027); (8029, 8029); (8031, 8061);
     (8064, 8116); (8118, 8124); (8126, 8126); (8130, 8132); (8134, 8140); (8144, 8147);
     (8150, 8155); (8160, 8172); (8178, 8180); (8182, 8188); (8304, 8305); (8308, 8313);
     (8319, 8329); (8336, 8348); (8450, 8450); (8455, 8455); (8458, 8467); (8469, 8469);
     (8473, 8477); (8484, 8484); (8486, 8486); (8488, 8488); (8490, 8493); (8495, 8505);
     (8508, 8511); (8517, 8521); (8526, 8526); (8528, 8585); (9312, 9371); (9450, 9471);
     (10102, 10131); (11264, 11492); (11499, 11502); (11506, 11507); (11517, 11517);
     (11520, 11557); (11559, 11559); (11565, 11565); (11568, 11623); (11631, 11631);
     (11648, 11670); (11680, 11686); (11688, 11694); (11696, 11702); (11704, 11710);
     (11712, 11718); (11720, 11726); (11728, 11734); (11736, 11742); (11823, 11823);
     (12293, 12295); (12321, 12329); (12337, 12341); (12344, 12348); (12353, 12438);
     (12445, 12447); (12449, 12538); (12540, 12543); (12549, 12591); (12593, 12686);
     (12690, 12693); (12704, 12735); (12784, 12799); (12832, 12841); (12872, 12879);
     (12881, 12895); (12928, 12937); (12977, 12991); (13312, 19903); (19968, 42124);
     (42192, 42237); (42240, 42508); (42512, 42539); (42560, 42606); (42623, 42653);
     (42656, 42735); (42775, 42783); (42786, 42888); (42891, 42954); (42960, 42961);
     (42963, 42963); (42965, 42969); (42994, 43009); (43011, 43013); (43015, 43018);
     (43020, 43042); (43056, 43061); (43072, 43123); (43138, 43187); (43216, 43225);
     (43250, 43255); (43259, 43259); (43261, 43262); (43264, 43301); (43312, 43334);
     (43360, 43388); (43396, 43442); (43471, 43481); (43488, 43492); (43494, 43518);
     (43520, 43560); (43584, 43586); (43588, 43595); (43600, 43609); (43616, 43638);
     (43642, 43642); (43646, 43695); (43697, 43697); (43701, 43702); (43705, 43709);
     (43712, 43712); (43714, 43714); (43739, 43741); (43744, 43754); (43762, 43764);
     (43777, 43782); (43785, 43790); (43793, 43798); (43808, 43814); (43816, 43822);
     (43824, 43866); (43868, 43881); (43888, 44002); (44016, 44025); (44032, 55203);
     (55216, 55238); (55243, 55291); (63744, 64109); (64112, 64217); (64256, 64262);
     (64275, 64279); (64285, 64285); (64287, 64296); (64298, 64310); (64312, 64316);
     (64318, 64318); (64320, 64321); (64323, 64324); (64326, 64433); (64467, 64829);
     (64848, 64911); (64914, 64967); (65008, 65019); (65136, 65140); (65142, 65276);
     (65296, 65305); (65313, 65338); (65345, 65370); (65382, 65470); (65474, 65479);
     (65482, 65487); (65490, 65495); (65498, 65500); (65536, 65547); (65549, 65574);
     (65576, 65594); (65596, 65597); (65599, 65613); (65616, 65629); (65664, 65786);
     (65799, 65843); (65856, 65912); (65930, 65931); (66176, 66204); (66208, 66256);
     (66273, 66299); (66304, 66339); (66349, 66378); (66384, 66421); (66432, 66461);
     (66464, 66499); (66504, 66511); (66513, 66517); (66560, 66717); (66720, 66729);
     (66736, 66771); (66776, 66811); (66816, 66855); (66864, 66915); (66928, 66938);
     (66940, 66954); (66956, 66962); (66964, 66965); (66967, 66977); (66979, 66993);
     (66995, 67001); (67003, 67004); (67072, 67382); (67392, 67413); (67424, 67431);
     (67456, 67461); (67463, 67504); (67506, 67514); (67584, 67589); (67592, 67592);
     (67594, 67637); (67639, 67640); (67644, 67644); (67647, 67669); (67672, 67702);
     (67705, 67742); (67751, 67759); (67808, 67826); (67828, 67829); (67835, 67867);
     (67872, 67897); (67968, 68023); (68028, 68047); (68050, 68096); (68112, 68115);
     (68117, 68119); (68121, 68149); (68160, 68168); (68192, 68222); (68224, 68255);
     (68288, 68295); (68297, 68324); (68331, 68335); (68352, 68405); (68416, 68437);
     (68440, 68466); (68472, 68497); (68521, 68527); (68608, 68680); (68736, 68786);
     (68800, 68850); (68858, 68899); (68912, 68921); (69216, 69246); (69248, 69289);
     (69296, 69297); (69376, 69415); (69424, 69445); (69457, 69460); (69488, 69505);
     (69552, 69579); (69600, 69622); (69635, 69687); (69714, 69743); (69745, 69746);
     (69749, 69749); (69763, 69807); (69840, 69864); (69872, 69881); (69891, 69926);
     (69942, 69951); (69956, 69956); (69959, 69959); (69968, 70002); (70006, 70006);
     (70019, 70066); (70081, 70084); (70096, 70106); (70108, 70108); (70113, 70132);
     (70144, 70161); (70163, 70187); (70272, 70278); (70280, 70280); (70282, 70285);
     (70287, 70301); (70303, 70312); (70320, 70366); (70384, 70393); (70405, 70412);
     (70415, 70416); (70419, 70440); (70442, 70448); (70450, 70451); (70453, 70457);
     (70461, 70461); (70480, 70480); (70493, 70497); (70656, 70708); (70727, 70730);
     (70736, 70745); (70751, 70753); (70784, 70831); (70852, 70853); (70855, 70855);
     (70864, 70873); (71040, 71086); (71128, 71131); (71168, 71215); (71236, 71236);
     (71248, 71257); (71296, 71338); (71352, 71352); (71360, 71369); (71424, 71450);
     (71472, 71483); (71488, 71494); (71680, 71723); (71840, 71922); (71935, 71942);
     (71945, 71945); (71948, 71955); (71957, 71958); (71960, 71983); (71999, 71999);
     (72001, 72001); (72016, 72025); (72096, 72103); (72106, 72144); (72161, 72161);
     (72163, 72163); (72192, 72192); (72203, 72242); (72250, 72250); (72272, 72272);
     (72284, 72329); (72349, 72349); (72368, 72440); (72704, 72712); (72714, 72750);
     (72768, 72768); (72784, 72812); (72818, 72847); (72960, 72966); (72968, 72969);
     (72971, 73008); (73030, 73030); (73040, 73049); (73056, 73061); (73063, 73064);
     (73066, 73097); (73112, 73112); (73120, 73129); (73440, 73458); (73648, 73648);
     (73664, 73684); (73728, 74649); (74752, 74862); (74880, 75075); (77712, 77808);
     (77824, 78894); (82944, 83526); (92160, 92728); (92736, 92766); (92768, 92777);
     (92784, 92862); (92864, 92873); (92880, 92909); (92928, 92975); (92992, 92995);
     (93008, 93017); (93019, 93025); (93027, 93047); (93053, 93071); (93760, 93846);
     (93952, 94026); (94032, 94032); (94099, 94111); (94176, 94177); (94179, 94179);
     (94208, 100343); (100352, 101589); (101632, 101640); (110576, 110579); (110581, 110587);
     (110589, 110590); (110592, 110882); (110928, 110930); (110948, 110951); (110960, 111355);
     (113664, 113770); (113776, 113788); (113792, 113800); (113808, 113817); (119520, 119539);
     (119648, 119672); (119808, 119892); (119894, 119964); (119966, 119967); (119970, 119970);
     (119973, 119974); (119977, 119980); (119982, 119993); (119995, 119995); (119997, 120003);
     (120005, 120069); (120071, 120074); (120077, 120084); (120086, 120092); (120094, 120121);
     (120123, 120126); (120128, 120132); (120134, 120134); (120138, 120144); (120146, 120485);
     (120488, 120512); (120514, 120538); (120540, 120570); (120572, 120596); (120598, 120628);
     (120630, 120654); (120656, 120686); (120688, 120712); (120714, 120744); (120746, 120770);
     (120772, 120779); (120782, 120831); (122624, 122654); (123136, 123180); (123191, 123197);
     (123200, 123209); (123214, 123214); (123536, 123565); (123584, 123627); (123632, 123641);
     (124896, 124902); (124904, 124907); (124909, 124910); (124912, 124926); (124928, 125124);
     (125127, 125135); (125184, 125251); (125259, 125259); (125264, 125273); (126065, 126123);
     (126125, 126127); (126129, 126132); (126209, 126253); (126255, 126269); (126464, 126467);
     (126469, 126495); (126497, 126498); (126500, 126500); (126503, 126503); (126505, 126514);
     (126516, 126519); (126521, 126521); (126523, 126523); (126530, 126530); (126535, 126535);
     (126537, 126537); (126539, 126539); (126541, 126543); (126545, 126546); (126548, 126548);
     (126551, 126551); (126553, 126553); (126555, 126555); (126557, 126557); (126559, 126559);
     (126561, 126562); (126564, 126564); (126567, 126570); (126572, 126578); (126580, 126583);
     (126585, 126588); (126590, 126590); (126592, 126601); (126603, 126619); (126625, 126627);
     (126629, 126633); (126635, 126651); (127232, 127244); (130032, 130041); (131072, 173791);
     (173824, 177976); (177984, 178205); (178208, 183969); (183984, 191456); (194560, 195101);
     (196608, 201546)]%N.

Definition is_word (x : N) : bool := existsb (in_range x) word_ranges.

Definition word_before (prev : option N) : bool :=
  match prev with
  | Some x => is_word x
  | None => false
  end.

Definition word_after (s : pystr) : bool :=
  match s with
  | x :: _ => is_word x
  | [] => false
  end.

Section Matching.
Context {R : Type}.

(** [match_atoms atoms prev s k]: match [atoms] at the start of [s], the
    character before being [prev], then go on with [k]; [None] when every
    way of matching fails. *)
Fixpoint match_atoms (atoms : list atom) (prev : option N) (s : pystr)
    (k : option N -> pystr -> option R) : option R :=
  match atoms with
  | [] => k prev s
  | One c :: rest =>
      match s with
      | x :: s' => if cls_match c x then match_atoms rest (Some x) s' k else None
      | [] => None
      end
  | Star true c :: rest =>
      (fix loop (prev : option N) (s : pystr) : option R :=
         match s with
         | x :: s' =>
             if cls_match c x then
               match loop (Some x) s' with
               | Some r => Some r
               | None => match_atoms rest prev s k
               end
             else match_atoms rest prev s k
         | [] => match_atoms rest prev s k
         end) prev s
  | Star false c :: rest =>
      (fix loop (prev : option N) (s : pystr) : option R :=
         match match_atoms rest prev s k with
         | Some r => Some r
         | None =>
             match s with
             | x :: s' => if cls_match c x then loop (Some x) s' else None
             | [] => None
             end
         end) prev s
  | WordB :: rest =>
      if xorb (word_before prev) (word_after s) then match_atoms rest prev s k
      else None
  end.

Fixpoint match_items (items : list item) (prev : option N) (s : pystr)
    (caps : list pystr) (k : option N -> pystr -> list pystr -> option R) : option R :=
  match items with
  | [] => k prev s caps
  | Atom a :: rest =>
      match_atoms [a] prev s (fun prev' s' => match_items rest prev' s' caps k)
  | Group body :: rest =>
      match_atoms body prev s
        (fun prev' s' =>
           match_items rest prev' s'
             (caps ++ [firstn (length s - length s') s]) k)
  end.
End Matching.

(** The match of a pattern at the start of [s]: the groups, the last
    character matched and the text that follows. *)
Definition match_here (pattern : list item) (prev : option N) (s : pystr)
    : option (list pystr * option N * pystr) :=
  match_items pattern prev s [] (fun prev' s' caps => Some (caps, prev', s')).

Definition expand (template : list part) (caps : list pystr) : pystr :=
  flat_map (fun p => match p with
                     | Lit s => s
                     | Ref n => nth (n - 1) caps []
                     end) template.

(** [re.sub(pattern, template, text)]: the leftmost matches, none
    overlapping, each replaced by the expanded template. *)
Fixpoint sub_from (fuel : nat) (pattern : list item) (template : list part)
    (prev : option N) (s : pystr) : pystr :=
  match fuel with
  | O => s
  | S fuel' =>
      let copy_one :=
        match s with
        | x :: s' => x :: sub_from fuel' pattern template (Some x) s'
        | [] => []
        end in
      match match_here pattern prev s with
      | Some (caps, prev', s') =>
          if (length s' <? length s)%nat
          then expand template caps ++ sub_from fuel' pattern template prev' s'
          else expand template caps ++ copy_one
      | None => copy_one
      end
  end.

(** The substitution from a place of the text on, [prev] being the
    character before it. *)
Definition sub_text (pattern : list item) (template : list part) (prev : option N)
    (s : pystr) : pystr :=
  sub_from (S (length s)) pattern template prev s.

Definition re_sub (pattern : list item) (template : list part) (text : pystr) : pystr :=
  sub_text pattern template None text.

(** Patterns are written with these abbreviations. *)
Definition lit (s : string) : list item := map (fun c => Atom (One (CChar c))) (py s).
Definition set (ranges : list (N * N)) : cls := CSet false ranges.
Definition nset (ranges : list (N * N)) : cls := CSet true ranges.
Definition chr (s : string) : N * N := (ch s, ch s).
Definition rng (a b : string) : N * N := (ch a, ch b).
Definition spaces : item := Atom (Star true CSpace).

End Re.
Export Re.

(** ** The repair pass of [enhanced_synthesis_engine.py] *)

Module Synthesis.

(** Line 1672: two slashes, a lazy run of [.], a line feed. *)
Definition re_line_comment : list item :=
  lit "//" ++ [Atom (Star false CAny)] ++ [Atom (One (CChar LF))].
(** Line 1673: slash star, a lazy run of any characters, star slash. *)
Definition re_block_comment : list item :=
  lit "/*" ++ [Atom (Star false CAll)] ++ lit "*/".
(** Line 1676: a quote, a group of non-quotes, a quote and a colon. *)
Definition re_single_quoted_key : list item :=
  lit "'" ++ [Group [Star true (nset [chr "'"])]] ++ lit "':".
(** Line 1677: a colon, spaces, a quote, a group of non-quotes, a quote. *)
Definition re_single_quoted_value : list item :=
  lit ":" ++ [spaces] ++ lit "'" ++ [Group [Star true (nset [chr "'"])]] ++ lit "'".
(** Line 1680: a group of a brace or comma and spaces, a group holding an
    identifier, spaces, a colon. *)
Definition re_bare_key : list item :=
  [Group [One (set [chr "{"; chr ","]); Star true CSpace];
   Group [One (set [rng "a" "z"; rng "A" "Z"; chr "_"]);
          Star true (set [rng "a" "z"; rng "A" "Z"; rng "0" "9"; chr "_"])];
   spaces] ++ lit ":".
(** Line 1683: a comma, spaces, a group of a closing brace or bracket. *)
Definition re_trailing_comma : list item :=
  lit "," ++ [spaces; Group [One (set [chr "}"; chr "]"])]].
(** Lines 1686-1688: a closing character, spaces, a line feed, spaces, a
    double quote. *)
Definition re_missing_comma (opening : N) : list item :=
  [Atom (One (CChar opening)); spaces; Atom (One (CChar LF)); spaces;
   Atom (One (CChar dquote))].
(** Lines 1691-1693: a colon, spaces, the name, a word boundary. *)
Definition re_literal (name : string) : list item :=
  lit ":" ++ [spaces] ++ lit name ++ [Atom WordB].

(** [_repair_common_json_issues], lines 1666-1698.  [re.sub] on a string
    does not raise, so the handler of line 1696 is never entered. *)
Definition _repair_common_json_issues (json_text : pystr) : pystr :=
  let json_text := re_sub re_line_comment [Lit [LF]] json_text in
  let json_text := re_sub re_block_comment [] json_text in
  let json_text := re_sub re_single_quoted_key [Lit (py "~"); Ref 1; Lit (py "~:")] json_text in
  let json_text :=
    re_sub re_single_quoted_value [Lit (py ": ~"); Ref 1; Lit (py "~")] json_text in
  let json_text :=
    re_sub re_bare_key [Ref 1; Lit (py "~"); Ref 2; Lit (py "~:")] json_text in
  let json_text := re_sub re_trailing_comma [Ref 1] json_text in
  let json_text := re_sub (re_missing_comma dquote) [Lit (py "~,"); Lit [LF]; Lit (py "~")] json_text in
  let json_text := re_sub (re_missing_comma (ch "}")) [Lit (py "},"); Lit [LF]; Lit (py "~")] json_text in
  let json_text := re_sub (re_missing_comma (ch "]")) [Lit (py "],"); Lit [LF]; Lit (py "~")] json_text in
  let json_text := re_sub (re_literal "True") [Lit (py ": true")] json_text in
  let json_text := re_sub (re_literal "False") [Lit (py ": false")] json_text in
  let json_text := re_sub (re_literal "None") [Lit (py ": null")] json_text in
  strip json_text.

(** The stages the design document names, each as the substitutions that
    carry it out. *)
Definition strip_comments (t : pystr) : pystr :=
  re_sub re_block_comment [] (re_sub re_line_comment [Lit [LF]] t).
Definition normalize_single_quotes (t : pystr) : pystr :=
  re_sub re_single_quoted_value [Lit (py ": ~"); Ref 1; Lit (py "~")]
    (re_sub re_single_quoted_key [Lit (py "~"); Ref 1; Lit (py "~:")] t).
Definition quote_bare_keys (t : pystr) : pystr :=
  re_sub re_bare_key [Ref 1; Lit (py "~"); Ref 2; Lit (py "~:")] t.
Definition remove_trailing_commas (t : pystr) : pystr :=
  re_sub re_trailing_comma [Ref 1] t.
Definition insert_missing_commas (t : pystr) : pystr :=
  re_sub (re_missing_comma (ch "]")) [Lit (py "],"); Lit [LF]; Lit (py "~")]
    (re_sub (re_missing_comma (ch "}")) [Lit (py "},"); Lit [LF]; Lit (py "~")]
       (re_sub (re_missing_comma dquote) [Lit (py "~,"); Lit [LF]; Lit (py "~")] t)).
Definition normalize_literals (t : pystr) : pystr :=
  re_sub (re_literal "None") [Lit (py ": null")]
    (re_sub (re_literal "False") [Lit (py ": false")]
       (re_sub (re_literal "True") [Lit (py ": true")] t)).

End Synthesis.
Export Synthesis.

(** ** The phase pipeline controller of [cpl_devastador_protocol.py] *)

Module Controller.

(** *** Data *)

(** [ContextoEstrategico], lines 30-39. *)
Record ContextoEstrategico := {
  tema : pystr;
  segmento : pystr;
  publico_alvo : pystr;
  termos_chave : list pystr;
  frases_busca : list pystr;
  objecoes : list pystr;
  tendencias : list pystr;
  casos_sucesso : list pystr
}.

(** [EventoMagnetico], lines 41-47.  A dataclass does not check the type of
    its fields: they hold whatever was read from the JSON answer. *)
Record EventoMagnetico := {
  nome : json;
  promessa_central : json;
  arquitetura_cpls : json;
  mapeamento_psicologico : json;
  justificativa : json
}.

(** [CPLDevastador], lines 49-60. *)
Record CPLDevastador := {
  numero : Z;
  titulo : json;
  objetivo : json;
  conteudo_principal : json;
  loops_abertos : json;
  quebras_padrao : json;
  provas_sociais : json;
  elementos_cinematograficos : json;
  gatilhos_psicologicos : json;
  call_to_action : json
}.

(** *** Operations of Python on values read from JSON *)

(** [d[key]] *)
Definition py_getitem (d : json) (key : pystr) : res json :=
  match d with
  | JObj members =>
      match dict_get key members with
      | Some v => Ok v
      | None => Raise (KeyError key)
      end
  | _ => Raise TypeError
  end.

(** [d.get(key, default)] *)
Definition py_get (d : json) (key : pystr) (default : json) : res json :=
  match d with
  | JObj members =>
      match dict_get key members with
      | Some v => Ok v
      | None => Ok default
      end
  | _ => Raise AttributeError
  end.

Fixpoint all_strings (items : list json) : option (list pystr) :=
  match items with
  | [] => Some []
  | JStr s :: rest =>
      match all_strings rest with
      | Some l => Some (s :: l)
      | None => None
      end
  | _ :: _ => None
  end.

(** [sep.join(v)]: [v] must be an iterable of strings; a string is the
    iterable of its characters and a dict that of its keys. *)
Definition py_join (sep : pystr) (v : json) : res pystr :=
  match v with
  | JArr items =>
      match all_strings items with
      | Some l => Ok (join sep l)
      | None => Raise TypeError
      end
  | JStr s => Ok (join sep (map (fun c => [c]) s))
  | JObj members => Ok (join sep (map fst members))
  | _ => Raise TypeError
  end.

(** [for x in v]: the items of a list, the characters of a string, the
    keys of a dict. *)
Definition iter_items (v : json) : res (list json) :=
  match v with
  | JArr items => Ok items
  | JStr s => Ok (map (fun c => JStr [c]) s)
  | JObj members => Ok (map (fun kv => JStr (fst kv)) members)
  | _ => Raise TypeError
  end.

(** What the model takes from the Python runtime without computing it:
    [str(v)] for a value that is no string, [s.lower()],
    [json.dumps(v, ensure_ascii=False, indent=2)] and [str(e)] for an
    exception that Python itself raised. *)
Record runtime := {
  py_str : json -> pystr;
  py_lower : pystr -> pystr;
  py_dumps_indent : json -> pystr;
  py_str_exn : exn -> pystr
}.

(** [f"{v}"] and [str(v)] *)
Definition format_value (rt : runtime) (v : json) : pystr :=
  match v with
  | JStr s => s
  | _ => py_str rt v
  end.

(** [str(e)] *)
Definition str_exn (rt : runtime) (e : exn) : pystr :=
  match e with
  | Exception msg => msg
  | _ => py_str_exn rt e
  end.


Notation "'do' x <- e ;; k" := (rbind e (fun x => k))
  (at level 10, x name, e at level 99, k at level 200, only parsing).

(** *** The files and the step store *)

(** A path, as the list of its components; a session id is one component
    (it holds no [/]). *)
Abbreviation path := (list (list N)).

(** A file written by [json.dump]: the value it was written from, or the
    rest of a dump that an error interrupted. *)
Inductive dumped :=
| Dumped (v : json)
| Interrupted.

(** [resultado_final], lines 419-431. *)
Record resultado := {
  r_session_id : pystr;
  r_contexto : ContextoEstrategico;
  r_evento : EventoMagnetico;
  r_cpl1 : CPLDevastador;
  r_cpl2 : CPLDevastador;
  r_cpl3 : CPLDevastador;
  r_cpl4 : CPLDevastador;
  r_dados_busca : json;
  r_timestamp : pystr
}.

(** The payload of a record of the step store. *)
Inductive etapa_dados :=
| EIniciado (tema segmento publico_alvo timestamp : pystr)
| EConcluido (r : resultado) (timestamp : pystr)
| EErro (error : pystr) (timestamp : pystr).

Record etapa := {
  e_categoria : pystr;
  e_dados : etapa_dados
}.

(** The state the controller acts on: the text files with their bytes, the
    files written by [json.dump], and the step store of the job runner,
    keyed by session and step name.  The code writes a path either as text
    or as a dump, never as both. *)
Record world := {
  files : gmap path (list N);
  dumps : gmap path dumped;
  etapas : gmap (list N * list N) etapa
}.

Definition set_file (p : path) (b : list N) (w : world) : world :=
  {| files := <[p := b]> (files w); dumps := dumps w; etapas := etapas w |}.

Definition set_dump (p : path) (d : dumped) (w : world) : world :=
  {| files := files w; dumps := <[p := d]> (dumps w); etapas := etapas w |}.

(** What the operating system does with the [os.makedirs] and the
    [open(path, 'w')] for a file and with the writes that follow. *)
Inductive io_outcome := IoOk | IoOpenFails | IoWriteFails.

(** What a phase meets when it asks for a generation: no API object (the
    manager is [None], or getting the API raises), or a call of
    [api.generate] with its outcome. *)
Inductive api_behaviour :=
| ApiUnavailable (e : exn)
| ApiCall (outcome : res pyobj).

(** The module [services.real_search_orchestrator] in the process: it
    cannot be imported, or it can, with or without the class
    [RealSearchOrchestrator] (given by what [execute_massive_real_search]
    answers to a query and a session id) and with or without the instance
    [real_search_orchestrator] that [get_services] asks for. *)
Inductive search_module_state :=
| SearchModuleMissing
| SearchModule (orchestrator : option (pystr -> pystr -> res json)) (instance : bool).

(** What the other imports and constructions of [get_services] do. *)
Inductive services_outcome :=
| ServicesLoaded
| ServicesImportError
| ServicesRaise (ex : exn).

(** The collaborators and the environment of one run.  A collaborator is
    taken by what it answers: [enrich] is the enrichment service, [api] the
    generation of a phase, asked with the prompt, and [clock] the successive
    readings of [datetime.now().isoformat()]; [protocol_built] tells whether
    the module-level [CPLDevastadorProtocol()] of line 1106 was built. *)
Record env := {
  rt : runtime;
  enrich : pystr -> pystr -> pystr -> res ContextoEstrategico;
  search_module : search_module_state;
  other_services : services_outcome;
  protocol_built : bool;
  api : nat -> pystr -> api_behaviour;
  io : path -> io_outcome;
  clock : nat -> pystr
}.

(** [self.search_engine], lines 22-26 and 74-77: an orchestrator when the
    import of the class went through, [None] when it raised [ImportError]. *)
Definition search_engine (e : env) : option (pystr -> pystr -> res json) :=
  match search_module e with
  | SearchModuleMissing => None
  | SearchModule orchestrator _ => orchestrator
  end.

(** UTF-8: the bytes of one code point; a surrogate has none
    ([UnicodeEncodeError]). *)
Definition utf8_char (c : N) : option (list N) :=
  if (c <? 0x80)%N then Some [c]
  else if (c <? 0x800)%N then Some [0xC0 + c / 64; 0x80 + c mod 64]%N
  else if ((0xD800 <=? c) && (c <=? 0xDFFF))%N then None
  else if (c <? 0x10000)%N then
    Some [0xE0 + c / 4096; 0x80 + (c / 64) mod 64; 0x80 + c mod 64]%N
  else if (c <? 0x110000)%N then
    Some [0xF0 + c / 262144; 0x80 + (c / 4096) mod 64; 0x80 + (c / 64) mod 64;
          0x80 + c mod 64]%N
  else None.

Fixpoint utf8_encode (text : pystr) : option (list N) :=
  match text with
  | [] => Some []
  | c :: rest =>
      match utf8_char c, utf8_encode rest with
      | Some b, Some bs => Some (b ++ bs)
      | _, _ => None
      end
  end.

Definition encodable (text : pystr) : bool :=
  match utf8_encode text with
  | Some _ => true
  | None => false
  end.

(** Every string of a value, keys included, can be written in UTF-8. *)
Fixpoint json_encodable (v : json) : bool :=
  match v with
  | JStr s => encodable s
  | JArr items => forallb json_encodable items
  | JObj members =>
      forallb (fun kv => encodable (fst kv) && json_encodable (snd kv)) members
  | _ => true
  end.

(** The [f.write] calls of a [with open(p, 'w', encoding='utf-8')] block
    in their order, [None] standing for a statement of the block that
    raises: the bytes that reach the file, and whether the block ran to its
    end. *)
Fixpoint encode_chunks (chunks : list (option pystr)) : list N * bool :=
  match chunks with
  | [] => ([], true)
  | Some text :: rest =>
      match utf8_encode text with
      | Some b => let '(bs, ok) := encode_chunks rest in (b ++ bs, ok)
      | None => ([], false)
      end
  | None :: _ => ([], false)
  end.

(** Opening truncates the file; a write that the system refuses leaves it
    as it was opened, empty. *)
Definition write_chunks (e : env) (p : path) (chunks : list (option pystr)) (w : world)
    : bool * world :=
  match io e p with
  | IoOpenFails => (false, w)
  | IoWriteFails => (false, set_file p [] w)
  | IoOk => let '(b, ok) := encode_chunks chunks in (ok, set_file p b w)
  end.

Definition write_text (e : env) (p : path) (text : pystr) (w : world) : bool * world :=
  write_chunks e p [Some text] w.

(** [with open(p, 'w', encoding='utf-8') as f: json.dump(v, f,
    ensure_ascii=False, indent=2)] *)
Definition json_dump (e : env) (p : path) (v : json) (w : world) : bool * world :=
  match io e p with
  | IoOpenFails => (false, w)
  | IoWriteFails => (false, set_dump p Interrupted w)
  | IoOk =>
      if json_encodable v then (true, set_dump p (Dumped v) w)
      else (false, set_dump p Interrupted w)
  end.

(** [os.path.exists(p) and os.path.getsize(p) > 20] *)
Definition arquivo_valido (w : world) (p : path) : bool :=
  match files w !! p with
  | Some b => (20 <? length b)%nat
  | None => false
  end.

Definition session_dir (session_id : pystr) : path := [py "analyses_data"; session_id].

(** Modelled from the spec: [salvar_etapa] of [services.auto_save_manager],
    a module that is not among the sources.  The store keeps one record per
    session and step name, the last one written. *)
Definition salvar_etapa (nome : pystr) (dados : etapa_dados) (categoria session_id : pystr)
    (w : world) : world :=
  {| files := files w; dumps := dumps w;
     etapas := <[(session_id, nome) := {| e_categoria := categoria; e_dados := dados |}]>
                 (etapas w) |}.

(** *** The contextual artifacts, lines 870-942 *)

Definition bullets (items : list pystr) : pystr :=
  join [LF] (map (fun item => py "- " ++ item) items).

(** [x if x else default] on lists. *)
Definition or_default (items default : list pystr) : list pystr :=
  match items with
  | [] => default
  | _ => items
  end.

Definition termos_text (session_id : pystr) (termos : list pystr) : pystr :=
  py "# Termos-chave" ++ [LF; LF] ++ bullets termos ++ [LF; LF]
  ++ py "## Contexto" ++ [LF] ++ py "- Sessão: " ++ session_id ++ [LF]
  ++ py "- Total: " ++ str_of_nat (length termos).

Definition listed_text (title : pystr) (items : list pystr) : pystr :=
  title ++ [LF; LF] ++ bullets items ++ [LF; LF]
  ++ py "## Total: " ++ str_of_nat (length items).

Definition arquivo_termos (session_id : pystr) : path :=
  session_dir session_id ++ [py "contexto"; py "termos_chave.md"].
Definition arquivo_objecoes (session_id : pystr) : path :=
  session_dir session_id ++ [py "objecoes"; py "objecoes_principais.md"].
Definition arquivo_casos (session_id : pystr) : path :=
  session_dir session_id ++ [py "casos_sucesso"; py "casos_verificados.md"].
Definition arquivo_tendencias (session_id : pystr) : path :=
  session_dir session_id ++ [py "tendencias"; py "tendencias_atuais.md"].

(** [_salvar_dados_contextuais], lines 870-911: four writes, of which the
    first that fails ends the function.  Nothing is raised; the boolean
    tells which log line was written, [true] for the one of line 908. *)
Definition _salvar_dados_contextuais (e : env) (session_id : pystr) (search_results : json)
    (contexto : ContextoEstrategico) (w : world) : bool * world :=
  let termos :=
    or_default (termos_chave contexto)
      [py "marketing digital"; py "conversão"; py "vendas online"] in
  let objs :=
    or_default (objecoes contexto) [py "Preço alto"; py "Sem tempo"; py "Já tentei antes"] in
  let casos :=
    or_default (casos_sucesso contexto)
      [py "Aumento 300% vendas"; py "ROI 500%"; py "Crescimento 200%"] in
  let tends :=
    or_default (tendencias contexto)
      [py "IA em marketing"; py "Personalização"; py "Automação"] in
  let '(ok, w) := write_text e (arquivo_termos session_id) (termos_text session_id termos) w in
  if negb ok then (false, w) else
  let '(ok, w) :=
    write_text e (arquivo_objecoes session_id) (listed_text (py "# Objeções") objs) w in
  if negb ok then (false, w) else
  let '(ok, w) :=
    write_text e (arquivo_casos session_id) (listed_text (py "# Casos de Sucesso") casos) w in
  if negb ok then (false, w) else
  write_text e (arquivo_tendencias session_id) (listed_text (py "# Tendências") tends) w.

Definition arquivos_criticos (session_id : pystr) : list path :=
  [arquivo_termos session_id; arquivo_objecoes session_id; arquivo_casos session_id;
   arquivo_tendencias session_id].

(** [_validar_dados_coletados], lines 913-942. *)
Definition _validar_dados_coletados (session_id : pystr) (w : world) : bool :=
  let arquivos_validos :=
    length (List.filter (arquivo_valido w) (arquivos_criticos session_id)) in
  (2 <=? arquivos_validos)%nat.

(** *** The artifacts of the phases and of the result, lines 944-1101 *)

Definition pylist (items : list pystr) : json := JArr (map JStr items).

(** [asdict] on the three dataclasses. *)
Definition asdict_contexto (c : ContextoEstrategico) : json :=
  JObj [(py "tema", JStr (tema c)); (py "segmento", JStr (segmento c));
        (py "publico_alvo", JStr (publico_alvo c));
        (py "termos_chave", pylist (termos_chave c));
        (py "frases_busca", pylist (frases_busca c));
        (py "objecoes", pylist (objecoes c));
        (py "tendencias", pylist (tendencias c));
        (py "casos_sucesso", pylist (casos_sucesso c))].

Definition asdict_evento (ev : EventoMagnetico) : json :=
  JObj [(py "nome", nome ev); (py "promessa_central", promessa_central ev);
        (py "arquitetura_cpls", arquitetura_cpls ev);
        (py "mapeamento_psicologico", mapeamento_psicologico ev);
        (py "justificativa", justificativa ev)].

Definition asdict_cpl (c : CPLDevastador) : json :=
  JObj [(py "numero", JInt (numero c)); (py "titulo", titulo c); (py "objetivo", objetivo c);
        (py "conteudo_principal", conteudo_principal c);
        (py "loops_abertos", loops_abertos c); (py "quebras_padrao", quebras_padrao c);
        (py "provas_sociais", provas_sociais c);
        (py "elementos_cinematograficos", elementos_cinematograficos c);
        (py "gatilhos_psicologicos", gatilhos_psicologicos c);
        (py "call_to_action", call_to_action c)].

(** [_safe_asdict], lines 81-92, on a value that is no dataclass. *)
Definition _safe_asdict (rt : runtime) (obj : json) : json :=
  match obj with
  | JObj _ => obj
  | _ => JStr (format_value rt obj)
  end.

(** The dict of lines 419-431. *)
Definition resultado_json (r : resultado) : json :=
  JObj [(py "session_id", JStr (r_session_id r));
        (py "contexto_estrategico", asdict_contexto (r_contexto r));
        (py "evento_magnetico", asdict_evento (r_evento r));
        (py "cpls", JObj [(py "cpl1", asdict_cpl (r_cpl1 r)); (py "cpl2", asdict_cpl (r_cpl2 r));
                          (py "cpl3", asdict_cpl (r_cpl3 r)); (py "cpl4", asdict_cpl (r_cpl4 r))]);
        (py "dados_busca", r_dados_busca r);
        (py "timestamp", JStr (r_timestamp r))].

(** [s.endswith(suffix)] *)
Definition endswith (s suffix : pystr) : bool := startswith (rev s) (rev suffix).

(** The file names of lines 951-959. *)
Definition fase_filename (fase : Z) : pystr :=
  match fase with
  | 1 => py "cpl_protocol_1.json"
  | 2 => py "cpl1.md"
  | 3 => py "cpl2.md"
  | 4 => py "cpl3.md"
  | 5 => py "cpl4.md"
  | _ => py "fase_" ++ dumps_int fase ++ py ".md"
  end%Z.

Definition arquivo_fase (session_id : pystr) (fase : Z) : path :=
  session_dir session_id ++ [py "modules"; fase_filename fase].

(** The writes of lines 966-978. *)
Definition fase_chunks (rt : runtime) (fase : Z) (dados : json) : list (option pystr) :=
  match dados with
  | JObj members =>
      let titulo :=
        default (JStr (py "CPL " ++ dumps_int (fase - 1))) (dict_get (py "titulo") members) in
      let conteudo :=
        default (JStr (py_dumps_indent rt dados)) (dict_get (py "conteudo_principal") members) in
      [Some (py "# " ++ format_value rt titulo ++ [LF; LF] ++ format_value rt conteudo
             ++ [LF; LF])]
      ++ match dict_get (py "gatilhos_psicologicos") members with
         | Some gatilhos =>
             Some (py "## Gatilhos Psicológicos" ++ [LF])
             :: match iter_items gatilhos with
                | Ok items =>
                    map (fun gatilho => Some (py "- " ++ format_value rt gatilho ++ [LF])) items
                    ++ [Some [LF]]
                | Raise _ => [None]
                end
         | None => []
         end
      ++ match dict_get (py "call_to_action") members with
         | Some cta => [Some (py "## Call to Action" ++ [LF] ++ format_value rt cta ++ [LF; LF])]
         | None => []
         end
  | _ => [None]
  end.

(** [_salvar_fase], lines 944-983.  Whatever goes wrong is logged and
    nothing is raised. *)
Definition _salvar_fase (e : env) (session_id : pystr) (fase : Z) (dados : json) (w : world)
    : world :=
  let filepath := arquivo_fase session_id fase in
  if endswith (fase_filename fase) (py ".json") then snd (json_dump e filepath dados w)
  else snd (write_chunks e filepath (fase_chunks (rt e) fase dados) w).

Definition unlines (lines : list pystr) : pystr := flat_map (fun l => l ++ [LF]) lines.

(** [_gerar_resumo_markdown], lines 1064-1101. *)
Definition _gerar_resumo_markdown (rt : runtime) (r : resultado) : res pystr :=
  let fmt := format_value rt in
  do total_posts <- py_get (r_dados_busca r) (py "total_posts") (JInt 0) ;;
  do total_images <- py_get (r_dados_busca r) (py "total_images") (JInt 0) ;;
  do platforms <- py_get (r_dados_busca r) (py "platforms") (JObj []) ;;
  do keys <- match platforms with
          | JObj members => Ok (map fst members)
          | _ => Raise AttributeError
          end ;;
  Ok (unlines
        [py "# Protocolo CPLs Devastadores - Resultado Final";
         [];
         py "## Informações Gerais";
         py "- **Session ID**: " ++ r_session_id r;
         py "- **Data**: " ++ r_timestamp r;
         py "- **Tema**: " ++ tema (r_contexto r);
         py "- **Segmento**: " ++ segmento (r_contexto r);
         py "- **Público**: " ++ publico_alvo (r_contexto r);
         [];
         py "## Evento Magnético";
         py "- **Nome**: " ++ fmt (nome (r_evento r));
         py "- **Promessa**: " ++ fmt (promessa_central (r_evento r));
         [];
         py "## CPLs Gerados";
         [];
         py "### CPL1 - A Oportunidade Paralisante";
         py "- **Título**: " ++ fmt (titulo (r_cpl1 r));
         py "- **Objetivo**: " ++ fmt (objetivo (r_cpl1 r));
         [];
         py "### CPL2 - A Transformação Impossível";
         py "- **Título**: " ++ fmt (titulo (r_cpl2 r));
         py "- **Objetivo**: " ++ fmt (objetivo (r_cpl2 r));
         [];
         py "### CPL3 - O Caminho Revolucionário";
         py "- **Título**: " ++ fmt (titulo (r_cpl3 r));
         py "- **Objetivo**: " ++ fmt (objetivo (r_cpl3 r));
         [];
         py "### CPL4 - A Decisão Inevitável";
         py "- **Título**: " ++ fmt (titulo (r_cpl4 r));
         py "- **Objetivo**: " ++ fmt (objetivo (r_cpl4 r));
         [];
         py "## Estatísticas da Busca";
         py "- **Total de Posts**: " ++ fmt total_posts;
         py "- **Total de Imagens**: " ++ fmt total_images;
         py "- **Plataformas**: " ++ join (py ", ") keys]).

Definition arquivo_resultado (session_id : pystr) : path :=
  session_dir session_id ++ [py "cpl_protocol_result.json"].
Definition arquivo_resumo (session_id : pystr) : path :=
  session_dir session_id ++ [py "cpl_protocol_summary.md"].
Definition arquivo_completo (session_id : pystr) : path :=
  session_dir session_id ++ [py "modules"; py "cpl_completo.json"].

(** [_salvar_resultado_final], lines 985-1001: the summary is written only
    after the dump went through. *)
Definition _salvar_resultado_final (e : env) (session_id : pystr) (r : resultado) (w : world)
    : world :=
  let '(ok, w) := json_dump e (arquivo_resultado session_id) (resultado_json r) w in
  if negb ok then w else
  let resumo :=
    match _gerar_resumo_markdown (rt e) r with
    | Ok text => Some text
    | Raise _ => None
    end in
  snd (write_chunks e (arquivo_resumo session_id) [resumo] w).

(** The dict of lines 1010-1053. *)
Definition cpl_completo_data (e : env) (r : resultado) : json :=
  let fase := fun (titulo : pystr) (v : json) =>
    JObj [(py "titulo", JStr titulo); (py "descricao", JStr (py_str (rt e) v));
          (py "conteudo", JStr (py_dumps_indent (rt e) v))] in
  JObj [(py "titulo", JStr (py "Protocolo Integrado de CPLs Devastadores"));
        (py "descricao",
         JStr (py "Sistema completo de 5 fases para criação de CPLs devastadores"));
        (py "data_geracao", JStr (clock e 2));
        (py "status", JStr (py "completo"));
        (py "fases",
         JObj [(py "arquitetura_evento",
                fase (py "Arquitetura do Evento Magnético") (asdict_evento (r_evento r)));
               (py "cpl1", fase (py "CPL1 - A Oportunidade Paralisante") (asdict_cpl (r_cpl1 r)));
               (py "cpl2", fase (py "CPL2 - A Transformação Impossível") (asdict_cpl (r_cpl2 r)));
               (py "cpl3", fase (py "CPL3 - O Caminho Revolucionário") (asdict_cpl (r_cpl3 r)));
               (py "cpl4", fase (py "CPL4 - A Decisão Inevitável") (asdict_cpl (r_cpl4 r)))]);
        (py "consideracoes_finais",
         JObj [(py "total_fases", JInt 5);
               (py "contexto_estrategico", asdict_contexto (r_contexto r));
               (py "metricas_validacao", JStr (py "CPLs gerados com dados reais"));
               (py "proximos_passos",
                pylist [py "Revisar cada CPL individualmente";
                        py "Adaptar para tom de voz específico";
                        py "Criar materiais de apoio";
                        py "Implementar sequência de lançamento"])])].

(** [_salvar_cpl_completo_para_relatorios], lines 1003-1062. *)
Definition _salvar_cpl_completo_para_relatorios (e : env) (session_id : pystr) (r : resultado)
    (w : world) : world :=
  snd (json_dump e (arquivo_completo session_id) (cpl_completo_data e r) w).

(** *** The context, lines 300-366 *)

Definition definir_contexto_busca (e : env) (tema segmento publico_alvo : pystr)
    : ContextoEstrategico :=
  match enrich e tema segmento publico_alvo with
  | Ok enriched_context => enriched_context
  | Raise _ =>
      let lower := py_lower (rt e) in
      {| tema := tema;
         segmento := segmento;
         publico_alvo := publico_alvo;
         termos_chave :=
           [lower tema; lower segmento; py "estratégia"; py "resultado"; py "solução";
            py "método"; py "sistema"; py "processo"; py "técnica"; py "abordagem"];
         frases_busca :=
           [py "como resolver " ++ lower tema;
            py "melhor " ++ lower tema ++ py " para " ++ lower publico_alvo;
            lower tema ++ py " que funciona";
            py "estratégia de " ++ lower tema;
            py "resultado com " ++ lower tema];
         objecoes := [py "É muito caro"; py "Não tenho tempo"; py "Não vai funcionar para mim"];
         tendencias :=
           [py "Crescimento do mercado de " ++ lower tema;
            py "Digitalização em " ++ lower segmento];
         casos_sucesso :=
           [py "Cliente aumentou resultados em 200% com " ++ lower tema;
            py "Empresa transformou " ++ lower segmento ++ py " usando nova estratégia";
            publico_alvo ++ py " alcançou objetivo em 90 dias"] |}
  end.

(** *** The prompts *)

(** The prompt of phase 1, lines 450-489. *)
Definition prompt_fase_1 (contexto : ContextoEstrategico) : pystr :=
  py "
        # PROTOCOLO DE GERAÇÃO DE CPLs DEVASTADORES - FASE 1
        
        ## CONTEXTO
        Você é o núcleo estratégico do sistema ARQV30 Enhanced v3.0. Sua missão é criar um EVENTO MAGNÉTICO devastador que mova o avatar da paralisia para a ação obsessiva.
        
        ## DADOS DE ENTRADA
        - Tema: "
  ++ tema contexto
  ++ py "
        - Segmento: "
  ++ segmento contexto
  ++ py "
        - Público: "
  ++ publico_alvo contexto
  ++ py "
        - Termos-chave: "
  ++ join (py ", ") (termos_chave contexto)
  ++ py "
        - Objeções principais: "
  ++ join (py ", ") (objecoes contexto)
  ++ py "
        - Tendências: "
  ++ join (py ", ") (tendencias contexto)
  ++ py "
        - Casos de sucesso: "
  ++ join (py ", ") (casos_sucesso contexto)
  ++ py "
        
        ## TAREFA: ARQUITETURA DO EVENTO MAGNÉTICO
        
        Crie UMA versão de evento (escolha a mais devastadora):
        
        Formato JSON OBRIGATÓRIO:
        {
            ~versao_escolhida~: ~A~,
            ~nome_evento~: ~Nome Final Magnético~,
            ~promessa_central~: ~Promessa específica paralisante~,
            ~arquitetura_cpls~: {
                ~cpl1~: ~Título CPL1 - Objetivo~,
                ~cpl2~: ~Título CPL2 - Objetivo~, 
                ~cpl3~: ~Título CPL3 - Objetivo~,
                ~cpl4~: ~Título CPL4 - Objetivo~
            },
            ~mapeamento_psicologico~: {
                ~gatilho_principal~: ~Descrição do gatilho~,
                ~jornada_emocional~: ~Mapeamento da jornada~,
                ~pontos_pressao~: [~Ponto 1~, ~Ponto 2~, ~Ponto 3~]
            },
            ~justificativa~: ~Por que esta versão é devastadora~
        }
        
        RESPONDA APENAS COM O JSON. SEM TEXTO ADICIONAL!
        ".

(** The prompt of phase 2, lines 552-576; [.get] raises on a value that is no
    dict. *)
Definition prompt_fase_2 (rt : runtime) (contexto : ContextoEstrategico)
    (evento : EventoMagnetico) : res pystr :=
  rbind (py_get (arquitetura_cpls evento) (py "cpl1") (JStr []))
    (fun objetivo_cpl1 =>
       Ok (py "
        # PROTOCOLO DE GERAÇÃO DE CPLs DEVASTADORES - FASE 2: CPL1
        
        ## CONTEXTO DO EVENTO
        - Nome: "
           ++ format_value rt (nome evento)
           ++ py "
        - Promessa: "
           ++ format_value rt (promessa_central evento)
           ++ py "
        - Objetivo CPL1: "
           ++ format_value rt objetivo_cpl1
           ++ py "
        
        ## TAREFA: CPL1 - A OPORTUNIDADE PARALISANTE
        
        Formato JSON OBRIGATÓRIO:
        {
            ~titulo~: ~CPL1 - Título específico~,
            ~objetivo~: ~Objetivo claro~,
            ~conteudo_principal~: ~Conteúdo detalhado~,
            ~loops_abertos~: [~Loop 1~, ~Loop 2~, ~Loop 3~],
            ~quebras_padrao~: [~Quebra 1~, ~Quebra 2~, ~Quebra 3~],
            ~provas_sociais~: [~Prova 1~, ~Prova 2~, ~Prova 3~],
            ~elementos_cinematograficos~: [~Elemento 1~, ~Elemento 2~],
            ~gatilhos_psicologicos~: [~Gatilho 1~, ~Gatilho 2~],
            ~call_to_action~: ~CTA específico para CPL2~
        }
        
        RESPONDA APENAS COM O JSON. SEM TEXTO ADICIONAL!
        ")).

(** The prompt of phase 3, lines 638-658; [join] raises unless it is given
    strings. *)
Definition prompt_fase_3 (contexto : ContextoEstrategico) (cpl1 : CPLDevastador)
    : res pystr :=
  rbind (py_join (py ", ") (loops_abertos cpl1))
    (fun loops =>
       Ok (py "
        # PROTOCOLO - FASE 3: CPL2
        
        ## CONTINUIDADE DO CPL1
        - Loops: "
           ++ loops
           ++ py "
        
        Formato JSON OBRIGATÓRIO:
        {
            ~titulo~: ~CPL2 - Título~,
            ~objetivo~: ~Objetivo~,
            ~conteudo_principal~: ~Conteúdo~,
            ~loops_mantidos~: [~Loop 1~, ~Loop 2~],
            ~quebras_padrao~: [~Quebra 1~, ~Quebra 2~],
            ~casos_transformacao~: [~Caso 1~, ~Caso 2~],
            ~elementos_cinematograficos~: [~Elem 1~, ~Elem 2~],
            ~gatilhos_psicologicos~: [~Gatilho 1~, ~Gatilho 2~],
            ~call_to_action~: ~CTA para CPL3~
        }
        
        RESPONDA APENAS COM O JSON!
        ")).

(** The prompt of phase 4, lines 719-736: a text with no placeholder. *)
Definition prompt_fase_4 (contexto : ContextoEstrategico) (cpl2 : CPLDevastador)
    : pystr :=
  py "
        # PROTOCOLO - FASE 4: CPL3
        
        Formato JSON OBRIGATÓRIO:
        {
            ~titulo~: ~CPL3 - Nome do Método~,
            ~objetivo~: ~Objetivo~,
            ~nome_metodo~: ~Nome do método~,
            ~estrutura_passos~: [~Passo 1~, ~Passo 2~, ~Passo 3~],
            ~faq_estrategico~: [~FAQ 1~, ~FAQ 2~],
            ~justificativa_escassez~: ~Por que é limitado~,
            ~loops_fechados~: [~Loop fechado~],
            ~preparacao_decisao~: ~Preparação~,
            ~call_to_action~: ~CTA para CPL4~
        }
        
        RESPONDA APENAS COM O JSON!
        ".

(** The prompt of phase 5, lines 797-813: a text with no placeholder. *)
Definition prompt_fase_5 (contexto : ContextoEstrategico) (cpl3 : CPLDevastador)
    : pystr :=
  py "
        # PROTOCOLO - FASE 5: CPL4
        
        Formato JSON OBRIGATÓRIO:
        {
            ~titulo~: ~CPL4 - A Decisão Inevitável~,
            ~objetivo~: ~Conversão máxima~,
            ~stack_valor~: [~Bônus 1~, ~Bônus 2~, ~Bônus 3~],
            ~precificacao~: {~valor_total~: ~1000~, ~valor_oferta~: ~297~},
            ~garantias~: [~Garantia 1~, ~Garantia 2~],
            ~urgencia_final~: ~Razão urgência~,
            ~fechamento~: ~Script fechamento~,
            ~call_to_action~: ~CTA final~
        }
        
        RESPONDA APENAS COM O JSON!
        ".

(** *** The phases, lines 446-868 *)

(** [json.loads(response)], a [JSONDecodeError] being raised again as an
    [Exception]; the text of the decoder's message, which follows [msg] in
    the source, is left out: the handler of the phase only logs it. *)
Definition loads_or_raise (msg : string) (response : pystr) : res json :=
  match json_loads response with
  | Some data => Ok data
  | None => Raise (Exception (py msg))
  end.

(** The answer of a generation for the phases 2 to 5: lines 579-590,
    661-672, 739-750 and 816-827, which are the same. *)
Definition resposta_limpa (e : env) (fase : nat) (prompt : pystr) : res pystr :=
  match api e fase prompt with
  | ApiUnavailable ex => Raise ex
  | ApiCall outcome =>
      do response <- _generate_with_ai outcome ;;
      do response <- _clean_json_response response ;;
      if pystr_eqb response [] then
        do response <- _generate_fallback_response prompt ;;
        _clean_json_response (PyStr response)
      else Ok response
  end.

(** [json.loads(self._generate_fallback_response(prompt))] *)
Definition fallback_data (prompt : pystr) : res json :=
  do fallback_response <- _generate_fallback_response prompt ;;
  match json_loads fallback_response with
  | Some data => Ok data
  | None => Raise JSONDecodeError
  end.

(** The outcome of a phase: what its [try] block computed is saved and
    returned; when the block raised, the handler's value is returned and
    nothing is saved. *)
Definition concluir {A} (e : env) (session_id : pystr) (fase : Z) (attempt : res (json * A))
    (handler : res A) (w : world) : res A * world :=
  match attempt with
  | Ok (dados, a) => (Ok a, _salvar_fase e session_id fase dados w)
  | Raise _ => (handler, w)
  end.

Definition mapear_evento (evento_data : json) : res EventoMagnetico :=
  do nome <- py_getitem evento_data (py "nome_evento") ;;
  do promessa_central <- py_getitem evento_data (py "promessa_central") ;;
  do arquitetura_cpls <- py_getitem evento_data (py "arquitetura_cpls") ;;
  do mapeamento_psicologico <- py_getitem evento_data (py "mapeamento_psicologico") ;;
  do justificativa <- py_getitem evento_data (py "justificativa") ;;
  Ok {| nome := nome; promessa_central := promessa_central;
        arquitetura_cpls := arquitetura_cpls;
        mapeamento_psicologico := mapeamento_psicologico;
        justificativa := justificativa |}.

(** [_fase_1_arquitetura_evento], lines 446-546. *)
Definition _fase_1_arquitetura_evento (e : env) (session_id : pystr)
    (contexto : ContextoEstrategico) (w : world) : res EventoMagnetico * world :=
  let prompt := prompt_fase_1 contexto in
  let attempt :=
    match api e 1 prompt with
    | ApiUnavailable ex => Raise ex
    | ApiCall outcome =>
        do response <- _generate_with_ai outcome ;;
        match response with
        | PyStr text =>
            if pystr_eqb text [] then Raise (Exception (py "API retornou resposta vazia"))
            else
              do response <- _clean_json_response (PyStr (strip text)) ;;
              if pystr_eqb response [] then
                Raise (Exception (py "API retornou resposta vazia após limpeza"))
              else
                do evento_data <- loads_or_raise "Resposta inválida da API: " response ;;
                do evento <- mapear_evento evento_data ;;
                Ok (evento_data, evento)
        | PyNone => Raise (Exception (py "API retornou resposta vazia"))
        | PyOther truth _ =>
            do _ <- truth ;; Raise (Exception (py "API retornou resposta vazia"))
        end
    end in
  concluir e session_id 1 attempt (do evento_data <- fallback_data prompt ;; mapear_evento evento_data) w.

(** The mapping of lines 599-610; [strict] is the one of the handler,
    lines 621-632, which reads [provas_sociais] without a default. *)
Definition mapear_cpl1 (strict : bool) (cpl1_data : json) : res CPLDevastador :=
  do titulo <- py_getitem cpl1_data (py "titulo") ;;
  do objetivo <- py_getitem cpl1_data (py "objetivo") ;;
  do conteudo_principal <- py_getitem cpl1_data (py "conteudo_principal") ;;
  do loops_abertos <- py_getitem cpl1_data (py "loops_abertos") ;;
  do quebras_padrao <- py_getitem cpl1_data (py "quebras_padrao") ;;
  do provas_sociais <- (if strict then py_getitem cpl1_data (py "provas_sociais")
                     else py_get cpl1_data (py "provas_sociais") (JArr [])) ;;
  do elementos_cinematograficos <- py_getitem cpl1_data (py "elementos_cinematograficos") ;;
  do gatilhos_psicologicos <- py_getitem cpl1_data (py "gatilhos_psicologicos") ;;
  do call_to_action <- py_getitem cpl1_data (py "call_to_action") ;;
  Ok {| numero := 1; titulo := titulo; objetivo := objetivo;
        conteudo_principal := conteudo_principal; loops_abertos := loops_abertos;
        quebras_padrao := quebras_padrao; provas_sociais := provas_sociais;
        elementos_cinematograficos := elementos_cinematograficos;
        gatilhos_psicologicos := gatilhos_psicologicos;
        call_to_action := call_to_action |}.

(** [_fase_2_cpl1_oportunidade], lines 548-632.  The prompt is built before
    the [try]: what it raises leaves the phase. *)
Definition _fase_2_cpl1_oportunidade (e : env) (session_id : pystr)
    (contexto : ContextoEstrategico) (evento : EventoMagnetico) (w : world)
    : res CPLDevastador * world :=
  match prompt_fase_2 (rt e) contexto evento with
  | Raise ex => (Raise ex, w)
  | Ok prompt =>
      let attempt :=
        do response <- resposta_limpa e 2 prompt ;;
        do cpl1_data <- loads_or_raise "Resposta inválida da API: " response ;;
        do cpl1 <- mapear_cpl1 false cpl1_data ;;
        Ok (cpl1_data, cpl1) in
      concluir e session_id 2 attempt (do cpl1_data <- fallback_data prompt ;; mapear_cpl1 true cpl1_data) w
  end.

(** The mapping of lines 680-691, and with [handler] that of lines
    702-713, which reads the lists under other keys. *)
Definition mapear_cpl2 (handler : bool) (cpl2_data : json) : res CPLDevastador :=
  do titulo <- py_getitem cpl2_data (py "titulo") ;;
  do objetivo <- py_getitem cpl2_data (py "objetivo") ;;
  do conteudo_principal <- py_getitem cpl2_data (py "conteudo_principal") ;;
  do loops_abertos <-
    py_get cpl2_data (if handler then py "loops_abertos" else py "loops_mantidos") (JArr []) ;;
  do quebras_padrao <- py_get cpl2_data (py "quebras_padrao") (JArr []) ;;
  do provas_sociais <-
    py_get cpl2_data (if handler then py "provas_sociais" else py "casos_transformacao")
      (JArr []) ;;
  do elementos_cinematograficos <- py_getitem cpl2_data (py "elementos_cinematograficos") ;;
  do gatilhos_psicologicos <- py_getitem cpl2_data (py "gatilhos_psicologicos") ;;
  do call_to_action <- py_getitem cpl2_data (py "call_to_action") ;;
  Ok {| numero := 2; titulo := titulo; objetivo := objetivo;
        conteudo_principal := conteudo_principal; loops_abertos := loops_abertos;
        quebras_padrao := quebras_padrao; provas_sociais := provas_sociais;
        elementos_cinematograficos := elementos_cinematograficos;
        gatilhos_psicologicos := gatilhos_psicologicos;
        call_to_action := call_to_action |}.

(** [_fase_3_cpl2_transformacao], lines 634-713. *)
Definition _fase_3_cpl2_transformacao (e : env) (session_id : pystr)
    (contexto : ContextoEstrategico) (cpl1 : CPLDevastador) (w : world)
    : res CPLDevastador * world :=
  match prompt_fase_3 contexto cpl1 with
  | Raise ex => (Raise ex, w)
  | Ok prompt =>
      let attempt :=
        do response <- resposta_limpa e 3 prompt ;;
        do cpl2_data <- loads_or_raise "Resposta inválida: " response ;;
        do cpl2 <- mapear_cpl2 false cpl2_data ;;
        Ok (cpl2_data, cpl2) in
      concluir e session_id 3 attempt (do cpl2_data <- fallback_data prompt ;; mapear_cpl2 true cpl2_data) w
  end.

(** The mapping of lines 758-769. *)
Definition mapear_cpl3 (cpl3_data : json) : res CPLDevastador :=
  do titulo <- py_getitem cpl3_data (py "titulo") ;;
  do objetivo <- py_getitem cpl3_data (py "objetivo") ;;
  do conteudo_principal <- py_get cpl3_data (py "nome_metodo") (JStr []) ;;
  do quebras_padrao <- py_get cpl3_data (py "estrutura_passos") (JArr []) ;;
  do provas_sociais <- py_get cpl3_data (py "faq_estrategico") (JArr []) ;;
  do justificativa_escassez <- py_get cpl3_data (py "justificativa_escassez") (JStr []) ;;
  do preparacao_decisao <- py_get cpl3_data (py "preparacao_decisao") (JStr []) ;;
  do call_to_action <- py_getitem cpl3_data (py "call_to_action") ;;
  Ok {| numero := 3; titulo := titulo; objetivo := objetivo;
        conteudo_principal := conteudo_principal; loops_abertos := JArr [];
        quebras_padrao := quebras_padrao; provas_sociais := provas_sociais;
        elementos_cinematograficos := JArr [justificativa_escassez];
        gatilhos_psicologicos := JArr [preparacao_decisao];
        call_to_action := call_to_action |}.

(** The mapping of the handlers of the phases 4 and 5, lines 780-791 and
    857-868, which differ in the number only. *)
Definition mapear_cpl_fallback (numero : Z) (data : json) : res CPLDevastador :=
  do titulo <- py_getitem data (py "titulo") ;;
  do objetivo <- py_getitem data (py "objetivo") ;;
  do conteudo_principal <- py_get data (py "conteudo_principal") (JStr []) ;;
  do quebras_padrao <- py_get data (py "quebras_padrao") (JArr []) ;;
  do provas_sociais <- py_get data (py "provas_sociais") (JArr []) ;;
  do elementos_cinematograficos <- py_getitem data (py "elementos_cinematograficos") ;;
  do gatilhos_psicologicos <- py_getitem data (py "gatilhos_psicologicos") ;;
  do call_to_action <- py_getitem data (py "call_to_action") ;;
  Ok {| numero := numero; titulo := titulo; objetivo := objetivo;
        conteudo_principal := conteudo_principal; loops_abertos := JArr [];
        quebras_padrao := quebras_padrao; provas_sociais := provas_sociais;
        elementos_cinematograficos := elementos_cinematograficos;
        gatilhos_psicologicos := gatilhos_psicologicos;
        call_to_action := call_to_action |}.

(** [_fase_4_cpl3_caminho], lines 715-791. *)
Definition _fase_4_cpl3_caminho (e : env) (session_id : pystr)
    (contexto : ContextoEstrategico) (cpl2 : CPLDevastador) (w : world)
    : res CPLDevastador * world :=
  let prompt := prompt_fase_4 contexto cpl2 in
  let attempt :=
    do response <- resposta_limpa e 4 prompt ;;
    do cpl3_data <- loads_or_raise "Resposta inválida: " response ;;
    do cpl3 <- mapear_cpl3 cpl3_data ;;
    Ok (cpl3_data, cpl3) in
  concluir e session_id 4 attempt (do cpl3_data <- fallback_data prompt ;; mapear_cpl_fallback 3 cpl3_data) w.

(** The mapping of lines 835-846. *)
Definition mapear_cpl4 (rt : runtime) (cpl4_data : json) : res CPLDevastador :=
  do titulo <- py_getitem cpl4_data (py "titulo") ;;
  do objetivo <- py_getitem cpl4_data (py "objetivo") ;;
  do conteudo_principal <- py_get cpl4_data (py "fechamento") (JStr []) ;;
  do quebras_padrao <- py_get cpl4_data (py "stack_valor") (JArr []) ;;
  do provas_sociais <- py_get cpl4_data (py "garantias") (JArr []) ;;
  do urgencia_final <- py_get cpl4_data (py "urgencia_final") (JStr []) ;;
  do precificacao <- py_get cpl4_data (py "precificacao") (JObj []) ;;
  do call_to_action <- py_getitem cpl4_data (py "call_to_action") ;;
  Ok {| numero := 4; titulo := titulo; objetivo := objetivo;
        conteudo_principal := conteudo_principal; loops_abertos := JArr [];
        quebras_padrao := quebras_padrao; provas_sociais := provas_sociais;
        elementos_cinematograficos := JArr [urgencia_final];
        gatilhos_psicologicos := JArr [JStr (format_value rt precificacao)];
        call_to_action := call_to_action |}.

(** [_fase_5_cpl4_decisao], lines 793-868. *)
Definition _fase_5_cpl4_decisao (e : env) (session_id : pystr)
    (contexto : ContextoEstrategico) (cpl3 : CPLDevastador) (w : world)
    : res CPLDevastador * world :=
  let prompt := prompt_fase_5 contexto cpl3 in
  let attempt :=
    do response <- resposta_limpa e 5 prompt ;;
    do cpl4_data <- loads_or_raise "Resposta inválida: " response ;;
    do cpl4 <- mapear_cpl4 (rt e) cpl4_data ;;
    Ok (cpl4_data, cpl4) in
  concluir e session_id 5 attempt (do cpl4_data <- fallback_data prompt ;; mapear_cpl_fallback 4 cpl4_data) w.

(** *** The pipeline, lines 368-444 *)

(** A computation on the world that may raise. *)
Definition M (A : Type) : Type := world -> res A * world.

Definition ret {A} (a : A) : M A := fun w => (Ok a, w).
Definition raise {A} (ex : exn) : M A := fun w => (Raise ex, w).
Definition lift {A} (r : res A) : M A := fun w => (r, w).
Definition effect (f : world -> world) : M unit := fun w => (Ok tt, f w).
Definition observe {A} (f : world -> A) : M A := fun w => (Ok (f w), w).
Definition bind {A B} (m : M A) (k : A -> M B) : M B :=
  fun w =>
    match m w with
    | (Ok a, w') => k a w'
    | (Raise ex, w') => (Raise ex, w')
    end.

Notation "'do' x <~ m ;; k" := (bind m (fun x => k))
  (at level 10, x name, m at level 99, k at level 200, only parsing).

(** The query of line 383. *)
Definition query (tema segmento publico_alvo : pystr) : pystr :=
  tema ++ py " " ++ segmento ++ py " " ++ publico_alvo.

(** Lines 398-440 of [executar_protocolo_completo]: the five phases, the
    result and its files. *)
Definition executar_fases (e : env) (session_id : pystr) (contexto : ContextoEstrategico)
    (search_results : json) : M resultado :=
  do evento_magnetico <~ _fase_1_arquitetura_evento e session_id contexto ;;
  do cpl1 <~ _fase_2_cpl1_oportunidade e session_id contexto evento_magnetico ;;
  do cpl2 <~ _fase_3_cpl2_transformacao e session_id contexto cpl1 ;;
  do cpl3 <~ _fase_4_cpl3_caminho e session_id contexto cpl2 ;;
  do cpl4 <~ _fase_5_cpl4_decisao e session_id contexto cpl3 ;;
  let resultado_final :=
    {| r_session_id := session_id;
       r_contexto := contexto;
       r_evento := evento_magnetico;
       r_cpl1 := cpl1; r_cpl2 := cpl2; r_cpl3 := cpl3; r_cpl4 := cpl4;
       r_dados_busca := _safe_asdict (rt e) search_results;
       r_timestamp := clock e 1 |} in
  do _ <~ effect (_salvar_resultado_final e session_id resultado_final) ;;
  do _ <~ effect (_salvar_cpl_completo_para_relatorios e session_id resultado_final) ;;
  ret resultado_final.

(** [executar_protocolo_completo], lines 368-444; its handler logs and
    raises again. *)
Definition executar_protocolo_completo (e : env)
    (tema segmento publico_alvo session_id : pystr) : M resultado :=
  let contexto := definir_contexto_busca e tema segmento publico_alvo in
  do search_results <~
    match search_engine e with
    | Some execute_massive_real_search =>
        lift (execute_massive_real_search (query tema segmento publico_alvo) session_id)
    | None =>
        raise (Exception (py "Search engine é obrigatório - não há dados simulados permitidos"))
    end ;;
  do _ <~ effect (fun w =>
                    snd (_salvar_dados_contextuais e session_id search_results contexto w)) ;;
  do validos <~ observe (_validar_dados_coletados session_id) ;;
  if negb validos then raise (Exception (py "Dados insuficientes coletados"))
  else executar_fases e session_id contexto search_results.

(** *** The job runner, [enhanced_workflow.py] lines 21-49 and 522-570 *)

(** [get_services], lines 21-49: [None] when an import raises
    [ImportError], the first being that of the search module; otherwise the
    dict of the services, taken here by whether it holds a protocol
    ([get_cpl_protocol()] gives [None] when none was built). *)
Definition get_services (e : env) : res (option bool) :=
  match search_module e with
  | SearchModuleMissing | SearchModule _ false => Ok None
  | SearchModule _ true =>
      match other_services e with
      | ServicesLoaded => Ok (Some (protocol_built e))
      | ServicesImportError => Ok None
      | ServicesRaise ex => Raise ex
      end
  end.

(** [execute_cpl_devastador_thread], with the variables it takes from
    [start_cpl_devastador] as arguments. *)
Definition execute_cpl_devastador_thread (e : env)
    (tema segmento publico_alvo session_id : pystr) (w : world) : world :=
  let erro := fun error : pystr =>
    salvar_etapa (py "cpl_devastador_erro") (EErro error (clock e 3)) (py "cpl") session_id in
  match get_services e with
  | Raise ex => erro (str_exn (rt e) ex) w
  | Ok None | Ok (Some false) => erro (py "Protocolo CPL Devastador não disponível") w
  | Ok (Some true) =>
      match executar_protocolo_completo e tema segmento publico_alvo session_id w with
      | (Ok resultado, w) =>
          salvar_etapa (py "cpl_devastador_concluido") (EConcluido resultado (clock e 3))
            (py "cpl") session_id w
      | (Raise ex, w) => erro (str_exn (rt e) ex) w
      end
  end.

(** *** Sample collaborators, for the examples *)

Definition runtime_sample : runtime :=
  {| py_str := fun v => json_dumps v;
     py_lower := fun s => s;
     py_dumps_indent := fun v => json_dumps v;
     py_str_exn := fun _ => py "error" |}.

(** An environment whose enrichment service is missing and whose search
    answers with an empty dict. *)
Definition env_sample (api : nat -> pystr -> api_behaviour) (io : path -> io_outcome) : env :=
  {| rt := runtime_sample;
     enrich := fun _ _ _ => Raise AttributeError;
     search_module := SearchModule (Some (fun _ _ => Ok (JObj []))) true;
     other_services := ServicesLoaded;
     protocol_built := true;
     api := api;
     io := io;
     clock := fun _ => py "2024-01-01T00:00:00" |}.

(** The environment [e] with another search module. *)
Definition com_busca (e : env) (m : search_module_state) : env :=
  {| rt := rt e; enrich := enrich e; search_module := m;
     other_services := other_services e; protocol_built := protocol_built e; api := api e;
     io := io e; clock := clock e |}.

(** [e] when the search module cannot be imported. *)
Definition env_sem_busca (e : env) : env := com_busca e SearchModuleMissing.

Definition world_empty : world := {| files := ∅; dumps := ∅; etapas := ∅ |}.

Definition contexto_vazio : ContextoEstrategico :=
  {| tema := py "Marketing Digital"; segmento := py "E-commerce";
     publico_alvo := py "Pequenos empresários"; termos_chave := []; frases_busca := [];
     objecoes := []; tendencias := []; casos_sucesso := [] |}.

Definition api_vazia : nat -> pystr -> api_behaviour := fun _ _ => ApiCall (Ok (PyStr [])).
Definition api_texto (text : string) : nat -> pystr -> api_behaviour :=
  fun _ _ => ApiCall (Ok (PyStr (py text))).
Definition api_ausente : nat -> pystr -> api_behaviour := fun _ _ => ApiUnavailable AttributeError.
Definition io_ok : path -> io_outcome := fun _ => IoOk.

Definition evento_sample : EventoMagnetico :=
  {| nome := JStr (py "Evento"); promessa_central := JStr (py "Promessa");
     arquitetura_cpls := JObj [(py "cpl1", JStr (py "Abertura"))];
     mapeamento_psicologico := JObj []; justificativa := JStr (py "Porque sim") |}.

Definition cpl_sample (numero : Z) (titulo : string) (loops : list pystr) : CPLDevastador :=
  {| numero := numero; titulo := JStr (py titulo); objetivo := JStr (py "Objetivo");
     conteudo_principal := JStr (py "Texto"); loops_abertos := pylist loops;
     quebras_padrao := JArr []; provas_sociais := JArr [];
     elementos_cinematograficos := JArr []; gatilhos_psicologicos := JArr [];
     call_to_action := JStr (py "Siga") |}.

(** An operating system that refuses every file but the four contextual
    ones of the session. *)
Definition io_so_contexto (session_id : pystr) : path -> io_outcome :=
  fun p => if existsb (fun q => if decide (p = q) then true else false)
                (arquivos_criticos session_id)
           then IoOk else IoOpenFails.

Definition io_recusa : path -> io_outcome := fun _ => IoOpenFails.

(** The prompts of the phases 2 and 3 for the sample event and unit. *)
Definition prompt_2_sample : pystr :=
  match prompt_fase_2 runtime_sample contexto_vazio evento_sample with
  | Ok prompt => prompt
  | Raise _ => []
  end.

Definition prompt_3_sample : pystr :=
  match prompt_fase_3 contexto_vazio (cpl_sample 1 "CPL1" [py "Loop A"; py "Loop B"]) with
  | Ok prompt => prompt
  | Raise _ => []
  end.

(** *** Notions of the statements *)

(** The exceptions that a phase lets through. *)
Definition erro_de_fase (ex : exn) : Prop :=
  ex = AttributeError \/ ex = TypeError \/ ex = KeyError (py "titulo")
  \/ ex = KeyError (py "elementos_cinematograficos").

(** A file that counts for the sufficiency check. *)
Definition artefato_suficiente (w : world) (p : path) : Prop :=
  exists b, files w !! p = Some b /\ (20 < length b)%nat.

(** The environment [e] with another operating system. *)
Definition com_io (e : env) (io' : path -> io_outcome) : env :=
  {| rt := rt e; enrich := enrich e; search_module := search_module e;
     other_services := other_services e; protocol_built := protocol_built e; api := api e;
     io := io'; clock := clock e |}.

(** The environment [e] with another generation capability. *)
Definition com_api (e : env) (api' : nat -> pystr -> api_behaviour) : env :=
  {| rt := rt e; enrich := enrich e; search_module := search_module e;
     other_services := other_services e; protocol_built := protocol_built e; api := api';
     io := io e; clock := clock e |}.

End Controller.
Export Controller.

(** ** The routes of [enhanced_workflow.py], lines 491-664 *)

Module Workflow.

(** A response: the status and the body given to [jsonify]. *)
Record http := {
  http_status : nat;
  http_body : json
}.

(** A generation that gives nothing to read: the call raises, or it
    returns [None], an empty string or another false object. *)
Definition geracao_sem_resposta (b : api_behaviour) : Prop :=
  match b with
  | ApiCall (Raise _) => True
  | ApiCall (Ok response) => truthy_obj response = Ok false
  | ApiUnavailable _ => False
  end.

(** The paths of the files that are there. *)
Definition all_paths (w : world) : list path :=
  map fst (map_to_list (files w)) ++ map fst (map_to_list (dumps w)).

(** [os.path.exists(p)] for the path of a file. *)
Definition path_exists (w : world) (p : path) : bool :=
  match files w !! p, dumps w !! p with
  | None, None => false
  | _, _ => true
  end.

(** [glob.glob(f"analyses_data/{session_id}/cpl_devastador_erro*")] finds
    something: an entry of the directory of the session has a name that
    starts so (the session id holds no character that [glob] reads as a
    pattern). *)
Definition has_error_file (w : world) (session_id : pystr) : bool :=
  existsb (fun p => match p with
                    | root :: session :: name :: _ =>
                        pystr_eqb root (py "analyses_data") && pystr_eqb session session_id
                        && startswith name (py "cpl_devastador_erro")
                    | _ => false
                    end) (all_paths w).

Definition status_phases (state : string) : json :=
  JObj (map (fun phase => (py phase, JStr (py state)))
          ["contexto_busca"; "coleta_dados"; "arquitetura_evento"; "cpl1_oportunidade";
           "cpl2_transformacao"; "cpl3_caminho"; "cpl4_decisao"]%string).

(** [get_cpl_devastador_status], lines 592-636.  Nothing in its [try]
    block raises. *)
Definition get_cpl_devastador_status (e : env) (session_id : pystr) (w : world) : http :=
  let status :=
    [(py "session_id", JStr session_id);
     (py "protocol", JStr (py "cpl_devastador"));
     (py "status", JStr (py "pending"));
     (py "progress_percentage", JInt 0);
     (py "current_phase", JStr (py "iniciando"));
     (py "phases", status_phases "pending");
     (py "last_update", JStr (clock e 4))] in
  let status :=
    if path_exists w (arquivo_resultado session_id) then
      dict_set (py "phases") (status_phases "completed")
        (dict_set (py "current_phase") (JStr (py "concluido"))
           (dict_set (py "progress_percentage") (JInt 100)
              (dict_set (py "status") (JStr (py "completed")) status)))
    else status in
  let status :=
    if has_error_file w session_id then
      dict_set (py "error") (JStr (py "Erro detectado na execução do protocolo"))
        (dict_set (py "status") (JStr (py "failed")) status)
    else status in
  {| http_status := 200; http_body := JObj status |}.

(** [get_cpl_devastador_results], lines 638-664.  [load_text] is
    [json.load] on a file that was written as text; a dump that went through
    is read back as the value it was written from, and reading an
    interrupted one raises. *)
Definition get_cpl_devastador_results (e : env) (load_text : list N -> res json)
    (session_id : pystr) (w : world) : http :=
  let result_file := arquivo_resultado session_id in
  if negb (path_exists w result_file) then
    {| http_status := 404;
       http_body := JObj [(py "session_id", JStr session_id);
                          (py "error", JStr (py "Resultados não encontrados"))] |}
  else
    let loaded :=
      match dumps w !! result_file with
      | Some (Dumped v) => Ok v
      | Some Interrupted => Raise JSONDecodeError
      | None =>
          match files w !! result_file with
          | Some b => load_text b
          | None => Raise OSError
          end
      end in
    match loaded with
    | Ok resultado =>
        {| http_status := 200;
           http_body := JObj [(py "success", JBool true); (py "session_id", JStr session_id);
                              (py "resultado", resultado)] |}
    | Raise ex =>
        {| http_status := 500;
           http_body := JObj [(py "session_id", JStr session_id);
                              (py "error", JStr (str_exn (rt e) ex))] |}
    end.

(** [data.get(key, '').strip()]: only a string has [strip]. *)
Definition request_text (data : json) (key : pystr) : res pystr :=
  do v <- py_get data key (JStr []) ;;
  match v with
  | JStr s => Ok (strip s)
  | _ => Raise AttributeError
  end.

(** [data.get('session_id') or fresh]: the id of the request when it is a
    string that is not empty, [fresh] when it is missing or false; [None]
    for an id that is true and no string, which this model leaves out. *)
Definition request_session_id (data : json) (fresh : pystr) : res (option pystr) :=
  do v <- py_get data (py "session_id") JNull ;;
  match v with
  | JStr [] | JNull | JBool false | JInt 0 | JArr [] | JObj [] => Ok (Some fresh)
  | JStr s => Ok (Some s)
  | _ => Ok None
  end.

(** [start_cpl_devastador], lines 491-590.  [data] is the body of the
    request and [fresh] the session id that line 498 would generate; the
    thread is run to its end. *)
Definition start_cpl_devastador (e : env) (fresh : pystr) (data : json) (w : world)
    : option (http * world) :=
  let failed := fun ex : exn =>
    Some ({| http_status := 500;
             http_body :=
               JObj [(py "success", JBool false); (py "error", JStr (str_exn (rt e) ex));
                     (py "message", JStr (py "Falha ao iniciar protocolo CPL Devastador"))] |},
          w) in
  match request_session_id data fresh with
  | Raise ex => failed ex
  | Ok None => None
  | Ok (Some session_id) =>
      match
        (do tema <- request_text data (py "tema") ;;
         do segmento <- request_text data (py "segmento") ;;
         do publico_alvo <- request_text data (py "publico_alvo") ;;
         Ok (tema, segmento, publico_alvo))
      with
      | Raise ex => failed ex
      | Ok (tema, segmento, publico_alvo) =>
          if pystr_eqb tema [] then
            Some ({| http_status := 400;
                     http_body := JObj [(py "error", JStr (py "Tema é obrigatório"))] |}, w)
          else
            let w :=
              salvar_etapa (py "cpl_devastador_iniciado")
                (EIniciado tema segmento publico_alvo (clock e 0)) (py "cpl") session_id w in
            let w := execute_cpl_devastador_thread e tema segmento publico_alvo session_id w in
            Some ({| http_status := 200;
                     http_body :=
                       JObj [(py "success", JBool true); (py "session_id", JStr session_id);
                             (py "message",
                              JStr (py "Protocolo CPL Devastador iniciado em segundo plano"));
                             (py "estimated_duration", JStr (py "5-8 minutos"));
                             (py "status_endpoint",
                              JStr (py "/api/workflow/cpl_devastador/status/"
                                    ++ session_id))] |}, w)
      end
  end.

End Workflow.
Export Workflow.

(** ** Payloads with the defects that the repair pass is for *)

Module Defects.

(** The identifiers that the pattern of bare keys takes: a letter or an
    underscore, then letters, digits and underscores. *)
Definition ident_start : cls := set [rng "a" "z"; rng "A" "Z"; chr "_"].
Definition ident_char : cls := set [rng "a" "z"; rng "A" "Z"; rng "0" "9"; chr "_"].

Definition identifier (k : pystr) : bool :=
  match k with
  | c :: r => cls_match ident_start c && forallb (cls_match ident_char) r
  | [] => false
  end.

(** The characters of the strings: those of an identifier and the space. *)
Definition text_char (c : N) : bool := cls_match ident_char c || (c =? ch " ")%N.

(** The three constants of Python that JSON writes otherwise. *)
Inductive pyliteral := LTrue | LFalse | LNone.

Definition json_of (l : pyliteral) : json :=
  match l with
  | LTrue => JBool true
  | LFalse => JBool false
  | LNone => JNull
  end.

(** The text of a constant once [n] of the three substitutions of lines
    1691-1693 are done: Python's at first, JSON's in the end. *)
Definition literal_after (n : nat) (l : pyliteral) : pystr :=
  match l with
  | LTrue => if (1 <=? n)%nat then py "true" else py "True"
  | LFalse => if (2 <=? n)%nat then py "false" else py "False"
  | LNone => if (3 <=? n)%nat then py "null" else py "None"
  end.

(** How a key is written. *)
Inductive key_style := Bare | SingleQuoted | DoubleQuoted.

(** A value: a constant of Python, or a string in single or double quotes. *)
Inductive value :=
| Const (l : pyliteral)
| Text (single_quoted : bool) (s : pystr).

Record member := { quoting : key_style; key : pystr; val : value }.

Definition well_formed (m : member) : bool :=
  identifier (key m)
  && match val m with
     | Const _ => true
     | Text _ s => forallb text_char s
     end.

Definition json_value (v : value) : json :=
  match v with
  | Const l => json_of l
  | Text _ s => JStr s
  end.

Definition quoted (q : N) (s : pystr) : pystr := [q] ++ s ++ [q].

(** The text of a key once [n] of the twelve substitutions of lines
    1672-1693 are done: the third one rewrites the single quotes and the
    fifth one quotes the bare keys. *)
Definition key_text (n : nat) (m : member) : pystr :=
  match quoting m with
  | Bare => if (5 <=? n)%nat then quoted dquote (key m) else key m
  | SingleQuoted => quoted (if (3 <=? n)%nat then dquote else ch "'") (key m)
  | DoubleQuoted => quoted dquote (key m)
  end.

(** The text of a value: the fourth substitution rewrites the single
    quotes, the last three the constants. *)
Definition value_text (n : nat) (v : value) : pystr :=
  match v with
  | Const l => literal_after (n - 9) l
  | Text single s => quoted (if (n <? 4)%nat && single then ch "'" else dquote) s
  end.

Definition member_text (n : nat) (m : member) : pystr :=
  key_text n m ++ py ": " ++ value_text n (val m).

(** The end of the object: the sixth substitution removes the comma. *)
Definition closing (n : nat) (trailing_comma : bool) : pystr :=
  (if (n <? 6)%nat && trailing_comma then py "," else []) ++ py "}".

(** A flat object: the members with a comma and a space between them. *)
Definition render (n : nat) (ms : list member) (trailing_comma : bool) : pystr :=
  py "{" ++ join (py ", ") (map (member_text n) ms) ++ closing n trailing_comma.

(** The payload as a Python programmer may write it. *)
Definition payload (ms : list member) (trailing_comma : bool) : pystr :=
  render 0 ms trailing_comma.

(** The data it is meant to be. *)
Definition intended (ms : list member) : json :=
  JObj (mkdict (map (fun m => (key m, json_value (val m))) ms)).

(** The punctuation and the letters of the constants, at every stage. *)
Definition fixed_chars : pystr := py "'~: TrueFalseNonetruefalsenull".

(** The first single quote of a text, if it has one, does not end a key:
    no colon follows it. *)
Fixpoint no_key_quote (s : pystr) : bool :=
  match s with
  | [] => true
  | x :: s' =>
      if (x =? ch "'")%N then
        match s' with
        | y :: _ => negb (y =? ch ":")%N
        | [] => true
        end
      else no_key_quote s'
  end.

(** The text goes on with a comma or with the closing brace. *)
Definition member_ends (s : pystr) : bool :=
  match s with
  | x :: _ => (x =? ch ",")%N || (x =? ch "}")%N
  | [] => false
  end.

End Defects.
Export Defects.

(* DEFS-END *)

(** * Properties *)

Example py_literal : py "é~→" = [233; 34; 8594]%N.
Proof. reflexivity. Qed.

Example strip_example : strip (py "  a b ") = py "a b".
Proof. reflexivity. Qed.

Example split_example :
  split_lines [97; 10; 98; 10]%N = [[97]; [98]; []]%N.
Proof. reflexivity. Qed.

Example str_of_nat_example : str_of_nat 120 = py "120".
Proof. reflexivity. Qed.

Example loads_nested :
  json_loads (py " {~a~: [1, -2.5e3, true, null], ~bé~: {~k~: ~v\n~}, ~a~: ~x~} ")
  = Some (JObj [(py "a", JStr (py "x"));
                (py "bé", JObj [(py "k", JStr [118; 10]%N)])]).
Proof. vm_compute. reflexivity. Qed.

Example loads_surrogates :
  json_loads (py "~😀\ud83dx~") = Some (JStr [128512; 55357; 120]%N).
Proof. vm_compute. reflexivity. Qed.

Example loads_rejects :
  map json_loads [py "oops"; py "{~a~: 1,}"; py "[1 2]"; py "01"; py "1."; py "{'a': 1}"; py ""]
  = [None; None; None; None; None; None; None].
Proof. vm_compute. reflexivity. Qed.

Example dumps_example :
  json_dumps (JObj [(py "k", JArr [JStr (py "ação → x"); JInt (-12)])])
  = py "{~k~: [~a\u00e7\u00e3o \u2192 x~, -12]}".
Proof. vm_compute. reflexivity. Qed.

Example clean_fenced :
  _clean_json_response (PyStr (py "  ```json
{~a~: 1}
```
")) = Ok (py "{~a~: 1}").
Proof. vm_compute. reflexivity. Qed.

Example clean_two_lines :
  _clean_json_response (PyStr (py "```json
{~a~: 1}```")) = Ok (py "{~a~: 1}```").
Proof. vm_compute. reflexivity. Qed.

Example fallback_default_text :
  _generate_fallback_response (py "qualquer coisa")
  = Ok (py "{~status~: ~fallback_response~, ~message~: ~Resposta estruturada b\u00e1sica gerada~, ~data~: ~Conte\u00fado baseado em estrutura padr\u00e3o~}").
Proof. vm_compute. reflexivity. Qed.

(** ** The resilient generator *)

(** Every placeholder payload is read back by [json.loads] as itself. *)
Lemma fallback_payloads_roundtrip :
  Forall (fun v => json_loads (json_dumps v) = Some v)
    [fallback_evento; fallback_cpl1; fallback_cpl2; fallback_cpl3; fallback_cpl4;
     fallback_default].
Proof. repeat constructor; vm_compute; reflexivity. Qed.

Lemma fallback_error_text_parses :
  json_loads fallback_error_text
  = Some (JObj [(py "error", JStr (py "Falha na geração de resposta"));
                (py "status", JStr (py "error"))]).
Proof. vm_compute. reflexivity. Qed.

(** The fallback always answers with the text of one of its six payloads. *)
Lemma fallback_response_cases (prompt : pystr) :
  exists v,
    In v [fallback_evento; fallback_cpl1; fallback_cpl2; fallback_cpl3; fallback_cpl4;
          fallback_default]
    /\ _generate_fallback_response prompt = Ok (json_dumps v).
Proof.
  unfold _generate_fallback_response, try_except.
  match goal with
  | |- context [if ?b then Ok (json_dumps fallback_evento) else _] => destruct b
  end; [exists fallback_evento; split; [left; reflexivity | reflexivity] |].
  match goal with
  | |- context [if ?b then Ok (json_dumps fallback_cpl1) else _] => destruct b
  end; [exists fallback_cpl1; split; [right; left; reflexivity | reflexivity] |].
  match goal with
  | |- context [if ?b then Ok (json_dumps fallback_cpl2) else _] => destruct b
  end; [exists fallback_cpl2; split; [do 2 right; left; reflexivity | reflexivity] |].
  match goal with
  | |- context [if ?b then Ok (json_dumps fallback_cpl3) else _] => destruct b
  end; [exists fallback_cpl3; split; [do 3 right; left; reflexivity | reflexivity] |].
  match goal with
  | |- context [if ?b then Ok (json_dumps fallback_cpl4) else _] => destruct b
  end; [exists fallback_cpl4; split; [do 4 right; left; reflexivity | reflexivity] |].
  exists fallback_default; split; [do 5 right; left; reflexivity | reflexivity].
Qed.

(** The sanitizer returns for every object whose truth value can be
    taken, and raises what the truth test raises. *)
Lemma clean_returns (response : pyobj) (truthy : bool) :
  truthy_obj response = Ok truthy -> exists s, _clean_json_response response = Ok s.
Proof.
  intros T. unfold _clean_json_response. rewrite T. unfold rbind at 1.
  destruct (negb truthy); [eexists; reflexivity |].
  destruct response as [| s | t [s |]]; simpl;
    repeat match goal with
           | |- context [if ?b then _ else _] => destruct b
           end;
    eexists; reflexivity.
Qed.

Lemma clean_raises (response : pyobj) (ex : exn) :
  truthy_obj response = Raise ex -> _clean_json_response response = Raise ex.
Proof. intros T. unfold _clean_json_response. rewrite T. reflexivity. Qed.




(** ** Texts: lines, joins and stripping *)

Lemma pystr_eqb_eq (a b : pystr) : pystr_eqb a b = true <-> a = b.
Proof.
  revert b. induction a as [| x a IH]; intros [| y b]; simpl; try easy.
  rewrite andb_true_iff, N.eqb_eq, IH. split; [intros [-> ->]; reflexivity |].
  intros H; injection H; auto.
Qed.

Lemma split_lines_nonempty (s : pystr) : split_lines s <> [].
Proof.
  induction s as [| c s IH]; simpl; [easy |].
  destruct (c =? LF)%N; [easy |]. destruct (split_lines s); easy.
Qed.

Lemma split_lines_app (a b : pystr) :
  split_lines (a ++ LF :: b) = split_lines a ++ split_lines b.
Proof.
  induction a as [| c a IH]; simpl.
  - reflexivity.
  - destruct (c =? LF)%N eqn:E.
    + rewrite IH. reflexivity.
    + rewrite IH. pose proof (split_lines_nonempty a) as Hne.
      destruct (split_lines a); [easy | reflexivity].
Qed.

Lemma split_lines_one_line (a : pystr) : ~ In LF a -> split_lines a = [a].
Proof.
  induction a as [| c a IH]; simpl; intros Hnot; [reflexivity |].
  destruct (N.eqb_spec c LF) as [-> | _]; [tauto |].
  rewrite IH by tauto. reflexivity.
Qed.

Lemma join_split_lines (s : pystr) : join [LF] (split_lines s) = s.
Proof.
  induction s as [| c s IH]; simpl; [reflexivity |].
  pose proof (split_lines_nonempty s) as Hne.
  destruct (N.eqb_spec c LF) as [-> | _].
  - destruct (split_lines s) as [| l ls]; [easy |].
    change (join [LF] ([] :: l :: ls)) with ([] ++ [LF] ++ join [LF] (l :: ls)).
    rewrite IH. reflexivity.
  - destruct (split_lines s) as [| l ls]; [easy |].
    destruct ls as [| l' ls].
    + simpl in *. rewrite IH. reflexivity.
    + change (join [LF] ((c :: l) :: l' :: ls))
        with (c :: (l ++ [LF] ++ join [LF] (l' :: ls))).
      change (join [LF] (l :: l' :: ls)) with (l ++ [LF] ++ join [LF] (l' :: ls)) in IH.
      rewrite IH. reflexivity.
Qed.

Lemma startswith_app (p s : pystr) : startswith (p ++ s) p = true.
Proof.
  induction p as [| a p IH]; simpl; [destruct s; reflexivity |].
  rewrite N.eqb_refl. exact IH.
Qed.

(** A text is its stripped part between two runs of white space. *)
Lemma lstrip_split (s : pystr) :
  exists w, s = w ++ lstrip s /\ forallb is_space w = true.
Proof.
  induction s as [| c s (w & Hs & Hw)]; simpl.
  - exists []. split; reflexivity.
  - destruct (is_space c) eqn:E.
    + exists (c :: w). simpl. rewrite E, Hw. split; [congruence | reflexivity].
    + exists []. split; reflexivity.
Qed.

Lemma rstrip_split (s : pystr) :
  exists w, s = rstrip s ++ w /\ forallb is_space w = true.
Proof.
  unfold rstrip. destruct (lstrip_split (rev s)) as (w & Hs & Hw).
  exists (rev w). split.
  - rewrite <- rev_app_distr, <- Hs, rev_involutive. reflexivity.
  - rewrite forallb_forall in *. intros x Hx. apply Hw. apply in_rev. exact Hx.
Qed.

Lemma lstrip_head_not_space (s : pystr) (c : N) (r : pystr) :
  lstrip s = c :: r -> is_space c = false.
Proof.
  induction s as [| x s IH]; simpl; [easy |].
  destruct (is_space x) eqn:E; [exact IH |].
  intros H; injection H as -> _. exact E.
Qed.

(** ** The decoder and white space *)

Lemma run_app (st : state) (a b : pystr) : run st (a ++ b) = run (run st a) b.
Proof. apply fold_left_app. Qed.

Lemma step_err (stack : list frame) (c : N) : step (MErr, stack) c = err.
Proof. reflexivity. Qed.

Lemma run_err (text : pystr) : run err text = err.
Proof. induction text as [| c text IH]; [reflexivity | exact IH]. Qed.

Lemma is_space_cases (c : N) : is_space c = true -> In c space_chars.
Proof.
  unfold is_space. rewrite existsb_exists. intros (x & Hin & Heq).
  apply N.eqb_eq in Heq. subst. exact Hin.
Qed.

(** Every white-space character is either skipped at the start of a text or
    refused there. *)
Lemma step_init_space (c : N) :
  is_space c = true -> step init c = init \/ step init c = err.
Proof.
  intros H. apply is_space_cases in H. simpl in H.
  repeat (destruct H as [<- | H]; [vm_compute; auto |]). destruct H.
Qed.

Lemma loads_lstrip (text : pystr) (v : json) :
  json_loads text = Some v -> json_loads (lstrip text) = Some v.
Proof.
  unfold json_loads. induction text as [| c text IH]; [easy |].
  cbn [lstrip]. destruct (is_space c) eqn:E; [| easy].
  intros H. apply IH.
  change (run init (c :: text)) with (run (step init c) text) in H.
  destruct (step_init_space c E) as [Hs | Hs]; rewrite Hs in H; [exact H |].
  rewrite run_err in H. discriminate.
Qed.

Lemma start_value_lit_ok (c : N) (stack : list frame) : lit_ok (start_value c stack).
Proof.
  unfold start_value.
  repeat match goal with
         | |- lit_ok (if ?b then _ else _) => destruct b
         | |- lit_ok (MLit _ _, _) => reflexivity
         | |- lit_ok (_, _) => exact I
         | |- lit_ok err => exact I
         end.
Qed.

Lemma after_value_lit_ok (v : json) (c : N) (stack : list frame) :
  lit_ok (after_value v c stack).
Proof.
  unfold after_value.
  repeat match goal with
         | |- lit_ok (if ?b then _ else _) => destruct b
         | |- lit_ok (match ?x with _ => _ end) => destruct x
         | |- lit_ok (_, _) => exact I
         | |- lit_ok err => exact I
         end.
Qed.

Ltac lit_ok_cases :=
  repeat match goal with
         | |- lit_ok (start_value _ _) => apply start_value_lit_ok
         | |- lit_ok (after_value _ _ _) => apply after_value_lit_ok
         | |- lit_ok (if ?b then _ else _) => destruct b
         | |- lit_ok (match ?x with _ => _ end) => destruct x
         | |- lit_ok (_, _) => exact I
         | |- lit_ok err => exact I
         end.

Lemma step_lit_ok (st : state) (c : N) : lit_ok st -> lit_ok (step st c).
Proof.
  destruct st as [m stack]. intros Hok.
  destruct m as [| | | | key | v | is_key st acc | st lex | rest v |];
    cbv beta iota delta [step].
  - lit_ok_cases.
  - lit_ok_cases.
  - lit_ok_cases.
  - lit_ok_cases.
  - lit_ok_cases.
  - lit_ok_cases.
  - unfold step_string, plain_char, escaped_char, unit_read, end_string.
    lit_ok_cases.
  - unfold step_number.
    destruct st; lit_ok_cases; reflexivity.
  - cbn [lit_ok] in Hok. destruct rest as [| x [| y rest]]; [exact I | |].
    + destruct (c =? x)%N; exact I.
    + destruct (c =? x)%N; [| exact I].
      cbn [lit_ok]. cbn [forallb] in Hok |- *.
      apply andb_true_iff in Hok. tauto.
  - exact I.
Qed.

Lemma run_lit_ok (text : pystr) (st : state) : lit_ok st -> lit_ok (run st text).
Proof.
  revert st. induction text as [| c text IH]; intros st H; [exact H |].
  apply IH. apply step_lit_ok. exact H.
Qed.

(** Reading one more white-space character never turns an unfinished text
    into a finished one, and never changes the value of a finished one. *)
Lemma finish_step_space (st : state) (c : N) (v : json) :
  lit_ok st -> is_space c = true ->
  finish (step st c) = Some v -> finish st = Some v.
Proof.
  intros Hok Hc. destruct st as [m stack].
  destruct m as [| | | | key | w | is_key st acc | st lex | rest w |].
  - apply is_space_cases in Hc. simpl in Hc.
    repeat (destruct Hc as [<- | Hc]; [vm_compute; congruence |]). destruct Hc.
  - apply is_space_cases in Hc. simpl in Hc.
    repeat (destruct Hc as [<- | Hc]; [vm_compute; congruence |]). destruct Hc.
  - apply is_space_cases in Hc. simpl in Hc.
    repeat (destruct Hc as [<- | Hc]; [vm_compute; congruence |]). destruct Hc.
  - apply is_space_cases in Hc. simpl in Hc.
    repeat (destruct Hc as [<- | Hc]; [vm_compute; congruence |]). destruct Hc.
  - apply is_space_cases in Hc. simpl in Hc.
    repeat (destruct Hc as [<- | Hc]; [vm_compute; congruence |]). destruct Hc.
  - apply is_space_cases in Hc. simpl in Hc.
    repeat (destruct Hc as [<- | Hc];
            [destruct stack as [| [acc | acc | acc key] stack]; vm_compute; congruence |]).
    destruct Hc.
  - apply is_space_cases in Hc. simpl in Hc.
    repeat (destruct Hc as [<- | Hc];
            [destruct st as [| [h |] | hi [| [| [| k]]] a | h], is_key;
             try destruct hi; vm_compute; congruence |]).
    destruct Hc.
  - apply is_space_cases in Hc. simpl in Hc.
    repeat (destruct Hc as [<- | Hc];
            [destruct st, stack as [| [acc | acc | acc key] stack];
             vm_compute; congruence |]).
    destruct Hc.
  - simpl in Hok. unfold step.
    destruct rest as [| x [| y rest]]; [discriminate | |].
    + simpl in Hok. rewrite andb_true_r in Hok.
      destruct (N.eqb_spec c x) as [-> | _]; [| discriminate].
      rewrite Hc in Hok. discriminate.
    + destruct (c =? x)%N; discriminate.
  - discriminate.
Qed.

Lemma finish_run_spaces (w : pystr) (st : state) (v : json) :
  lit_ok st -> forallb is_space w = true ->
  finish (run st w) = Some v -> finish st = Some v.
Proof.
  revert st. induction w as [| c w IH]; intros st Hok Hw H; [exact H |].
  simpl in Hw. apply andb_true_iff in Hw as [Hc Hw].
  apply (finish_step_space st c v Hok Hc).
  apply IH; [apply step_lit_ok; exact Hok | exact Hw | exact H].
Qed.

Lemma loads_rstrip (text : pystr) (v : json) :
  json_loads text = Some v -> json_loads (rstrip text) = Some v.
Proof.
  unfold json_loads. destruct (rstrip_split text) as (w & Htext & Hw).
  rewrite Htext at 1. rewrite run_app.
  apply finish_run_spaces; [apply run_lit_ok; exact I | exact Hw].
Qed.

(** [json.loads] reads a text and its stripped form as the same value. *)
Lemma loads_strip (text : pystr) (v : json) :
  json_loads text = Some v -> json_loads (strip text) = Some v.
Proof. intros H. apply loads_rstrip, loads_lstrip, H. Qed.

(** No JSON text starts with the letter [j]. *)
Lemma loads_not_json_tag (text : pystr) (v : json) :
  json_loads text = Some v -> startswith (strip text) (py "json") = false.
Proof.
  intros H. apply loads_strip in H.
  destruct (strip text) as [| c r]; [reflexivity |].
  change (py "json") with (106 :: py "son")%N. cbn [startswith].
  destruct (N.eqb_spec 106 c) as [<- | _]; [| reflexivity].
  exfalso. unfold json_loads in H.
  change (run init (106%N :: r)) with (run err r) in H.
  rewrite run_err in H. discriminate.
Qed.

(** ** Sanitization of fenced responses *)

Lemma removelast_snoc {A} (l : list A) (x : A) : removelast (l ++ [x]) = l.
Proof.
  induction l as [| a l IH]; [reflexivity |].
  simpl. destruct (l ++ [x]) eqn:E; [destruct l; discriminate |].
  rewrite IH. reflexivity.
Qed.

Lemma split_lines_fenced (tag inner : pystr) :
  ~ In LF tag ->
  split_lines (fenced tag inner) = (fence ++ tag) :: split_lines inner ++ [fence].
Proof.
  intros Htag. unfold fenced.
  replace (fence ++ tag ++ [LF] ++ inner ++ [LF] ++ fence)
    with ((fence ++ tag) ++ LF :: (inner ++ LF :: fence))
    by (rewrite <- !app_assoc; reflexivity).
  rewrite !split_lines_app.
  rewrite (split_lines_one_line (fence ++ tag)).
  - reflexivity.
  - intros Hin. apply in_app_or in Hin as [Hin | Hin]; [| tauto].
    vm_compute in Hin. intuition discriminate.
Qed.

Lemma remove_markdown_fenced (tag inner : pystr) :
  ~ In LF tag ->
  remove_markdown (fenced tag inner) = strip (drop_json_tag inner).
Proof.
  intros Htag. unfold remove_markdown. cbv zeta.
  rewrite (split_lines_fenced tag inner Htag).
  pose proof (split_lines_nonempty inner) as Hne.
  assert (Hlen : (2 <? length ((fence ++ tag) :: split_lines inner ++ [fence]))%nat = true).
  { apply Nat.ltb_lt. simpl. rewrite length_app. simpl.
    destruct (split_lines inner); [easy | simpl; lia]. }
  rewrite Hlen. simpl tl. rewrite removelast_snoc, join_split_lines.
  reflexivity.
Qed.

Lemma clean_nonempty_string (response : pystr) :
  strip response <> [] ->
  _clean_json_response (PyStr response)
  = Ok (if startswith (strip response) fence then remove_markdown (strip response)
        else strip response)
    \/ _clean_json_response (PyStr response) = Ok [].
Proof.
  intros Hne. unfold _clean_json_response.
  destruct response as [| c r]; [easy |].
  simpl truthy_obj. unfold rbind at 1. simpl negb. cbv iota. unfold rbind.
  destruct (pystr_eqb _ []) eqn:E; [right; reflexivity | left; reflexivity].
Qed.

(** C6, as the code has it: for a response that, once stripped, is a
    triple-backtick block (an opening fence with or without a language tag
    on its line, the inner text, a closing fence on its own line),
    [_clean_json_response] returns the inner text stripped, after dropping a
    leading [json] tag when the stripped inner text starts with one; and
    whenever the inner text alone is valid JSON, the result is exactly the
    stripped inner text and parses as that JSON. *)
Theorem clean_fenced_block (response tag inner : pystr) :
  ~ In LF tag ->
  strip response = fenced tag inner ->
  _clean_json_response (PyStr response) = Ok (strip (drop_json_tag inner))
  /\ (forall v : json, json_loads inner = Some v ->
        _clean_json_response (PyStr response) = Ok (strip inner)
        /\ json_loads (strip inner) = Some v).
Proof.
  intros Htag Hfenced.
  assert (Hclean : _clean_json_response (PyStr response)
                   = Ok (strip (drop_json_tag inner))).
  { assert (Hne : strip response <> []).
    { rewrite Hfenced. unfold fenced. vm_compute. discriminate. }
    unfold _clean_json_response.
    destruct response as [| c r]; [exfalso; apply Hne; reflexivity |].
    simpl truthy_obj. unfold rbind at 1. simpl negb. cbv iota. unfold rbind.
    rewrite Hfenced.
    assert (Hstart : startswith (fenced tag inner) fence = true)
      by (unfold fenced; apply startswith_app).
    rewrite Hstart, (remove_markdown_fenced tag inner Htag).
    destruct (pystr_eqb (strip (drop_json_tag inner)) []) eqn:E; [| reflexivity].
    apply pystr_eqb_eq in E. rewrite E. reflexivity. }
  split; [exact Hclean |].
  intros v Hv. rewrite Hclean. unfold drop_json_tag.
  rewrite (loads_not_json_tag inner v Hv).
  split; [reflexivity | apply loads_strip; exact Hv].
Qed.

Lemma clean_fenced_block_witness :
  let response := py "  ```json
{~a~: [1, 2]}
```
" in
  ~ In LF (py "json")
  /\ strip response = fenced (py "json") (py "{~a~: [1, 2]}")
  /\ _clean_json_response (PyStr response) = Ok (py "{~a~: [1, 2]}").
Proof.
  assert (Htag : ~ In LF (py "json")) by (vm_compute; intuition discriminate).
  assert (Hf : strip (py "  ```json
{~a~: [1, 2]}
```
") = fenced (py "json") (py "{~a~: [1, 2]}")) by (vm_compute; reflexivity).
  split; [exact Htag |]. split; [exact Hf |].
  exact (proj1 (clean_fenced_block _ _ _ Htag Hf)).
Defined.

(** The claim as stated fails: the inner text [jsonx] of a fenced block
    comes back as [x]. *)
Lemma clean_fenced_counterexample :
  let response := py "```
jsonx
```" in
  ~ In LF []
  /\ strip response = fenced [] (py "jsonx")
  /\ _clean_json_response (PyStr response) = Ok (py "x")
  /\ _clean_json_response (PyStr response) <> Ok (strip (py "jsonx")).
Proof.
  split; [intros [] |]. split; [vm_compute; reflexivity |].
  split; [vm_compute; reflexivity |]. vm_compute. discriminate.
Qed.

(** ** The repair pass *)

Example re_sub_lazy :
  re_sub re_line_comment [Lit [LF]] (py "a // b // c
d // e") = py "a 
d // e".
Proof. vm_compute. reflexivity. Qed.

Example repair_examples :
  map _repair_common_json_issues
    [py "{'a': 'b'}"; py "{a: 1, b_2 : [1, 2,],}"; py "{~a~: True, ~b~: None, ~c~: Falsey}";
     py "/* x */ {~a~: 1 // y
}"]
  = [py "{~a~: ~b~}"; py "{~a~: 1, ~b_2~: [1, 2]}"; py "{~a~: true, ~b~: null, ~c~: Falsey}";
     py "{~a~: 1 
}"].
Proof. vm_compute. reflexivity. Qed.

(** ** The substitution, step by step *)
Lemma sub_from_fuel (p : list item) (t : list part) :
  forall (f f' : nat) (prev : option N) (s : pystr),
    (length s < f)%nat -> (length s < f')%nat ->
    sub_from f p t prev s = sub_from f' p t prev s.
Proof.
  induction f as [| f IH]; intros f' prev s Hf Hf'; [lia |].
  destruct f' as [| f']; [lia |].
  cbn [sub_from].
  destruct (match_here p prev s) as [[[caps prev'] s'] |].
  - destruct (length s' <? length s)%nat eqn:L.
    + apply Nat.ltb_lt in L. f_equal. apply IH; lia.
    + f_equal. destruct s as [| x s]; [reflexivity |].
      f_equal. apply IH; simpl in *; lia.
  - destruct s as [| x s]; [reflexivity |].
    f_equal. apply IH; simpl in *; lia.
Qed.

Lemma sub_text_skip (p : list item) (t : list part) (prev : option N) (x : N) (s : pystr) :
  match_here p prev (x :: s) = None ->
  sub_text p t prev (x :: s) = x :: sub_text p t (Some x) s.
Proof.
  intros H. unfold sub_text. cbn [length sub_from]. rewrite H. reflexivity.
Qed.

Lemma sub_text_nil (p : list item) (t : list part) (prev : option N) :
  match_here p prev [] = None -> sub_text p t prev [] = [].
Proof.
  intros H. unfold sub_text. cbn [length sub_from]. rewrite H. reflexivity.
Qed.

Lemma sub_text_match (p : list item) (t : list part) (prev prev' : option N)
    (s s' : pystr) (caps : list pystr) :
  match_here p prev s = Some (caps, prev', s') ->
  (length s' < length s)%nat ->
  sub_text p t prev s = expand t caps ++ sub_text p t prev' s'.
Proof.
  intros H L. unfold sub_text.
  change (sub_from (S (length s)) p t prev s)
    with (match match_here p prev s with
          | Some (caps, prev', s') =>
              if (length s' <? length s)%nat
              then expand t caps ++ sub_from (length s) p t prev' s'
              else expand t caps ++
                   match s with
                   | x :: s' => x :: sub_from (length s) p t (Some x) s'
                   | [] => []
                   end
          | None => match s with
                    | x :: s' => x :: sub_from (length s) p t (Some x) s'
                    | [] => []
                    end
          end).
  rewrite H. apply Nat.ltb_lt in L as L'. rewrite L'. f_equal.
  apply sub_from_fuel; lia.
Qed.

(** Characters at which the pattern cannot start are copied. *)
Lemma sub_text_skip_all (p : list item) (t : list part) (a : pystr) :
  (forall x prev s, In x a -> match_here p prev (x :: s) = None) ->
  forall prev rest, exists prev',
    sub_text p t prev (a ++ rest) = a ++ sub_text p t prev' rest.
Proof.
  induction a as [| x a IH]; intros H prev rest.
  - exists prev. reflexivity.
  - destruct (IH (fun y prev s Hy => H y prev s (or_intror Hy)) (Some x) rest) as [prev' E].
    exists prev'. cbn [app]. rewrite sub_text_skip by (apply H; left; reflexivity).
    rewrite E. reflexivity.
Qed.

(** ** What a match needs *)
Lemma match_atoms_none {R : Type} (atoms : list atom) :
  forall (prev : option N) (s : pystr) (k : option N -> pystr -> option R),
    (forall prev' pre s', s = pre ++ s' -> k prev' s' = None) ->
    match_atoms atoms prev s k = None.
Proof.
  induction atoms as [| a atoms IH]; intros prev s k Hk.
  - apply (Hk prev [] s). reflexivity.
  - destruct a as [c | [|] c |].
    + cbn [match_atoms]. destruct s as [| x s]; [reflexivity |].
      destruct (cls_match c x); [| reflexivity].
      apply IH. intros prev' pre s' ->. apply (Hk prev' (x :: pre)). reflexivity.
    + cbn [match_atoms]. revert prev Hk.
      induction s as [| x s IHs]; intros prev Hk.
      * apply IH. exact Hk.
      * assert (Hrest : match_atoms atoms prev (x :: s) k = None) by (apply IH; exact Hk).
        destruct (cls_match c x); [| exact Hrest].
        rewrite IHs; [exact Hrest |].
        intros prev' pre s' ->. apply (Hk prev' (x :: pre)). reflexivity.
    + cbn [match_atoms]. revert prev Hk.
      induction s as [| x s IHs]; intros prev Hk.
      * rewrite IH by exact Hk. reflexivity.
      * rewrite IH by exact Hk.
        destruct (cls_match c x); [| reflexivity].
        apply IHs. intros prev' pre s' ->. apply (Hk prev' (x :: pre)). reflexivity.
    + cbn [match_atoms]. destruct (xorb _ _); [| reflexivity].
      apply IH. exact Hk.
Qed.

(** A pattern that holds a character matches in no text without it. *)
Lemma match_items_requires {R : Type} (c : N) (items : list item) :
  In (Atom (One (CChar c))) items ->
  forall (prev : option N) (s : pystr) (caps : list pystr)
         (k : option N -> pystr -> list pystr -> option R),
    ~ In c s -> match_items items prev s caps k = None.
Proof.
  induction items as [| i items IH]; intros Hin prev s caps k Hs; [destruct Hin |].
  destruct Hin as [-> | Hin].
  - cbn [match_items match_atoms]. destruct s as [| x s]; [reflexivity |].
    cbn [cls_match]. destruct (N.eqb_spec x c) as [-> | _]; [| reflexivity].
    exfalso. apply Hs. left. reflexivity.
  - destruct i as [a | body]; cbn [match_items]; apply match_atoms_none;
      intros prev' pre s' ->; apply IH; try exact Hin;
      intros Hc; apply Hs, in_or_app; right; exact Hc.
Qed.

Lemma re_sub_requires (c : N) (p : list item) (t : list part) (text : pystr) :
  In (Atom (One (CChar c))) p -> ~ In c text -> re_sub p t text = text.
Proof.
  intros Hin. unfold re_sub. generalize (@None N) as prev.
  induction text as [| x text IH]; intros prev Hc.
  - apply sub_text_nil. apply (match_items_requires c); assumption.
  - rewrite sub_text_skip by (apply (match_items_requires c); assumption).
    f_equal. apply IH. intros H. apply Hc. right. exact H.
Qed.

(** A greedy run takes every character of its class when the rest of the
    pattern then matches. *)
Lemma star_greedy_max {R : Type} (c : cls) (rest : list atom)
    (k : option N -> pystr -> option R) (xs : pystr) :
  forallb (cls_match c) xs = true ->
  forall (prev : option N) (s : pystr) (r : R),
    match_atoms rest (fold_left (fun _ x => Some x) xs prev) s k = Some r ->
    match s with x :: _ => cls_match c x = false | [] => True end ->
    match_atoms (Star true c :: rest) prev (xs ++ s) k = Some r.
Proof.
  induction xs as [| x xs IH]; intros Hxs prev s r Hr Hs.
  - cbn [app fold_left] in *. cbn [match_atoms].
    destruct s as [| y s]; [exact Hr |]. rewrite Hs. exact Hr.
  - cbn [forallb] in Hxs. apply andb_prop in Hxs as [Hx Hxs].
    cbn [fold_left] in Hr.
    specialize (IH Hxs (Some x) s r Hr Hs).
    cbn [match_atoms] in IH |- *. cbn [app]. rewrite Hx.
    rewrite IH. reflexivity.
Qed.

(** ** The characters of an identifier *)
Lemma ident_char_range (c : N) :
  cls_match ident_char c = true ->
  (97 <= c <= 122 \/ 65 <= c <= 90 \/ 48 <= c <= 57 \/ c = 95)%N.
Proof.
  change (cls_match ident_char c)
    with (xorb false
            (((97 <=? c) && (c <=? 122)) || (((65 <=? c) && (c <=? 90))
             || (((48 <=? c) && (c <=? 57)) || (((95 <=? c) && (c <=? 95)) || false))))%N).
  rewrite xorb_false_l, !orb_true_iff, !andb_true_iff, !N.leb_le. lia.
Qed.

Lemma ident_start_char (c : N) :
  cls_match ident_start c = true -> cls_match ident_char c = true.
Proof.
  change (cls_match ident_start c)
    with (xorb false
            (((97 <=? c) && (c <=? 122)) || (((65 <=? c) && (c <=? 90))
             || (((95 <=? c) && (c <=? 95)) || false)))%N).
  change (cls_match ident_char c)
    with (xorb false
            (((97 <=? c) && (c <=? 122)) || (((65 <=? c) && (c <=? 90))
             || (((48 <=? c) && (c <=? 57)) || (((95 <=? c) && (c <=? 95)) || false))))%N).
  rewrite !xorb_false_l, !orb_true_iff, !andb_true_iff, !N.leb_le. lia.
Qed.

Lemma identifier_chars (k : pystr) :
  identifier k = true -> forallb (cls_match ident_char) k = true.
Proof.
  destruct k as [| c r]; [discriminate |]. unfold identifier.
  intros H. apply andb_prop in H as [Hc Hr]. cbn [forallb].
  rewrite (ident_start_char c Hc), Hr. reflexivity.
Qed.

Lemma ident_not_space (c : N) :
  cls_match ident_char c = true -> cls_match CSpace c = false.
Proof.
  intros H. apply ident_char_range in H.
  cbn [cls_match]. unfold is_space, space_chars. cbn [existsb].
  repeat match goal with
         | |- context [(c =? ?n)%N] => rewrite (proj2 (N.eqb_neq c n)) by lia
         end.
  reflexivity.
Qed.

(** ** The text of an object, member by member *)
Lemma join_cons (sep x : pystr) (l : list pystr) :
  join sep (x :: l) = x ++ flat_map (fun y => sep ++ y) l.
Proof.
  revert x. induction l as [| y l IH]; intros x.
  - cbn. rewrite app_nil_r. reflexivity.
  - change (join sep (x :: y :: l)) with (x ++ sep ++ join sep (y :: l)).
    rewrite IH. cbn [flat_map]. rewrite <- app_assoc. reflexivity.
Qed.

(** ** Characters at which no match starts *)
(** A pattern that starts with a character starts at no other. *)
Lemma match_here_first (p : list item) (c : N) (prev : option N) (x : N) (s : pystr) :
  hd_error p = Some (Atom (One (CChar c))) -> x <> c ->
  match_here p prev (x :: s) = None.
Proof.
  intros Hp Hx. destruct p as [| i p]; [discriminate |].
  injection Hp as ->. unfold match_here. cbn [match_items match_atoms cls_match].
  apply N.eqb_neq in Hx. rewrite Hx. reflexivity.
Qed.

Lemma skip_without (p : list item) (t : list part) (c : N) (a : pystr) :
  hd_error p = Some (Atom (One (CChar c))) ->
  forallb (fun x => negb (x =? c)%N) a = true ->
  forall prev rest, exists prev',
    sub_text p t prev (a ++ rest) = a ++ sub_text p t prev' rest.
Proof.
  intros Hp Ha. apply sub_text_skip_all. intros x prev s Hx.
  apply (match_here_first p c); [exact Hp |].
  rewrite forallb_forall in Ha. specialize (Ha x Hx).
  apply negb_true_iff, N.eqb_neq in Ha. exact Ha.
Qed.

Lemma identifier_without (k : pystr) (c : N) :
  identifier k = true -> cls_match ident_char c = false ->
  forallb (fun x => negb (x =? c)%N) k = true.
Proof.
  intros Hk Hc. apply identifier_chars in Hk.
  rewrite forallb_forall in Hk |- *. intros x Hx. specialize (Hk x Hx).
  apply negb_true_iff, N.eqb_neq. intros ->. congruence.
Qed.

(** The value of a member is rewritten where the pattern matches the
    colon, the space and the value, ... *)
Lemma value_rewritten (p : list item) (t : list part) (prev prev' : option N)
    (v v' F : pystr) :
  match_here p prev (py ": " ++ v ++ F) = Some ([], prev', F) ->
  expand t [] = py ": " ++ v' ->
  sub_text p t prev (py ": " ++ v ++ F) = py ": " ++ v' ++ sub_text p t prev' F.
Proof.
  intros Hm He.
  rewrite (sub_text_match p t prev prev' _ F [] Hm).
  - rewrite He, <- app_assoc. reflexivity.
  - rewrite !length_app. change (length (py ": ")) with 2%nat. lia.
Qed.

(** ... and kept where it does not. *)
Lemma value_kept (p : list item) (t : list part) (prev : option N) (v F : pystr) :
  hd_error p = Some (Atom (One (CChar (ch ":")))) ->
  match_here p prev (py ": " ++ v ++ F) = None ->
  forallb (fun x => negb (x =? ch ":")%N) (ch " " :: v) = true ->
  exists prev', sub_text p t prev (py ": " ++ v ++ F) = py ": " ++ v ++ sub_text p t prev' F.
Proof.
  intros Hp Hm Hv.
  change (py ": " ++ v ++ F) with (ch ":" :: (ch " " :: v) ++ F) in Hm |- *.
  rewrite (sub_text_skip p t prev _ _ Hm).
  destruct (skip_without p t (ch ":") (ch " " :: v) Hp Hv (Some (ch ":")) F) as [prev' E].
  exists prev'. rewrite E. reflexivity.
Qed.

(** ** The pattern of the bare keys *)
Lemma firstn_prefix (a s : pystr) :
  firstn (length (a ++ s) - length s) (a ++ s) = a.
Proof.
  rewrite length_app, Nat.add_sub.
  induction a as [| x a IH]; [destruct s; reflexivity |].
  cbn [length firstn app]. rewrite IH. reflexivity.
Qed.

Lemma match_atoms_one {R : Type} (c : cls) (rest : list atom) (prev : option N)
    (x : N) (s : pystr) (k : option N -> pystr -> option R) :
  cls_match c x = true ->
  match_atoms (One c :: rest) prev (x :: s) k = match_atoms rest (Some x) s k.
Proof. intros H. cbn [match_atoms]. rewrite H. reflexivity. Qed.

(** A group of one character and a greedy run takes the whole run when the
    rest of the pattern matches after it. *)
Lemma group_one_star {R : Type} (c1 c2 : cls) (rest : list item) (prev : option N)
    (x : N) (xs s : pystr) (caps : list pystr)
    (k : option N -> pystr -> list pystr -> option R) (r : R) :
  cls_match c1 x = true ->
  forallb (cls_match c2) xs = true ->
  match s with y :: _ => cls_match c2 y = false | [] => True end ->
  match_items rest (fold_left (fun _ y => Some y) xs (Some x)) s (caps ++ [x :: xs]) k
  = Some r ->
  match_items (Group [One c1; Star true c2] :: rest) prev (x :: xs ++ s) caps k = Some r.
Proof.
  intros H1 H2 Hs Hr. cbn [match_items].
  rewrite match_atoms_one by exact H1.
  apply star_greedy_max; [exact H2 | | exact Hs].
  cbn [match_atoms]. change (x :: xs ++ s) with ((x :: xs) ++ s).
  rewrite firstn_prefix. exact Hr.
Qed.

Lemma spaces_none {R : Type} (rest : list item) (prev : option N) (s : pystr)
    (caps : list pystr) (k : option N -> pystr -> list pystr -> option R) (r : R) :
  match s with y :: _ => cls_match CSpace y = false | [] => True end ->
  match_items rest prev s caps k = Some r ->
  match_items (spaces :: rest) prev s caps k = Some r.
Proof.
  intros Hs Hr. unfold spaces. cbn [match_items].
  apply (star_greedy_max CSpace [] _ [] eq_refl prev s r); [| exact Hs].
  exact Hr.
Qed.

Lemma bare_key_match (x : N) (ws k R : pystr) (prev : option N) :
  cls_match (set [chr "{"; chr ","]) x = true ->
  forallb (cls_match CSpace) ws = true ->
  identifier k = true ->
  match_here re_bare_key prev (x :: ws ++ k ++ ch ":" :: R)
  = Some ([x :: ws; k], Some (ch ":"), R).
Proof.
  intros Hx Hws Hk. destruct k as [| c k]; [discriminate |].
  unfold identifier in Hk. apply andb_prop in Hk as [Hc Hk].
  unfold match_here.
  change re_bare_key
    with [Group [One (set [chr "{"; chr ","]); Star true CSpace];
          Group [One ident_start; Star true ident_char];
          spaces; Atom (One (CChar (ch ":")))].
  apply group_one_star; [exact Hx | exact Hws | |].
  { cbn [app]. apply ident_not_space, ident_start_char, Hc. }
  cbn [app]. apply group_one_star; [exact Hc | exact Hk | reflexivity |].
  apply spaces_none; [reflexivity |].
  reflexivity.
Qed.

Lemma bare_key_first (x : N) (prev : option N) (s : pystr) :
  cls_match (set [chr "{"; chr ","]) x = false ->
  match_here re_bare_key prev (x :: s) = None.
Proof.
  intros H. unfold match_here, re_bare_key. cbn [app match_items match_atoms].
  rewrite H. reflexivity.
Qed.

(** ** Joined and stripped texts *)
Lemma forallb_join (P : N -> bool) (sep : pystr) (l : list pystr) :
  forallb P sep = true -> Forall (fun x => forallb P x = true) l ->
  forallb P (join sep l) = true.
Proof.
  intros Hsep Hl. destruct l as [| x l]; [reflexivity |].
  rewrite join_cons. inversion Hl as [| ? ? Hx Hl']; subst.
  rewrite forallb_app, Hx. cbn [andb].
  induction Hl' as [| y l Hy Hl' IH]; [reflexivity |].
  cbn [flat_map]. rewrite !forallb_app, Hsep, Hy. cbn [andb].
  apply IH. constructor; assumption.
Qed.

Lemma strip_braces (X : pystr) :
  strip (py "{" ++ X ++ py "}") = py "{" ++ X ++ py "}".
Proof.
  unfold strip, rstrip.
  change (lstrip (py "{" ++ X ++ py "}")) with (py "{" ++ X ++ py "}").
  rewrite !rev_app_distr.
  change (lstrip ((rev (py "}") ++ rev X) ++ rev (py "{")))
    with ((rev (py "}") ++ rev X) ++ rev (py "{")).
  rewrite <- !rev_app_distr. apply rev_involutive.
Qed.
(** ** A substitution over the members of an object *)

Lemma render_cons (n : nat) (m : member) (ms : list member) (tr : bool) :
  render n (m :: ms) tr
  = py "{" ++ member_text n m
    ++ flat_map (fun m => py ", " ++ member_text n m) ms ++ closing n tr.
Proof.
  unfold render. cbn [map]. rewrite join_cons, flat_map_concat_map, map_map,
    <- flat_map_concat_map, <- !app_assoc. reflexivity.
Qed.

(** The substitution goes member by member when it does so on one member
    followed by a text of which [Q] holds, [Q] being true of what follows
    each member. *)
Lemma memberwise (p : list item) (t : list part) (n n' : nat) (tr : bool)
    (Q : pystr -> Prop) :
  Q (closing n tr) ->
  (forall m R, well_formed m = true -> Q R -> Q (py ", " ++ member_text n m ++ R)) ->
  (forall prev, sub_text p t prev (closing n tr) = closing n' tr) ->
  (forall m prev R sep,
     well_formed m = true -> Q R -> sep = py "{" \/ sep = py ", " ->
     exists prev',
       sub_text p t prev (sep ++ member_text n m ++ R)
       = sep ++ member_text n' m ++ sub_text p t prev' R) ->
  re_sub p t (py "{" ++ closing n tr) = py "{" ++ closing n' tr ->
  forall ms, forallb well_formed ms = true ->
    re_sub p t (render n ms tr) = render n' ms tr.
Proof.
  intros HQ0 HQ Hend Hm Hempty.
  assert (Htail : forall ms, forallb well_formed ms = true ->
             Q (flat_map (fun m => py ", " ++ member_text n m) ms ++ closing n tr)
             /\ forall prev,
                 sub_text p t prev
                   (flat_map (fun m => py ", " ++ member_text n m) ms ++ closing n tr)
                 = flat_map (fun m => py ", " ++ member_text n' m) ms ++ closing n' tr).
  { induction ms as [| m ms IH]; intros Hms.
    - split; [exact HQ0 | exact Hend].
    - cbn [forallb] in Hms. apply andb_prop in Hms as [Hw Hms].
      destruct (IH Hms) as [IQ IS]. cbn [flat_map]. rewrite <- !app_assoc. split.
      + apply HQ; assumption.
      + intros prev.
        destruct (Hm m prev _ (py ", ") Hw IQ (or_intror eq_refl)) as [prev' E].
        rewrite E, IS. reflexivity. }
  intros ms Hms. destruct ms as [| m ms]; [exact Hempty |].
  cbn [forallb] in Hms. apply andb_prop in Hms as [Hw Hms].
  destruct (Htail ms Hms) as [IQ IS].
  rewrite !render_cons. unfold re_sub.
  destruct (Hm m None _ (py "{") Hw IQ (or_introl eq_refl)) as [prev' E].
  rewrite E, IS. reflexivity.
Qed.
(** ** The characters of a member *)

Lemma text_char_range (c : N) :
  text_char c = true ->
  (97 <= c <= 122 \/ 65 <= c <= 90 \/ 48 <= c <= 57 \/ c = 95 \/ c = 32)%N.
Proof.
  unfold text_char. intros H. apply orb_prop in H as [H | H].
  - apply ident_char_range in H. lia.
  - apply N.eqb_eq in H. change (ch " ") with 32%N in H. lia.
Qed.

Lemma well_formed_key (m : member) : well_formed m = true -> identifier (key m) = true.
Proof. unfold well_formed. intros H. apply andb_prop in H as [H _]. exact H. Qed.

Lemma well_formed_text (m : member) (sq : bool) (s : pystr) :
  well_formed m = true -> val m = Text sq s -> forallb text_char s = true.
Proof.
  unfold well_formed. intros H E. rewrite E in H. apply andb_prop in H as [_ H]. exact H.
Qed.

Lemma forallb_weaken (P Q : N -> bool) (s : pystr) :
  (forall c, P c = true -> Q c = true) -> forallb P s = true -> forallb Q s = true.
Proof.
  intros HPQ H. rewrite forallb_forall in H |- *. auto.
Qed.

Lemma ident_text_char (c : N) : cls_match ident_char c = true -> text_char c = true.
Proof. unfold text_char. intros ->. reflexivity. Qed.

Lemma fixed_char (P : N -> bool) (s : pystr) :
  forallb P fixed_chars = true ->
  forallb (fun x => existsb (N.eqb x) fixed_chars) s = true ->
  forallb P s = true.
Proof.
  intros HP Hs. rewrite forallb_forall in HP, Hs |- *. intros x Hx.
  specialize (Hs x Hx). apply existsb_exists in Hs as (y & Hy & E).
  apply N.eqb_eq in E. subst y. apply HP, Hy.
Qed.

Lemma key_chars (P : N -> bool) (n : nat) (m : member) :
  (forall c, text_char c = true -> P c = true) ->
  forallb P fixed_chars = true ->
  well_formed m = true ->
  forallb P (key_text n m) = true.
Proof.
  intros Ht Hf Hw.
  assert (Hk : forallb P (key m) = true).
  { apply (forallb_weaken (cls_match ident_char)).
    - intros c Hc. apply Ht, ident_text_char, Hc.
    - apply identifier_chars, well_formed_key, Hw. }
  unfold key_text, quoted. destruct (quoting m);
    repeat match goal with |- context [if ?b then _ else _] => destruct b end;
    rewrite ?forallb_app, ?Hk; try reflexivity;
    repeat match goal with
           | |- context [forallb P ?s] =>
               rewrite (fixed_char P s Hf eq_refl)
           end; reflexivity.
Qed.

Lemma value_chars (P : N -> bool) (n : nat) (m : member) :
  (forall c, text_char c = true -> P c = true) ->
  forallb P fixed_chars = true ->
  well_formed m = true ->
  forallb P (value_text n (val m)) = true.
Proof.
  intros Ht Hf Hw. destruct (val m) as [l | sq s] eqn:E.
  - cbn [value_text]. apply (fixed_char P _ Hf).
    destruct l; cbn [literal_after];
      match goal with |- context [if ?b then _ else _] => destruct b end; reflexivity.
  - assert (Hs : forallb P s = true)
      by (apply (forallb_weaken text_char); [exact Ht | apply (well_formed_text m sq s Hw E)]).
    cbn [value_text]. unfold quoted.
    match goal with |- context [if ?b then _ else _] => destruct b end;
      rewrite !forallb_app, Hs;
      repeat match goal with
             | |- context [forallb P ?s] =>
                 rewrite (fixed_char P s Hf eq_refl)
             end; reflexivity.
Qed.

Lemma member_chars (P : N -> bool) (n : nat) (m : member) :
  (forall c, text_char c = true -> P c = true) ->
  forallb P fixed_chars = true ->
  well_formed m = true ->
  forallb P (member_text n m) = true.
Proof.
  intros Ht Hf Hw. unfold member_text.
  rewrite !forallb_app, (key_chars P n m Ht Hf Hw), (value_chars P n m Ht Hf Hw).
  rewrite (fixed_char P (py ": ") Hf eq_refl). reflexivity.
Qed.

Lemma render_chars (P : N -> bool) (n : nat) (ms : list member) (tr : bool) :
  (forall c, text_char c = true -> P c = true) ->
  forallb P (py "{,}" ++ fixed_chars) = true ->
  forallb well_formed ms = true ->
  forallb P (render n ms tr) = true.
Proof.
  intros Ht Hf Hms.
  assert (Hf' : forallb P fixed_chars = true)
    by (change (py "{,}" ++ fixed_chars) with ([ch "{"; ch ","; ch "}"] ++ fixed_chars) in Hf;
        rewrite forallb_app in Hf; apply andb_prop in Hf as [_ Hf]; exact Hf).
  assert (Hp : forall s, forallb (fun x => existsb (N.eqb x) (py "{,}" ++ fixed_chars)) s = true
                         -> forallb P s = true).
  { intros s Hs. rewrite forallb_forall in Hf, Hs |- *. intros x Hx.
    specialize (Hs x Hx). apply existsb_exists in Hs as (y & Hy & E).
    apply N.eqb_eq in E. subst y. apply Hf, Hy. }
  unfold render, closing. rewrite !forallb_app.
  rewrite (Hp (py "{") eq_refl), (Hp (py "}") eq_refl).
  rewrite forallb_join.
  - destruct ((n <? 6)%nat && tr); [rewrite (Hp (py ",") eq_refl) |]; reflexivity.
  - apply (Hp (py ", ") eq_refl).
  - apply List.Forall_forall. intros x Hx. apply in_map_iff in Hx as (m & <- & Hm).
    rewrite forallb_forall in Hms. apply member_chars; auto.
Qed.

(** A text without the character that a pattern needs is left as it is. *)
Lemma pass_without (c : N) (p : list item) (t : list part) (n : nat) (ms : list member)
    (tr : bool) :
  In (Atom (One (CChar c))) p ->
  text_char c = false ->
  forallb (fun x => negb (x =? c)%N) (py "{,}" ++ fixed_chars) = true ->
  forallb well_formed ms = true ->
  re_sub p t (render n ms tr) = render n ms tr.
Proof.
  intros Hp Hc Hf Hms. apply (re_sub_requires c); [exact Hp |].
  intros Hin.
  assert (H : forallb (fun x => negb (x =? c)%N) (render n ms tr) = true).
  { apply render_chars; [| exact Hf | exact Hms].
    intros x Hx. apply negb_true_iff, N.eqb_neq. intros ->. congruence. }
  rewrite forallb_forall in H. specialize (H c Hin).
  rewrite N.eqb_refl in H. discriminate.
Qed.
(** ** More on matching *)

Lemma star_scan_none {R : Type} (c : cls) (rest : list atom)
    (k : option N -> pystr -> option R) :
  forall (s : pystr) (prev : option N),
    (forall prev' pre s', s = pre ++ s' -> forallb (cls_match c) pre = true ->
                          match_atoms rest prev' s' k = None) ->
    match_atoms (Star true c :: rest) prev s k = None.
Proof.
  cbn [match_atoms].
  induction s as [| x s IH]; intros prev H.
  - apply (H prev [] []); reflexivity.
  - assert (Hrest : match_atoms rest prev (x :: s) k = None)
      by (apply (H prev [] (x :: s)); reflexivity).
    destruct (cls_match c x) eqn:Hx; [| exact Hrest].
    rewrite IH; [exact Hrest |].
    intros prev' pre s' -> Hpre. apply (H prev' (x :: pre)); [reflexivity |].
    cbn [forallb]. rewrite Hx, Hpre. reflexivity.
Qed.

Lemma atom_one {R : Type} (c : cls) (rest : list item) (prev : option N) (x : N)
    (s : pystr) (caps : list pystr) (k : option N -> pystr -> list pystr -> option R) :
  cls_match c x = true ->
  match_items (Atom (One c) :: rest) prev (x :: s) caps k
  = match_items rest (Some x) s caps k.
Proof. intros H. cbn [match_items match_atoms]. rewrite H. reflexivity. Qed.

Lemma group_star {R : Type} (c : cls) (rest : list item) (prev : option N)
    (xs s : pystr) (caps : list pystr)
    (k : option N -> pystr -> list pystr -> option R) (r : R) :
  forallb (cls_match c) xs = true ->
  match s with y :: _ => cls_match c y = false | [] => True end ->
  match_items rest (fold_left (fun _ y => Some y) xs prev) s (caps ++ [xs]) k = Some r ->
  match_items (Group [Star true c] :: rest) prev (xs ++ s) caps k = Some r.
Proof.
  intros H Hs Hr. cbn [match_items].
  apply star_greedy_max; [exact H | | exact Hs].
  cbn [match_atoms]. rewrite firstn_prefix. exact Hr.
Qed.

Lemma spaces_run {R : Type} (rest : list item) (prev : option N) (ws s : pystr)
    (caps : list pystr) (k : option N -> pystr -> list pystr -> option R) (r : R) :
  forallb (cls_match CSpace) ws = true ->
  match s with y :: _ => cls_match CSpace y = false | [] => True end ->
  match_items rest (fold_left (fun _ y => Some y) ws prev) s caps k = Some r ->
  match_items (spaces :: rest) prev (ws ++ s) caps k = Some r.
Proof.
  intros H Hs Hr. unfold spaces. cbn [match_items].
  apply star_greedy_max; [exact H | | exact Hs]. exact Hr.
Qed.

(** ** The single-quoted keys, line 1676 *)

Lemma not_quote (x : N) : cls_match (nset [chr "'"]) x = negb (x =? ch "'")%N.
Proof.
  change (cls_match (nset [chr "'"]) x) with (xorb true (((39 <=? x) && (x <=? 39)) || false))%N.
  change (ch "'") with 39%N.
  destruct (N.eqb_spec x 39) as [-> | Hx]; [reflexivity |].
  destruct (N.leb_spec 39 x), (N.leb_spec x 39); try reflexivity. lia.
Qed.

Lemma not_quote_all (s : pystr) :
  forallb (cls_match (nset [chr "'"])) s = forallb (fun x => negb (x =? ch "'")%N) s.
Proof.
  induction s as [| x s IH]; [reflexivity |]. cbn [forallb]. rewrite not_quote, IH. reflexivity.
Qed.

Lemma no_key_quote_app (u R : pystr) :
  forallb (fun x => negb (x =? ch "'")%N) u = true ->
  no_key_quote (u ++ R) = no_key_quote R.
Proof.
  induction u as [| x u IH]; intros H; [reflexivity |].
  cbn [forallb] in H. apply andb_prop in H as [Hx Hu].
  cbn [app no_key_quote]. apply negb_true_iff in Hx. rewrite Hx. apply IH, Hu.
Qed.

Lemma quote_scan_none (s : pystr) (prev : option N) :
  no_key_quote s = true ->
  match_here re_single_quoted_key prev (ch "'" :: s) = None.
Proof.
  intros Hs. unfold match_here.
  change re_single_quoted_key
    with [Atom (One (CChar (ch "'"))); Group [Star true (nset [chr "'"])];
          Atom (One (CChar (ch "'"))); Atom (One (CChar (ch ":")))].
  rewrite atom_one by reflexivity. cbn [match_items].
  apply star_scan_none. intros prev' pre s' -> Hpre.
  rewrite not_quote_all in Hpre. rewrite (no_key_quote_app pre s' Hpre) in Hs.
  cbn [match_atoms match_items cls_match].
  destruct s' as [| x s']; [reflexivity |].
  destruct (x =? ch "'")%N eqn:Hx; [| reflexivity].
  cbn [no_key_quote] in Hs. rewrite Hx in Hs.
  destruct s' as [| y s']; [reflexivity |].
  apply negb_true_iff in Hs. rewrite Hs. reflexivity.
Qed.

Lemma quoted_key_match (k R : pystr) (prev : option N) :
  forallb (fun x => negb (x =? ch "'")%N) k = true ->
  match_here re_single_quoted_key prev (ch "'" :: k ++ ch "'" :: ch ":" :: R)
  = Some ([k], Some (ch ":"), R).
Proof.
  intros Hk. unfold match_here.
  change re_single_quoted_key
    with [Atom (One (CChar (ch "'"))); Group [Star true (nset [chr "'"])];
          Atom (One (CChar (ch "'"))); Atom (One (CChar (ch ":")))].
  rewrite atom_one by reflexivity.
  apply group_star; [rewrite not_quote_all; exact Hk | reflexivity |].
  rewrite atom_one by reflexivity. rewrite atom_one by reflexivity.
  reflexivity.
Qed.
Lemma skip_chars (p : list item) (t : list part) (c : N) (a : pystr) (prev : option N)
    (rest : pystr) :
  hd_error p = Some (Atom (One (CChar c))) ->
  forallb (fun x => negb (x =? c)%N) a = true ->
  exists prev', sub_text p t prev (a ++ rest) = a ++ sub_text p t prev' rest.
Proof. intros Hp Ha. apply (skip_without p t c a Hp Ha). Qed.

Lemma text_without (c : N) (s : pystr) :
  text_char c = false -> forallb text_char s = true ->
  forallb (fun x => negb (x =? c)%N) s = true.
Proof.
  intros Hc Hs. rewrite forallb_forall in Hs |- *. intros x Hx. specialize (Hs x Hx).
  apply negb_true_iff, N.eqb_neq. intros ->. congruence.
Qed.

Lemma member_ends_head (R : pystr) :
  member_ends R = true -> exists x R', R = x :: R' /\ (x = ch "," \/ x = ch "}").
Proof.
  destruct R as [| x R']; [discriminate |]. cbn [member_ends]. intros H.
  exists x, R'. split; [reflexivity |].
  apply orb_prop in H as [H | H]; apply N.eqb_eq in H; auto.
Qed.

Lemma quoted_key_value (v : value) (prev : option N) (R : pystr) :
  match v with Const _ => True | Text _ s => forallb text_char s = true end ->
  no_key_quote R = true -> member_ends R = true ->
  exists prev',
    sub_text re_single_quoted_key [Lit (py "~"); Ref 1; Lit (py "~:")] prev
      (py " " ++ value_text 0 v ++ R)
    = py " " ++ value_text 3 v
      ++ sub_text re_single_quoted_key [Lit (py "~"); Ref 1; Lit (py "~:")] prev' R.
Proof.
  set (p := re_single_quoted_key). set (t := [Lit (py "~"); Ref 1; Lit (py "~:")]).
  assert (Hp : hd_error p = Some (Atom (One (CChar (ch "'"))))) by reflexivity.
  intros Hv HR HE. destruct v as [l | [|] s].
  - change (value_text 3 (Const l)) with (value_text 0 (Const l)).
    rewrite app_assoc.
    destruct (skip_chars p t (ch "'") (py " " ++ value_text 0 (Const l)) prev R Hp)
      as [prev' E]; [destruct l; reflexivity |].
    exists prev'. rewrite E, <- app_assoc. reflexivity.
  - change (value_text 3 (Text true s)) with ([ch "'"] ++ s ++ [ch "'"]).
    change (value_text 0 (Text true s)) with ([ch "'"] ++ s ++ [ch "'"]).
    pose proof (text_without (ch "'") s eq_refl Hv) as Hs.
    destruct (member_ends_head R HE) as (x & R' & -> & Hx).
    destruct (skip_chars p t (ch "'") (py " ") prev
                (([ch "'"] ++ s ++ [ch "'"]) ++ x :: R') Hp eq_refl) as [prev1 E1].
    rewrite E1. rewrite <- !app_assoc. cbn [app].
    rewrite sub_text_skip.
    2:{ apply quote_scan_none. rewrite (no_key_quote_app s _ Hs).
        cbn [no_key_quote]. destruct Hx as [-> | ->]; reflexivity. }
    destruct (skip_chars p t (ch "'") s (Some (ch "'")) (ch "'" :: x :: R') Hp Hs)
      as [prev2 E2].
    rewrite E2. rewrite sub_text_skip by (apply quote_scan_none; exact HR).
    exists (Some (ch "'")). rewrite <- !app_assoc. reflexivity.
  - change (value_text 3 (Text false s)) with (value_text 0 (Text false s)).
    rewrite app_assoc.
    destruct (skip_chars p t (ch "'") (py " " ++ value_text 0 (Text false s)) prev R Hp)
      as [prev' E].
    { cbn [value_text andb]. unfold quoted.
      rewrite !forallb_app, (text_without (ch "'") s eq_refl Hv). reflexivity. }
    exists prev'. rewrite E, <- app_assoc. reflexivity.
Qed.

Lemma quoted_key_key (m : member) (prev : option N) (sep rest : pystr) :
  well_formed m = true -> sep = py "{" \/ sep = py ", " ->
  exists prev',
    sub_text re_single_quoted_key [Lit (py "~"); Ref 1; Lit (py "~:")] prev
      (sep ++ key_text 0 m ++ ch ":" :: rest)
    = sep ++ key_text 3 m ++ ch ":"
      :: sub_text re_single_quoted_key [Lit (py "~"); Ref 1; Lit (py "~:")] prev' rest.
Proof.
  set (p := re_single_quoted_key). set (t := [Lit (py "~"); Ref 1; Lit (py "~:")]).
  assert (Hp : hd_error p = Some (Atom (One (CChar (ch "'"))))) by reflexivity.
  intros Hw Hsep.
  pose proof (identifier_without (key m) (ch "'") (well_formed_key m Hw) eq_refl) as Hk.
  assert (Hs : forallb (fun x => negb (x =? ch "'")%N) sep = true)
    by (destruct Hsep as [-> | ->]; reflexivity).
  unfold key_text. destruct (quoting m).
  - cbn [Nat.leb].
    replace (sep ++ key m ++ ch ":" :: rest) with ((sep ++ key m ++ [ch ":"]) ++ rest)
      by (rewrite <- !app_assoc; reflexivity).
    destruct (skip_chars p t (ch "'") (sep ++ key m ++ [ch ":"]) prev rest Hp)
      as [prev' E]; [rewrite !forallb_app, Hs, Hk; reflexivity |].
    exists prev'. rewrite E, <- !app_assoc. reflexivity.
  - cbn [Nat.leb]. unfold quoted.
    destruct (skip_chars p t (ch "'") sep prev
                (([ch "'"] ++ key m ++ [ch "'"]) ++ ch ":" :: rest) Hp Hs) as [prev1 E1].
    rewrite E1. rewrite <- !app_assoc. cbn [app].
    rewrite (sub_text_match p t prev1 (Some (ch ":")) _ rest [key m]
               (quoted_key_match (key m) rest prev1 Hk)).
    + exists (Some (ch ":")). unfold t, expand. cbn [flat_map nth Nat.sub].
      rewrite <- !app_assoc. reflexivity.
    + cbn [length]. rewrite length_app. cbn [length]. lia.
  - unfold quoted.
    replace (sep ++ ([dquote] ++ key m ++ [dquote]) ++ ch ":" :: rest)
      with ((sep ++ [dquote] ++ key m ++ [dquote] ++ [ch ":"]) ++ rest)
      by (rewrite <- !app_assoc; reflexivity).
    destruct (skip_chars p t (ch "'") (sep ++ [dquote] ++ key m ++ [dquote] ++ [ch ":"])
                prev rest Hp) as [prev' E];
      [rewrite !forallb_app, Hs, Hk; reflexivity |].
    exists prev'. rewrite E, <- !app_assoc. reflexivity.
Qed.

Lemma well_formed_value (m : member) :
  well_formed m = true ->
  match val m with Const _ => True | Text _ s => forallb text_char s = true end.
Proof.
  intros Hw. destruct (val m) as [l | sq s] eqn:E; [exact I |].
  apply (well_formed_text m sq s Hw E).
Qed.

Lemma no_key_quote_member (m : member) (R : pystr) :
  well_formed m = true -> no_key_quote R = true ->
  no_key_quote (py ", " ++ member_text 0 m ++ R) = true.
Proof.
  intros Hw HR.
  pose proof (well_formed_key m Hw) as Hid.
  pose proof (identifier_without (key m) (ch "'") Hid eq_refl) as Hk.
  assert (Hv : no_key_quote (py ": " ++ value_text 0 (val m) ++ R) = true).
  { pose proof (well_formed_value m Hw) as Hs. destruct (val m) as [l | [|] s].
    - rewrite (app_assoc (py ": ")), no_key_quote_app; [exact HR | destruct l; reflexivity].
    - cbn [value_text andb Nat.ltb Nat.leb]. unfold quoted.
      destruct s as [| c s]; [reflexivity |].
      cbn [forallb] in Hs. apply andb_prop in Hs as [Hc _].
      apply text_char_range in Hc. cbn [app no_key_quote].
      change ((ch ":" =? ch "'")%N) with false. change ((ch " " =? ch "'")%N) with false.
      change ((ch "'" =? ch "'")%N) with true. cbn iota.
      apply negb_true_iff, N.eqb_neq. change (ch ":") with 58%N. lia.
    - rewrite (app_assoc (py ": ")), no_key_quote_app; [exact HR |].
      cbn [value_text andb]. unfold quoted.
      rewrite !forallb_app, (text_without (ch "'") s eq_refl Hs). reflexivity. }
  unfold member_text, key_text. destruct (quoting m); cbn [Nat.leb]; unfold quoted;
    rewrite <- ?app_assoc.
  - rewrite (app_assoc (py ", ") (key m)), no_key_quote_app; [exact Hv |].
    rewrite forallb_app, Hk. reflexivity.
  - destruct (key m) as [| c k]; [discriminate |].
    unfold identifier in Hid. apply andb_prop in Hid as [Hc _].
    apply ident_start_char, ident_char_range in Hc.
    cbn [app no_key_quote].
    change ((ch "," =? ch "'")%N) with false. change ((ch " " =? ch "'")%N) with false.
    change ((ch "'" =? ch "'")%N) with true. cbn iota.
    apply negb_true_iff, N.eqb_neq. change (ch ":") with 58%N. lia.
  - rewrite (app_assoc (py ", ") [dquote]), (app_assoc _ (key m)), (app_assoc _ [dquote]),
      no_key_quote_app; [exact Hv |].
    rewrite !forallb_app, Hk. reflexivity.
Qed.

Lemma single_quoted_key_pass (ms : list member) (tr : bool) :
  forallb well_formed ms = true ->
  re_sub re_single_quoted_key [Lit (py "~"); Ref 1; Lit (py "~:")] (render 0 ms tr)
  = render 3 ms tr.
Proof.
  apply (memberwise _ _ 0 3 tr (fun R => no_key_quote R = true /\ member_ends R = true)).
  - destruct tr; split; reflexivity.
  - intros m R Hw [HR _]. split; [apply no_key_quote_member; assumption | reflexivity].
  - intros prev. destruct tr; vm_compute; reflexivity.
  - intros m prev R sep Hw [HR HE] Hsep.
    unfold member_text. rewrite <- !app_assoc.
    change (py ": " ++ ?X) with (ch ":" :: py " " ++ X).
    destruct (quoted_key_key m prev sep (py " " ++ value_text 0 (val m) ++ R) Hw Hsep)
      as [prev1 E1].
    rewrite E1.
    destruct (quoted_key_value (val m) prev1 R (well_formed_value m Hw) HR HE) as [prev2 E2].
    rewrite E2. exists prev2. rewrite <- !app_assoc. reflexivity.
  - destruct tr; vm_compute; reflexivity.
Qed.
(** ** The substitutions that start at the colon *)

Lemma key_without_colon (n : nat) (m : member) (sep : pystr) :
  well_formed m = true -> sep = py "{" \/ sep = py ", " ->
  forallb (fun x => negb (x =? ch ":")%N) (sep ++ key_text n m) = true.
Proof.
  intros Hw Hsep.
  pose proof (identifier_without (key m) (ch ":") (well_formed_key m Hw) eq_refl) as Hk.
  rewrite forallb_app. unfold key_text, quoted.
  destruct Hsep as [-> | ->]; destruct (quoting m);
    repeat match goal with |- context [if ?b then _ else _] => destruct b end;
    rewrite ?forallb_app, Hk; reflexivity.
Qed.

(** A substitution whose pattern starts with a colon and that leaves the
    keys as they are is the substitution on each value. *)
Lemma colon_pass (p : list item) (t : list part) (n n' : nat) (tr : bool) :
  hd_error p = Some (Atom (One (CChar (ch ":")))) ->
  (forall m, key_text n m = key_text n' m) ->
  member_ends (closing n tr) = true ->
  (forall prev, sub_text p t prev (closing n tr) = closing n' tr) ->
  (forall m prev R,
     well_formed m = true -> member_ends R = true ->
     exists prev',
       sub_text p t prev (py ": " ++ value_text n (val m) ++ R)
       = py ": " ++ value_text n' (val m) ++ sub_text p t prev' R) ->
  forall ms, forallb well_formed ms = true ->
    re_sub p t (render n ms tr) = render n' ms tr.
Proof.
  intros Hp Hkey Hce Hend Hval.
  apply (memberwise p t n n' tr (fun R => member_ends R = true)).
  - exact Hce.
  - reflexivity.
  - exact Hend.
  - intros m prev R sep Hw HR Hsep.
    unfold member_text.
    destruct (skip_chars p t (ch ":") (sep ++ key_text n m) prev
                (py ": " ++ value_text n (val m) ++ R) Hp
                (key_without_colon n m sep Hw Hsep)) as [prev1 E1].
    destruct (Hval m prev1 R Hw HR) as [prev2 E2].
    exists prev2. rewrite <- (Hkey m). rewrite <- ?app_assoc in E1.
    rewrite <- !app_assoc. rewrite E1, E2. reflexivity.
  - unfold re_sub. change (py "{" ++ ?x) with ([ch "{"] ++ x).
    destruct (skip_chars p t (ch ":") [ch "{"] None (closing n tr) Hp eq_refl) as [prev' ->].
    rewrite Hend. reflexivity.
Qed.

(** ** The single-quoted values, line 1677 *)

Lemma quoted_value_match (s R : pystr) (prev : option N) :
  forallb (fun x => negb (x =? ch "'")%N) s = true ->
  match_here re_single_quoted_value prev (py ": " ++ quoted (ch "'") s ++ R)
  = Some ([s], Some (ch "'"), R).
Proof.
  intros Hs. unfold match_here, quoted.
  change re_single_quoted_value
    with [Atom (One (CChar (ch ":"))); spaces; Atom (One (CChar (ch "'")));
          Group [Star true (nset [chr "'"])]; Atom (One (CChar (ch "'")))].
  rewrite <- !app_assoc.
  change (py ": " ++ [ch "'"] ++ s ++ [ch "'"] ++ R)
    with (ch ":" :: [ch " "] ++ ch "'" :: s ++ ch "'" :: R).
  rewrite atom_one by reflexivity.
  apply spaces_run; [reflexivity | reflexivity |].
  rewrite atom_one by reflexivity.
  apply group_star; [rewrite not_quote_all; exact Hs | reflexivity |].
  rewrite atom_one by reflexivity. reflexivity.
Qed.

Ltac value_is_kept Hp :=
  apply value_kept; [exact Hp | vm_compute; reflexivity | ].

Lemma single_quoted_value_pass (ms : list member) (tr : bool) :
  forallb well_formed ms = true ->
  re_sub re_single_quoted_value [Lit (py ": ~"); Ref 1; Lit (py "~")] (render 3 ms tr)
  = render 4 ms tr.
Proof.
  set (p := re_single_quoted_value). set (t := [Lit (py ": ~"); Ref 1; Lit (py "~")]).
  assert (Hp : hd_error p = Some (Atom (One (CChar (ch ":"))))) by reflexivity.
  apply colon_pass; [exact Hp | | | |].
  - intros m. unfold key_text. destruct (quoting m); reflexivity.
  - destruct tr; reflexivity.
  - intros prev. destruct tr; vm_compute; reflexivity.
  - intros m prev R Hw HR. pose proof (well_formed_value m Hw) as Hs.
    destruct (val m) as [l | [|] s].
    + change (value_text 4 (Const l)) with (value_text 3 (Const l)).
      apply value_kept; [exact Hp | destruct l; vm_compute; reflexivity
                        | destruct l; reflexivity].
    + pose proof (text_without (ch "'") s eq_refl Hs) as Hq.
      change (value_text 3 (Text true s)) with (quoted (ch "'") s).
      change (value_text 4 (Text true s)) with (quoted dquote s).
      exists (Some (ch "'")).
      rewrite (sub_text_match p t prev (Some (ch "'")) _ R [s]
                 (quoted_value_match s R prev Hq)).
      * unfold t, expand, quoted. cbn [flat_map nth Nat.sub].
        rewrite <- !app_assoc. reflexivity.
      * unfold quoted. rewrite !length_app. cbn [length]. rewrite ?length_app. cbn [length].
        lia.
    + change (value_text 4 (Text false s)) with (value_text 3 (Text false s)).
      change (value_text 3 (Text false s)) with (dquote :: s ++ [dquote]).
      apply value_kept; [exact Hp | vm_compute; reflexivity |].
      cbn [forallb]. rewrite forallb_app, (text_without (ch ":") s eq_refl Hs). reflexivity.
Qed.

(** ** The passes on the constants, lines 1691-1693 *)

Ltac constant_step Hp :=
  first [ exists (Some (ch "e")); apply value_rewritten;
          [vm_compute; reflexivity | reflexivity]
        | apply value_kept; [exact Hp | vm_compute; reflexivity | reflexivity] ].

Ltac constant_pass :=
  let Hp := fresh "Hp" in
  match goal with
  | |- _ -> re_sub ?p _ _ = _ =>
      assert (Hp : hd_error p = Some (Atom (One (CChar (ch ":"))))) by reflexivity
  end;
  apply colon_pass;
  [ exact Hp
  | intros m; unfold key_text; destruct (quoting m); reflexivity
  | reflexivity
  | intros prev; vm_compute; reflexivity
  | intros m prev R Hw HR; pose proof (well_formed_value m Hw) as Hs;
    destruct (member_ends_head R HR) as (x & R' & -> & Hx);
    destruct (val m) as [l | sq s];
    [ destruct l; destruct Hx as [-> | ->]; cbn [value_text literal_after Nat.sub Nat.leb];
      constant_step Hp
    | match goal with
      | |- context [value_text ?n (Text sq s)] =>
          change (value_text n (Text sq s)) with (dquote :: s ++ [dquote])
      end;
      match goal with
      | |- context [value_text ?n (Text sq s)] =>
          replace (value_text n (Text sq s)) with (dquote :: s ++ [dquote])
            by (destruct sq; reflexivity)
      end;
      apply value_kept;
      [ exact Hp | vm_compute; reflexivity
      | cbn [forallb]; rewrite forallb_app, (text_without (ch ":") s eq_refl Hs);
        reflexivity ] ] ].

Lemma literal_pass_True (ms : list member) (tr : bool) :
  forallb well_formed ms = true ->
  re_sub (re_literal "True") [Lit (py ": true")] (render 6 ms tr) = render 10 ms tr.
Proof. constant_pass. Qed.

Lemma literal_pass_False (ms : list member) (tr : bool) :
  forallb well_formed ms = true ->
  re_sub (re_literal "False") [Lit (py ": false")] (render 10 ms tr) = render 11 ms tr.
Proof. constant_pass. Qed.

Lemma literal_pass_None (ms : list member) (tr : bool) :
  forallb well_formed ms = true ->
  re_sub (re_literal "None") [Lit (py ": null")] (render 11 ms tr) = render 12 ms tr.
Proof. constant_pass. Qed.
(** ** The quoting of bare keys, line 1680 *)

Ltac norm_app := repeat first [progress cbn [app] | rewrite <- app_assoc].

Lemma skip_outside (a : pystr) (prev : option N) (rest : pystr) :
  forallb (fun x => negb (cls_match (set [chr "{"; chr ","]) x)) a = true ->
  exists prev',
    sub_text re_bare_key [Ref 1; Lit (py "~"); Ref 2; Lit (py "~:")] prev (a ++ rest)
    = a ++ sub_text re_bare_key [Ref 1; Lit (py "~"); Ref 2; Lit (py "~:")] prev' rest.
Proof.
  intros Ha. apply sub_text_skip_all. intros x prev0 s Hx. apply bare_key_first.
  rewrite forallb_forall in Ha. apply negb_true_iff, Ha, Hx.
Qed.

Lemma outside_text (c : N) :
  text_char c = true -> negb (cls_match (set [chr "{"; chr ","]) c) = true.
Proof.
  intros H. apply text_char_range in H.
  change (cls_match (set [chr "{"; chr ","]) c)
    with (xorb false (((123 <=? c) && (c <=? 123)) || (((44 <=? c) && (c <=? 44)) || false)))%N.
  destruct (N.leb_spec 123 c), (N.leb_spec c 123), (N.leb_spec 44 c), (N.leb_spec c 44);
    try reflexivity; lia.
Qed.

Lemma bare_key_member (m : member) (prev : option N) (R sep : pystr) :
  well_formed m = true -> sep = py "{" \/ sep = py ", " ->
  exists prev',
    sub_text re_bare_key [Ref 1; Lit (py "~"); Ref 2; Lit (py "~:")] prev
      (sep ++ member_text 4 m ++ R)
    = sep ++ member_text 5 m
      ++ sub_text re_bare_key [Ref 1; Lit (py "~"); Ref 2; Lit (py "~:")] prev' R.
Proof.
  set (p := re_bare_key). set (t := [Ref 1; Lit (py "~"); Ref 2; Lit (py "~:")]).
  intros Hw Hsep.
  pose proof (well_formed_key m Hw) as Hid.
  assert (Hv : forallb (fun x => negb (cls_match (set [chr "{"; chr ","]) x))
                 (py " " ++ value_text 4 (val m)) = true).
  { rewrite forallb_app. rewrite (value_chars _ 4 m outside_text eq_refl Hw). reflexivity. }
  assert (Hk : forallb (fun x => negb (cls_match (set [chr "{"; chr ","]) x)) (key m) = true).
  { apply (forallb_weaken (cls_match ident_char)); [| apply identifier_chars, Hid].
    intros c Hc. apply outside_text, ident_text_char, Hc. }
  unfold member_text. change (value_text 5 (val m)) with (value_text 4 (val m)).
  assert (Hquoted : forall prev0,
             exists prev',
               sub_text p t prev0
                 (sep ++ (quoted dquote (key m) ++ py ": " ++ value_text 4 (val m)) ++ R)
               = sep ++ (quoted dquote (key m) ++ py ": " ++ value_text 4 (val m))
                 ++ sub_text p t prev' R).
  { intros prev0. unfold quoted.
    assert (E0 : exists x ws, sep = x :: ws
                   /\ forallb (fun x => negb (cls_match (set [chr "{"; chr ","]) x)) ws = true
                   /\ forall T, match_here p prev0 (x :: ws ++ dquote :: T) = None).
    { destruct Hsep as [-> | ->]; eexists _, _; (split; [reflexivity |]);
        (split; [reflexivity |]); intros T; vm_compute; reflexivity. }
    destruct E0 as (x & ws & -> & Hws & E0).
    set (body := ws ++ dquote :: key m ++ [dquote] ++ py ": " ++ value_text 4 (val m)).
    assert (Hbody : forallb (fun x => negb (cls_match (set [chr "{"; chr ","]) x)) body = true).
    { unfold body. rewrite forallb_app, Hws. cbn [forallb andb].
      rewrite !forallb_app, Hk. rewrite forallb_app in Hv.
      apply andb_prop in Hv as [_ Hv]. rewrite Hv. reflexivity. }
    destruct (skip_outside body (Some x) R Hbody) as [prev' E]. fold p t in E.
    exists prev'.
    assert (Et : (x :: ws) ++ (([dquote] ++ key m ++ [dquote]) ++ py ": "
                                ++ value_text 4 (val m)) ++ R = x :: body ++ R)
      by (unfold body; norm_app; reflexivity).
    rewrite Et.
    rewrite sub_text_skip by (unfold body; norm_app; apply E0).
    rewrite E. unfold body. norm_app. reflexivity. }
  unfold key_text. destruct (quoting m); cbn [Nat.leb]; try apply Hquoted.
  assert (E0 : exists x ws, sep = x :: ws
                 /\ cls_match (set [chr "{"; chr ","]) x = true
                 /\ forallb (cls_match CSpace) ws = true)
    by (destruct Hsep as [-> | ->]; eexists _, _; repeat split; reflexivity).
  destruct E0 as (x & ws & -> & Hx & Hws).
  destruct (skip_outside (py " " ++ value_text 4 (val m)) (Some (ch ":")) R Hv)
    as [prev' E].
  fold p t in E. exists prev'.
  replace ((x :: ws) ++ (key m ++ py ": " ++ value_text 4 (val m)) ++ R)
    with (x :: ws ++ key m ++ ch ":" :: (py " " ++ value_text 4 (val m)) ++ R)
    by (cbn [app]; rewrite <- !app_assoc; reflexivity).
  rewrite (sub_text_match p t prev (Some (ch ":")) _
             ((py " " ++ value_text 4 (val m)) ++ R) [x :: ws; key m]
             (bare_key_match x ws (key m) _ prev Hx Hws Hid)).
  - rewrite E. unfold t, expand, quoted. cbn [flat_map nth Nat.sub].
    rewrite <- !app_assoc. cbn [app]. reflexivity.
  - cbn [length app]. rewrite !length_app. cbn [length]. rewrite !length_app. lia.
Qed.

Lemma bare_key_pass (ms : list member) (tr : bool) :
  forallb well_formed ms = true ->
  re_sub re_bare_key [Ref 1; Lit (py "~"); Ref 2; Lit (py "~:")] (render 4 ms tr)
  = render 5 ms tr.
Proof.
  apply (memberwise _ _ 4 5 tr (fun _ => True)).
  - exact I.
  - intros; exact I.
  - intros prev. destruct tr; vm_compute; reflexivity.
  - intros m prev R sep Hw _ Hsep. apply bare_key_member; assumption.
  - destruct tr; vm_compute; reflexivity.
Qed.

(** ** The removal of a trailing comma, line 1683 *)

Lemma key_text_quoted (n : nat) (m : member) :
  (5 <= n)%nat -> key_text n m = quoted dquote (key m).
Proof.
  intros Hn. unfold key_text.
  assert (H5 : (5 <=? n)%nat = true) by (apply Nat.leb_le; lia).
  assert (H3 : (3 <=? n)%nat = true) by (apply Nat.leb_le; lia).
  rewrite H5, H3. destruct (quoting m); reflexivity.
Qed.

Lemma trailing_comma_pass (ms : list member) (tr : bool) :
  forallb well_formed ms = true ->
  re_sub re_trailing_comma [Ref 1] (render 5 ms tr) = render 6 ms tr.
Proof.
  set (p := re_trailing_comma). set (t := [Ref 1]).
  assert (Hp : hd_error p = Some (Atom (One (CChar (ch ","))))) by reflexivity.
  apply (memberwise _ _ 5 6 tr (fun _ => True)).
  - exact I.
  - intros; exact I.
  - intros prev. destruct tr; vm_compute; reflexivity.
  - intros m prev R sep Hw _ Hsep.
    assert (Hm : forallb (fun x => negb (x =? ch ",")%N) (member_text 5 m) = true).
    { apply member_chars; [| reflexivity | exact Hw].
      intros c Hc. apply text_char_range in Hc.
      apply negb_true_iff, N.eqb_neq. change (ch ",") with 44%N. lia. }
    assert (E56 : member_text 6 m = member_text 5 m).
    { unfold member_text. rewrite !key_text_quoted by lia.
      destruct (val m) as [l | sq s]; reflexivity. }
    rewrite E56.
    assert (Hq : exists X, member_text 5 m ++ R = dquote :: X).
    { unfold member_text. rewrite key_text_quoted by lia. unfold quoted.
      eexists. rewrite <- !app_assoc. reflexivity. }
    destruct Hq as [X HX].
    destruct Hsep as [-> | ->].
    + change (py "{" ++ ?x) with ([ch "{"] ++ x).
      destruct (skip_chars p t (ch ",") [ch "{"] prev (member_text 5 m ++ R) Hp eq_refl)
        as [prev1 ->].
      destruct (skip_chars p t (ch ",") _ prev1 R Hp Hm) as [prev2 ->].
      exists prev2. reflexivity.
    + change (py ", " ++ ?x) with (ch "," :: [ch " "] ++ x).
      rewrite sub_text_skip by (cbn [app]; rewrite HX; vm_compute; reflexivity).
      destruct (skip_chars p t (ch ",") [ch " "] (Some (ch ",")) (member_text 5 m ++ R)
                  Hp eq_refl) as [prev1 ->].
      destruct (skip_chars p t (ch ",") _ prev1 R Hp Hm) as [prev2 ->].
      exists prev2. reflexivity.
  - destruct tr; vm_compute; reflexivity.
Qed.
(** ** The parse of the repaired text *)

Lemma run_text (is_key : bool) (s : pystr) :
  forallb text_char s = true ->
  forall (acc : pystr) (stack : list frame),
    run (MStr is_key SPlain acc, stack) (s ++ [dquote])
    = end_string is_key (rev s ++ acc) stack.
Proof.
  induction s as [| x s IH]; intros Hs acc stack; [reflexivity |].
  cbn [forallb] in Hs. apply andb_prop in Hs as [Hx Hs].
  apply text_char_range in Hx.
  cbn [app]. change (run ?st (x :: ?r)) with (run (step st x) r).
  cbn [step step_string]. unfold plain_char.
  change dquote with 34%N. change (ch "\") with 92%N.
  rewrite (proj2 (N.eqb_neq x 34)), (proj2 (N.eqb_neq x 92)), (proj2 (N.ltb_ge x 32))
    by lia.
  change 34%N with dquote. rewrite (IH Hs). cbn [rev]. rewrite <- app_assoc. reflexivity.
Qed.

Lemma run_member (m : member) (acc : list (pystr * json)) (stack : list frame) :
  well_formed m = true ->
  run (MStr true SPlain [], FObj acc :: stack)
    (key m ++ [dquote] ++ py ": " ++ value_text 12 (val m))
  = (MAfter (json_value (val m)), FObjV acc (key m) :: stack).
Proof.
  intros Hw.
  assert (Hk : forallb text_char (key m) = true).
  { apply (forallb_weaken (cls_match ident_char)); [exact ident_text_char |].
    apply identifier_chars, well_formed_key, Hw. }
  rewrite app_assoc, run_app, (run_text true (key m) Hk).
  rewrite app_nil_r. unfold end_string. rewrite rev_involutive.
  pose proof (well_formed_value m Hw) as Hs.
  destruct (val m) as [l | sq s].
  - destruct l; reflexivity.
  - change (value_text 12 (Text sq s)) with ([dquote] ++ s ++ [dquote]).
    change (run (MColon (key m), FObj acc :: stack) (py ": " ++ [dquote] ++ s ++ [dquote]))
      with (run (MStr false SPlain [], FObjV acc (key m) :: stack) (s ++ [dquote])).
    rewrite (run_text false s Hs). unfold end_string.
    rewrite app_nil_r, rev_involutive. reflexivity.
Qed.

Lemma run_tail (ms : list member) :
  forallb well_formed ms = true ->
  forall (acc : list (pystr * json)) (k : pystr) (v : json),
    run (MAfter v, [FObjV acc k])
      (flat_map (fun m => py ", " ++ member_text 12 m) ms ++ py "}")
    = (MAfter (JObj (mkdict (rev ((k, v) :: acc)
                             ++ map (fun m => (key m, json_value (val m))) ms))), []).
Proof.
  induction ms as [| m ms IH]; intros Hms acc k v.
  - cbn [flat_map map app]. rewrite app_nil_r. reflexivity.
  - cbn [forallb] in Hms. apply andb_prop in Hms as [Hw Hms].
    cbn [flat_map]. unfold member_text at 1.
    rewrite (key_text_quoted 12 m) by lia. unfold quoted. rewrite <- !app_assoc.
    change (run (MAfter v, [FObjV acc k]) (py ", " ++ [dquote] ++ ?r))
      with (run (MStr true SPlain [], [FObj ((k, v) :: acc)]) r).
    rewrite (app_assoc (key m)), (app_assoc (key m ++ [dquote])),
      (app_assoc ((key m ++ [dquote]) ++ py ": ")), run_app.
    rewrite <- !app_assoc, (run_member m _ _ Hw), (IH Hms).
    cbn [map rev]. rewrite <- !app_assoc. reflexivity.
Qed.

Lemma loads_rendered (ms : list member) (tr : bool) :
  forallb well_formed ms = true ->
  json_loads (render 12 ms tr) = Some (intended ms).
Proof.
  intros Hms. destruct ms as [| m ms]; [reflexivity |].
  cbn [forallb] in Hms. apply andb_prop in Hms as [Hw Hms].
  rewrite render_cons. unfold json_loads, intended.
  unfold member_text at 1.
  rewrite (key_text_quoted 12 m) by lia. unfold quoted. rewrite <- !app_assoc.
  change (run init (py "{" ++ [dquote] ++ ?r))
    with (run (MStr true SPlain [], [FObj []]) r).
  rewrite (app_assoc (key m)), (app_assoc (key m ++ [dquote])),
    (app_assoc ((key m ++ [dquote]) ++ py ": ")), run_app.
  rewrite <- !app_assoc, (run_member m _ _ Hw).
  change (closing 12 tr) with (py "}").
  rewrite (run_tail ms Hms). reflexivity.
Qed.

(** ** The repair of a payload *)

Lemma repaired_payload (ms : list member) (trailing_comma : bool) :
  forallb well_formed ms = true ->
  _repair_common_json_issues (payload ms trailing_comma) = render 12 ms false.
Proof.
  intros Hms.
  unfold _repair_common_json_issues, payload. cbv zeta.
  rewrite (pass_without (ch "/") re_line_comment)
    by (try exact Hms; vm_compute; tauto).
  rewrite (pass_without (ch "/") re_block_comment)
    by (try exact Hms; vm_compute; tauto).
  rewrite (single_quoted_key_pass ms trailing_comma Hms).
  rewrite (single_quoted_value_pass ms trailing_comma Hms).
  rewrite (bare_key_pass ms trailing_comma Hms).
  rewrite (trailing_comma_pass ms trailing_comma Hms).
  rewrite (pass_without LF (re_missing_comma dquote))
    by (try exact Hms; vm_compute; tauto).
  rewrite (pass_without LF (re_missing_comma (ch "}")))
    by (try exact Hms; vm_compute; tauto).
  rewrite (pass_without LF (re_missing_comma (ch "]")))
    by (try exact Hms; vm_compute; tauto).
  rewrite (literal_pass_True ms trailing_comma Hms),
    (literal_pass_False ms trailing_comma Hms), (literal_pass_None ms trailing_comma Hms).
  apply (strip_braces (join (py ", ") (map (member_text 12) ms))).
Qed.

Lemma loads_repaired_payload (ms : list member) (trailing_comma : bool) :
  forallb well_formed ms = true ->
  json_loads (_repair_common_json_issues (payload ms trailing_comma)) = Some (intended ms).
Proof.
  intros Hms. rewrite (repaired_payload ms trailing_comma Hms).
  apply loads_rendered, Hms.
Qed.
Example payload_sample :
  let ms := [ {| quoting := SingleQuoted; key := py "a"; val := Text true (py "x y") |};
              {| quoting := Bare; key := py "b_2"; val := Const LNone |};
              {| quoting := DoubleQuoted; key := py "c"; val := Const LTrue |} ] in
  payload ms true = py "{'a': 'x y', b_2: None, ~c~: True,}"
  /\ render 12 ms false = py "{~a~: ~x y~, ~b_2~: null, ~c~: true}"
  /\ intended ms
     = JObj [(py "a", JStr (py "x y")); (py "b_2", JNull); (py "c", JBool true)]
  /\ payload [] true = py "{,}".
Proof. repeat split; vm_compute; reflexivity. Qed.





(** ** The contextual artifacts and the sufficiency check *)

Lemma utf8_encode_length (text : pystr) (b : list N) :
  utf8_encode text = Some b -> (length text <= length b)%nat.
Proof.
  revert b. induction text as [| c text IH]; intros b H.
  - simpl; lia.
  - simpl in H. destruct (utf8_char c) as [bc |] eqn:Ec; [| discriminate].
    destruct (utf8_encode text) as [bs |]; [| discriminate].
    injection H as <-. rewrite length_app. specialize (IH bs eq_refl).
    assert (1 <= length bc)%nat.
    { unfold utf8_char in Ec.
      repeat match type of Ec with
             | (if ?c then _ else _) = _ => destruct c
             end; try discriminate; injection Ec as <-; simpl; lia. }
    simpl. lia.
Qed.

Lemma digits_fuel_length (fuel : nat) (n : N) (acc : pystr) :
  (length acc <= length (digits_fuel fuel n acc))%nat.
Proof.
  revert n acc. induction fuel as [| f IH]; intros n acc; simpl; [lia |].
  destruct (n <? 10)%N; simpl; [lia |].
  etransitivity; [| apply IH]. simpl. lia.
Qed.

Lemma str_of_nat_nonempty (n : nat) : (1 <= length (str_of_nat n))%nat.
Proof.
  unfold str_of_nat. simpl. destruct (N.of_nat n <? 10)%N; simpl; [lia |].
  etransitivity; [| apply digits_fuel_length]. simpl. lia.
Qed.

Lemma listed_text_length (title : pystr) (items : list pystr) :
  (length title + 15 <= length (listed_text title items))%nat.
Proof.
  unfold listed_text. rewrite !length_app.
  change (length (py "## Total: ")) with 10%nat.
  pose proof (str_of_nat_nonempty (length items)). simpl length. lia.
Qed.

Lemma termos_text_length (session_id : pystr) (termos : list pystr) :
  (51 <= length (termos_text session_id termos))%nat.
Proof.
  unfold termos_text. rewrite !length_app.
  change (length (py "# Termos-chave")) with 14%nat.
  change (length (py "## Contexto")) with 11%nat.
  change (length (py "- Sessão: ")) with 10%nat.
  change (length (py "- Total: ")) with 9%nat.
  pose proof (str_of_nat_nonempty (length termos)). simpl length. lia.
Qed.

(** A text write that went through stored the UTF-8 bytes of the text. *)
Lemma write_text_ok (e : env) (p : path) (text : pystr) (w w' : world) :
  write_text e p text w = (true, w') ->
  exists b, utf8_encode text = Some b /\ w' = set_file p b w.
Proof.
  unfold write_text, write_chunks. destruct (io e p); try discriminate.
  simpl. destruct (utf8_encode text) as [b |]; [| discriminate].
  rewrite app_nil_r. intros H. injection H as <-. exists b. split; reflexivity.
Qed.

Ltac path_neq :=
  let H := fresh in
  intros H; apply (f_equal (fun p : path => nth 2 p [])) in H; vm_compute in H;
  discriminate.

Lemma arquivos_criticos_distinct (session_id : pystr) :
  NoDup (arquivos_criticos session_id).
Proof.
  unfold arquivos_criticos.
  repeat (apply NoDup_cons_2;
          [rewrite ?elem_of_cons, elem_of_nil;
           intros H; repeat (destruct H as [H | H]; [revert H; path_neq |]); exact H |]).
  apply NoDup_nil_2.
Qed.

Lemma files_set_file_eq (p : path) (b : list N) (w : world) :
  files (set_file p b w) !! p = Some b.
Proof. unfold set_file; simpl. apply lookup_insert_eq. Qed.

Lemma files_set_file_ne (p q : path) (b : list N) (w : world) :
  p <> q -> files (set_file p b w) !! q = files w !! q.
Proof. intros H. unfold set_file; simpl. apply lookup_insert_ne, H. Qed.

(** When [_salvar_dados_contextuais] runs to its end, the four files hold
    the UTF-8 bytes of the four texts. *)
Lemma salvar_dados_contextuais_ok (e : env) (session_id : pystr) (search_results : json)
    (contexto : ContextoEstrategico) (w w' : world) :
  _salvar_dados_contextuais e session_id search_results contexto w = (true, w') ->
  exists b1 b2 b3 b4,
    (20 < length b1)%nat /\ (20 < length b2)%nat /\ (20 < length b3)%nat
    /\ (20 < length b4)%nat
    /\ w' = set_file (arquivo_tendencias session_id) b4
              (set_file (arquivo_casos session_id) b3
                 (set_file (arquivo_objecoes session_id) b2
                    (set_file (arquivo_termos session_id) b1 w))).
Proof.
  unfold _salvar_dados_contextuais. cbv zeta.
  destruct (write_text e (arquivo_termos session_id) _ w) as [[] w1] eqn:E1;
    [| discriminate].
  cbn [negb]. cbv iota.
  destruct (write_text e (arquivo_objecoes session_id) _ w1) as [[] w2] eqn:E2;
    [| discriminate].
  cbn [negb]. cbv iota.
  destruct (write_text e (arquivo_casos session_id) _ w2) as [[] w3] eqn:E3;
    [| discriminate].
  cbn [negb]. cbv iota. intros E4.
  apply write_text_ok in E1 as (b1 & H1 & ->), E2 as (b2 & H2 & ->),
    E3 as (b3 & H3 & ->), E4 as (b4 & H4 & ->).
  apply utf8_encode_length in H1, H2, H3, H4.
  pose proof (termos_text_length session_id
                (or_default (termos_chave contexto)
                   [py "marketing digital"; py "conversão"; py "vendas online"])).
  pose proof (listed_text_length (py "# Objeções")
                (or_default (objecoes contexto)
                   [py "Preço alto"; py "Sem tempo"; py "Já tentei antes"])) as L2.
  pose proof (listed_text_length (py "# Casos de Sucesso")
                (or_default (casos_sucesso contexto)
                   [py "Aumento 300% vendas"; py "ROI 500%"; py "Crescimento 200%"])) as L3.
  pose proof (listed_text_length (py "# Tendências")
                (or_default (tendencias contexto)
                   [py "IA em marketing"; py "Personalização"; py "Automação"])) as L4.
  change (length (py "# Objeções")) with 10%nat in L2.
  change (length (py "# Casos de Sucesso")) with 18%nat in L3.
  change (length (py "# Tendências")) with 12%nat in L4.
  exists b1, b2, b3, b4. repeat split; try lia.
Qed.

Lemma arquivo_valido_true (w : world) (p : path) :
  arquivo_valido w p = true <-> exists b, files w !! p = Some b /\ (20 < length b)%nat.
Proof.
  unfold arquivo_valido. destruct (files w !! p) as [b |].
  - rewrite Nat.ltb_lt. split; [intros H; exists b; split; [reflexivity | exact H] |].
    intros (b' & Hb & H). injection Hb as <-. exact H.
  - split; [discriminate | intros (b & Hb & _); discriminate].
Qed.

(** C10: whenever [_salvar_dados_contextuais] completes its four writes,
    each of the four contextual files holds more than 20 bytes, whatever the
    context (empty lists included), and [_validar_dados_coletados] then
    returns [True]. *)
Theorem contextual_files_pass_check (e : env) (session_id : pystr) (search_results : json)
    (contexto : ContextoEstrategico) (w : world) :
  fst (_salvar_dados_contextuais e session_id search_results contexto w) = true ->
  let w' := snd (_salvar_dados_contextuais e session_id search_results contexto w) in
  (forall p, In p (arquivos_criticos session_id) ->
             exists b, files w' !! p = Some b /\ (20 < length b)%nat)
  /\ _validar_dados_coletados session_id w' = true.
Proof.
  destruct (_salvar_dados_contextuais e session_id search_results contexto w)
    as [ok w'] eqn:E.
  cbn [fst snd]. intros ->.
  apply salvar_dados_contextuais_ok in E as (b1 & b2 & b3 & b4 & L1 & L2 & L3 & L4 & ->).
  assert (D12 : arquivo_objecoes session_id <> arquivo_termos session_id) by path_neq.
  assert (D13 : arquivo_casos session_id <> arquivo_termos session_id) by path_neq.
  assert (D14 : arquivo_tendencias session_id <> arquivo_termos session_id) by path_neq.
  assert (D23 : arquivo_casos session_id <> arquivo_objecoes session_id) by path_neq.
  assert (D24 : arquivo_tendencias session_id <> arquivo_objecoes session_id) by path_neq.
  assert (D34 : arquivo_tendencias session_id <> arquivo_casos session_id) by path_neq.
  set (w1 := set_file (arquivo_termos session_id) b1 w).
  set (w2 := set_file (arquivo_objecoes session_id) b2 w1).
  set (w3 := set_file (arquivo_casos session_id) b3 w2).
  set (w4 := set_file (arquivo_tendencias session_id) b4 w3).
  assert (F1 : files w4 !! arquivo_termos session_id = Some b1).
  { unfold w4. rewrite (files_set_file_ne _ _ b4 w3 D14).
    unfold w3. rewrite (files_set_file_ne _ _ b3 w2 D13).
    unfold w2. rewrite (files_set_file_ne _ _ b2 w1 D12).
    apply files_set_file_eq. }
  assert (F2 : files w4 !! arquivo_objecoes session_id = Some b2).
  { unfold w4. rewrite (files_set_file_ne _ _ b4 w3 D24).
    unfold w3. rewrite (files_set_file_ne _ _ b3 w2 D23).
    apply files_set_file_eq. }
  assert (F3 : files w4 !! arquivo_casos session_id = Some b3).
  { unfold w4. rewrite (files_set_file_ne _ _ b4 w3 D34). apply files_set_file_eq. }
  assert (F4 : files w4 !! arquivo_tendencias session_id = Some b4)
    by apply files_set_file_eq.
  clearbody w4. clear w1 w2 w3.
  assert (V : forall p, In p (arquivos_criticos session_id) ->
                        exists b, files w4 !! p = Some b /\ (20 < length b)%nat).
  { intros p [<- | [<- | [<- | [<- | []]]]].
    - exists b1. split; [exact F1 | exact L1].
    - exists b2. split; [exact F2 | exact L2].
    - exists b3. split; [exact F3 | exact L3].
    - exists b4. split; [exact F4 | exact L4]. }
  split; [exact V |].
  unfold _validar_dados_coletados, arquivos_criticos. cbn [List.filter].
  pose proof (proj2 (arquivo_valido_true _ _) (V _ (or_introl eq_refl))) as V1.
  pose proof (proj2 (arquivo_valido_true _ _) (V _ (or_intror (or_introl eq_refl)))) as V2.
  pose proof (proj2 (arquivo_valido_true _ _)
                (V _ (or_intror (or_intror (or_introl eq_refl))))) as V3.
  pose proof (proj2 (arquivo_valido_true _ _)
                (V _ (or_intror (or_intror (or_intror (or_introl eq_refl)))))) as V4.
  rewrite V1, V2, V3, V4. reflexivity.
Qed.

Lemma contextual_files_pass_check_witness :
  _validar_dados_coletados (py "s1")
    (snd (_salvar_dados_contextuais (env_sample api_vazia io_ok) (py "s1") (JObj [])
            contexto_vazio world_empty)) = true.
Proof.
  apply (contextual_files_pass_check (env_sample api_vazia io_ok) (py "s1") (JObj [])
           contexto_vazio world_empty).
  vm_compute. reflexivity.
Defined.

(** ** What the fallback gives to each phase *)

Lemma startswith_app_l (s t p : pystr) :
  startswith s p = true -> startswith (s ++ t) p = true.
Proof.
  revert s. induction p as [| a p IH]; intros s H; [destruct s, t; reflexivity |].
  destruct s as [| b s]; [discriminate |].
  cbn [startswith app] in *. apply andb_true_iff in H as [-> H].
  rewrite (IH s H). reflexivity.
Qed.

Lemma contains_app_l (s t p : pystr) :
  contains s p = true -> contains (s ++ t) p = true.
Proof.
  induction s as [| c s IH]; intros H.
  - cbn [contains] in H. rewrite orb_false_r in H.
    destruct p; [| discriminate]. destruct t; reflexivity.
  - cbn [contains app] in *. apply orb_true_iff in H as [H | H].
    + change (c :: s ++ t) with ((c :: s) ++ t).
      rewrite (startswith_app_l (c :: s) t p H). reflexivity.
    + rewrite (IH H). apply orb_true_r.
Qed.

Lemma contains_app_r (s t p : pystr) :
  contains t p = true -> contains (s ++ t) p = true.
Proof.
  intros H. induction s as [| c s IH]; [exact H |].
  cbn [contains app]. rewrite IH. apply orb_true_r.
Qed.

Lemma contains_prefix (s t : pystr) : contains (s ++ t) s = true.
Proof.
  destruct s as [| c s]; [destruct t; reflexivity |].
  cbn [app contains]. change (c :: s ++ t) with ((c :: s) ++ t).
  rewrite startswith_app. reflexivity.
Qed.

Lemma fallback_data_cases (prompt : pystr) :
  exists v,
    In v [fallback_evento; fallback_cpl1; fallback_cpl2; fallback_cpl3; fallback_cpl4;
          fallback_default]
    /\ fallback_data prompt = Ok v.
Proof.
  destruct (fallback_response_cases prompt) as (v & Hin & H).
  exists v. split; [exact Hin |].
  unfold fallback_data. rewrite H. unfold rbind.
  pose proof fallback_payloads_roundtrip as R. rewrite List.Forall_forall in R.
  rewrite (R v Hin). reflexivity.
Qed.

(** A prompt that names the first phase gets the payload of the event. *)
Lemma fallback_data_fase_1 (prompt : pystr) :
  contains prompt (py "FASE 1") = true -> fallback_data prompt = Ok fallback_evento.
Proof.
  intros H. unfold fallback_data, _generate_fallback_response. rewrite H.
  cbn [orb]. cbv iota. unfold try_except, rbind.
  pose proof fallback_payloads_roundtrip as R. rewrite List.Forall_forall in R.
  rewrite (R fallback_evento (or_introl eq_refl)). reflexivity.
Qed.

(** A prompt that names [CPL1] gets the payload of the event or that of the
    first unit. *)
Lemma fallback_data_cpl1 (prompt : pystr) :
  contains prompt (py "CPL1") = true ->
  fallback_data prompt = Ok fallback_evento \/ fallback_data prompt = Ok fallback_cpl1.
Proof.
  intros H. unfold fallback_data, _generate_fallback_response. rewrite H.
  pose proof fallback_payloads_roundtrip as R. rewrite List.Forall_forall in R.
  destruct (contains prompt (py "FASE 1") || contains prompt (py "ARQUITETURA DO EVENTO")).
  - left. unfold try_except, rbind.
    rewrite (R fallback_evento (or_introl eq_refl)). reflexivity.
  - right. cbn [orb]. cbv iota. unfold try_except, rbind.
    rewrite (R fallback_cpl1 (or_intror (or_introl eq_refl))). reflexivity.
Qed.

Lemma Ok_eq {A} (a b : A) : Ok a = Ok b -> a = b.
Proof. intros H. injection H as ->. reflexivity. Qed.

Lemma prompt_fase_1_names_phase (contexto : ContextoEstrategico) :
  contains (prompt_fase_1 contexto) (py "FASE 1") = true.
Proof. unfold prompt_fase_1. apply contains_app_l. vm_compute. reflexivity. Qed.

Lemma prompt_fase_2_names_cpl1 (rt : runtime) (contexto : ContextoEstrategico)
    (evento : EventoMagnetico) (prompt : pystr) :
  prompt_fase_2 rt contexto evento = Ok prompt -> contains prompt (py "CPL1") = true.
Proof.
  unfold prompt_fase_2, rbind.
  destruct (py_get (arquitetura_cpls evento) (py "cpl1") (JStr [])); [| discriminate].
  intros H. apply Ok_eq in H. subst prompt. apply contains_app_l. vm_compute. reflexivity.
Qed.

Lemma prompt_fase_3_names_cpl1 (contexto : ContextoEstrategico) (cpl1 : CPLDevastador)
    (prompt : pystr) :
  prompt_fase_3 contexto cpl1 = Ok prompt -> contains prompt (py "CPL1") = true.
Proof.
  unfold prompt_fase_3, rbind.
  destruct (py_join (py ", ") (loops_abertos cpl1)); [| discriminate].
  intros H. apply Ok_eq in H. subst prompt. apply contains_app_l. vm_compute. reflexivity.
Qed.

Lemma fallback_data_fase_4 (contexto : ContextoEstrategico) (cpl2 : CPLDevastador) :
  fallback_data (prompt_fase_4 contexto cpl2) = Ok fallback_cpl3.
Proof. unfold prompt_fase_4. vm_compute. reflexivity. Qed.

Lemma fallback_data_fase_5 (contexto : ContextoEstrategico) (cpl3 : CPLDevastador) :
  fallback_data (prompt_fase_5 contexto cpl3) = Ok fallback_cpl4.
Proof. unfold prompt_fase_5. vm_compute. reflexivity. Qed.

(** ** What leaves a phase *)

Lemma concluir_fst {A} (e : env) (session_id : pystr) (fase : Z) (attempt : res (json * A))
    (handler : res A) (w : world) :
  fst (concluir e session_id fase attempt handler w)
  = match attempt with
    | Ok (_, a) => Ok a
    | Raise _ => handler
    end.
Proof. destruct attempt as [[dados a] | ex]; reflexivity. Qed.

Lemma concluir_raises {A} (e : env) (session_id : pystr) (fase : Z)
    (attempt : res (json * A)) (handler : res A) (w w' : world) (ex : exn) :
  concluir e session_id fase attempt handler w = (Raise ex, w') ->
  handler = Raise ex /\ w' = w.
Proof.
  destruct attempt as [[dados a] | ex0]; cbn [concluir]; intros H.
  - discriminate.
  - injection H as -> ->. split; reflexivity.
Qed.

Lemma py_get_raises (d : json) (key : pystr) (default : json) (ex : exn) :
  py_get d key default = Raise ex -> ex = AttributeError.
Proof.
  unfold py_get. destruct d; try (intros H; injection H as <-; reflexivity).
  destruct (dict_get key members); discriminate.
Qed.

Lemma py_join_raises (sep : pystr) (v : json) (ex : exn) :
  py_join sep v = Raise ex -> ex = TypeError.
Proof.
  unfold py_join. destruct v; try (intros H; injection H as <-; reflexivity);
    try discriminate.
  destruct (all_strings items); [discriminate |].
  intros H; injection H as <-; reflexivity.
Qed.

(** The first phase always returns an event: its prompt names the phase,
    so that its handler maps the payload of the event. *)
Lemma fase_1_returns (e : env) (session_id : pystr) (contexto : ContextoEstrategico)
    (w : world) :
  exists evento, fst (_fase_1_arquitetura_evento e session_id contexto w) = Ok evento.
Proof.
  unfold _fase_1_arquitetura_evento. cbv zeta. rewrite concluir_fst.
  rewrite (fallback_data_fase_1 _ (prompt_fase_1_names_phase contexto)).
  match goal with
  | |- context [match ?a with Ok _ => _ | Raise _ => _ end] => destruct a as [[dados ev] |]
  end.
  - exists ev. reflexivity.
  - eexists. vm_compute. reflexivity.
Qed.

Lemma fase_2_raises (e : env) (session_id : pystr) (contexto : ContextoEstrategico)
    (evento : EventoMagnetico) (w w' : world) (ex : exn) :
  _fase_2_cpl1_oportunidade e session_id contexto evento w = (Raise ex, w') ->
  (ex = AttributeError \/ ex = KeyError (py "titulo")) /\ w' = w.
Proof.
  unfold _fase_2_cpl1_oportunidade.
  destruct (prompt_fase_2 (rt e) contexto evento) as [prompt | ex0] eqn:Ep.
  - intros H. apply concluir_raises in H as [H ->]. split; [| reflexivity].
    destruct (fallback_data_cpl1 prompt (prompt_fase_2_names_cpl1 _ _ _ _ Ep)) as [F | F];
      rewrite F in H; vm_compute in H; [| discriminate].
    injection H as <-. right. reflexivity.
  - intros H. injection H as <- <-. split; [| reflexivity]. left.
    unfold prompt_fase_2, rbind in Ep.
    destruct (py_get (arquitetura_cpls evento) (py "cpl1") (JStr [])) eqn:Eg;
      [discriminate |].
    apply py_get_raises in Eg. injection Ep as <-. exact Eg.
Qed.

Lemma fase_3_raises (e : env) (session_id : pystr) (contexto : ContextoEstrategico)
    (cpl1 : CPLDevastador) (w w' : world) (ex : exn) :
  _fase_3_cpl2_transformacao e session_id contexto cpl1 w = (Raise ex, w') ->
  (ex = TypeError \/ ex = KeyError (py "titulo")) /\ w' = w.
Proof.
  unfold _fase_3_cpl2_transformacao.
  destruct (prompt_fase_3 contexto cpl1) as [prompt | ex0] eqn:Ep.
  - intros H. apply concluir_raises in H as [H ->]. split; [| reflexivity].
    destruct (fallback_data_cpl1 prompt (prompt_fase_3_names_cpl1 _ _ _ Ep)) as [F | F];
      rewrite F in H; vm_compute in H; [| discriminate].
    injection H as <-. right. reflexivity.
  - intros H. injection H as <- <-. split; [| reflexivity]. left.
    unfold prompt_fase_3, rbind in Ep.
    destruct (py_join (py ", ") (loops_abertos cpl1)) eqn:Eg; [discriminate |].
    apply py_join_raises in Eg. injection Ep as <-. exact Eg.
Qed.

(** The handlers of the phases 4 and 5 read two keys that the payloads of
    the fallback for their prompts do not hold. *)
Lemma handler_fase_4 (contexto : ContextoEstrategico) (cpl2 : CPLDevastador) :
  (do cpl3_data <- fallback_data (prompt_fase_4 contexto cpl2) ;;
   mapear_cpl_fallback 3 cpl3_data)
  = Raise (KeyError (py "elementos_cinematograficos")).
Proof. rewrite fallback_data_fase_4. vm_compute. reflexivity. Qed.

Lemma handler_fase_5 (contexto : ContextoEstrategico) (cpl3 : CPLDevastador) :
  (do cpl4_data <- fallback_data (prompt_fase_5 contexto cpl3) ;;
   mapear_cpl_fallback 4 cpl4_data)
  = Raise (KeyError (py "elementos_cinematograficos")).
Proof. rewrite fallback_data_fase_5. vm_compute. reflexivity. Qed.

Lemma fase_4_raises (e : env) (session_id : pystr) (contexto : ContextoEstrategico)
    (cpl2 : CPLDevastador) (w w' : world) (ex : exn) :
  _fase_4_cpl3_caminho e session_id contexto cpl2 w = (Raise ex, w') ->
  ex = KeyError (py "elementos_cinematograficos") /\ w' = w.
Proof.
  unfold _fase_4_cpl3_caminho. cbv zeta. intros H.
  apply concluir_raises in H as [H ->]. rewrite handler_fase_4 in H.
  apply (f_equal (fun r => match r with Raise x => x | Ok _ => ex end)) in H.
  split; [symmetry; exact H | reflexivity].
Qed.

Lemma fase_5_raises (e : env) (session_id : pystr) (contexto : ContextoEstrategico)
    (cpl3 : CPLDevastador) (w w' : world) (ex : exn) :
  _fase_5_cpl4_decisao e session_id contexto cpl3 w = (Raise ex, w') ->
  ex = KeyError (py "elementos_cinematograficos") /\ w' = w.
Proof.
  unfold _fase_5_cpl4_decisao. cbv zeta. intros H.
  apply concluir_raises in H as [H ->]. rewrite handler_fase_5 in H.
  apply (f_equal (fun r => match r with Raise x => x | Ok _ => ex end)) in H.
  split; [symmetry; exact H | reflexivity].
Qed.

(** ** The pipeline *)

(** The pipeline when the search engine is there and answers. *)
Lemma executar_com_busca (e : env) (tema segmento publico_alvo session_id : pystr)
    (w : world) (search : pystr -> pystr -> res json) (search_results : json) :
  search_engine e = Some search ->
  search (query tema segmento publico_alvo) session_id = Ok search_results ->
  executar_protocolo_completo e tema segmento publico_alvo session_id w
  = let contexto := definir_contexto_busca e tema segmento publico_alvo in
    let w1 := snd (_salvar_dados_contextuais e session_id search_results contexto w) in
    if _validar_dados_coletados session_id w1
    then executar_fases e session_id contexto search_results w1
    else (Raise (Exception (py "Dados insuficientes coletados")), w1).
Proof.
  intros Hs Hr. unfold executar_protocolo_completo. cbv zeta.
  unfold bind at 1. rewrite Hs. unfold lift. rewrite Hr.
  unfold bind at 1. unfold effect at 1.
  unfold bind at 1. unfold observe at 1.
  destruct (_validar_dados_coletados session_id _); reflexivity.
Qed.

(** The pipeline without a search engine, and with one that raises. *)
Lemma executar_sem_busca (e : env) (tema segmento publico_alvo session_id : pystr)
    (w : world) :
  search_engine e = None ->
  executar_protocolo_completo e tema segmento publico_alvo session_id w
  = (Raise (Exception (py "Search engine é obrigatório - não há dados simulados permitidos")),
     w).
Proof.
  intros Hs. unfold executar_protocolo_completo. cbv zeta. unfold bind at 1. rewrite Hs.
  reflexivity.
Qed.

Lemma executar_busca_falha (e : env) (tema segmento publico_alvo session_id : pystr)
    (w : world) (search : pystr -> pystr -> res json) (ex : exn) :
  search_engine e = Some search ->
  search (query tema segmento publico_alvo) session_id = Raise ex ->
  executar_protocolo_completo e tema segmento publico_alvo session_id w = (Raise ex, w).
Proof.
  intros Hs Hr. unfold executar_protocolo_completo. cbv zeta. unfold bind at 1.
  rewrite Hs. unfold lift. rewrite Hr. reflexivity.
Qed.

(** What leaves the five phases is an exception of a lookup or of the
    building of a prompt, never the [Exception] of an abort. *)
Lemma executar_fases_raises (e : env) (session_id : pystr) (contexto : ContextoEstrategico)
    (search_results : json) (w w' : world) (ex : exn) :
  executar_fases e session_id contexto search_results w = (Raise ex, w') ->
  erro_de_fase ex.
Proof.
  unfold executar_fases, erro_de_fase.
  unfold bind at 1.
  destruct (_fase_1_arquitetura_evento e session_id contexto w) as [[ev | ex1] w1] eqn:E1.
  2: { destruct (fase_1_returns e session_id contexto w) as (ev & Hev).
       rewrite E1 in Hev. discriminate. }
  unfold bind at 1.
  destruct (_fase_2_cpl1_oportunidade e session_id contexto ev w1) as [[c1 | ex2] w2] eqn:E2.
  2: { intros H. injection H as <- <-. apply fase_2_raises in E2 as [[-> | ->] _]; tauto. }
  unfold bind at 1.
  destruct (_fase_3_cpl2_transformacao e session_id contexto c1 w2) as [[c2 | ex3] w3] eqn:E3.
  2: { intros H. injection H as <- <-. apply fase_3_raises in E3 as [[-> | ->] _]; tauto. }
  unfold bind at 1.
  destruct (_fase_4_cpl3_caminho e session_id contexto c2 w3) as [[c3 | ex4] w4] eqn:E4.
  2: { intros H. injection H as <- <-. apply fase_4_raises in E4 as [-> _]; tauto. }
  unfold bind at 1.
  destruct (_fase_5_cpl4_decisao e session_id contexto c3 w4) as [[c4 | ex5] w5] eqn:E5.
  2: { intros H. injection H as <- <-. apply fase_5_raises in E5 as [-> _]; tauto. }
  cbv zeta. unfold bind, effect, ret. discriminate.
Qed.

(** Counting to two among four distinct things. *)
Lemma two_of_four {A} (valid : A -> bool) (p1 p2 p3 p4 : A) :
  p1 <> p2 -> p1 <> p3 -> p1 <> p4 -> p2 <> p3 -> p2 <> p4 -> p3 <> p4 ->
  (2 <=? length (List.filter valid [p1; p2; p3; p4]))%nat = true
  <-> exists p q,
        In p [p1; p2; p3; p4] /\ In q [p1; p2; p3; p4] /\ p <> q
        /\ valid p = true /\ valid q = true.
Proof.
  intros D12 D13 D14 D23 D24 D34. split.
  - cbn [List.filter].
    destruct (valid p1) eqn:V1; destruct (valid p2) eqn:V2; destruct (valid p3) eqn:V3;
      destruct (valid p4) eqn:V4; cbn [length Nat.leb]; intros H; try discriminate H;
      first
        [ exists p1, p2; cbn [In]; solve [auto 10]
        | exists p1, p3; cbn [In]; solve [auto 10]
        | exists p1, p4; cbn [In]; solve [auto 10]
        | exists p2, p3; cbn [In]; solve [auto 10]
        | exists p2, p4; cbn [In]; solve [auto 10]
        | exists p3, p4; cbn [In]; solve [auto 10] ].
  - intros (p & q & Hp & Hq & Hne & Sp & Sq). cbn [List.filter].
    destruct Hp as [<- | [<- | [<- | [<- | []]]]];
      destruct Hq as [<- | [<- | [<- | [<- | []]]]];
      try (exfalso; apply Hne; reflexivity);
      rewrite ?Sp, ?Sq;
      repeat match goal with
             | |- context [if ?b then _ else _] => destruct b
             end; reflexivity.
Qed.

Lemma validar_two_of_four (session_id : pystr) (w : world) :
  _validar_dados_coletados session_id w = true
  <-> exists p q,
        In p (arquivos_criticos session_id) /\ In q (arquivos_criticos session_id)
        /\ p <> q /\ artefato_suficiente w p /\ artefato_suficiente w q.
Proof.
  unfold _validar_dados_coletados, arquivos_criticos. cbv zeta.
  rewrite two_of_four by path_neq.
  split; intros (p & q & Hp & Hq & Hne & Sp & Sq); exists p, q;
    (split; [exact Hp | split; [exact Hq | split; [exact Hne |]]]);
    [ split; apply arquivo_valido_true; assumption
    | split; apply arquivo_valido_true; assumption ].
Qed.



(** ** The fallback and the prompts of the phases *)

Lemma fallback_response_fase_1 (prompt : pystr) :
  contains prompt (py "FASE 1") = true ->
  _generate_fallback_response prompt = Ok (json_dumps fallback_evento).
Proof.
  intros H. unfold _generate_fallback_response. rewrite H. reflexivity.
Qed.

Lemma fallback_response_cpl1 (prompt : pystr) :
  contains prompt (py "CPL1") = true ->
  _generate_fallback_response prompt = Ok (json_dumps fallback_evento)
  \/ _generate_fallback_response prompt = Ok (json_dumps fallback_cpl1).
Proof.
  intros H. unfold _generate_fallback_response. rewrite H.
  destruct (contains prompt (py "FASE 1") || contains prompt (py "ARQUITETURA DO EVENTO"));
    [left | right]; reflexivity.
Qed.

Lemma fallback_texts_differ :
  json_dumps fallback_evento <> json_dumps fallback_cpl2
  /\ json_dumps fallback_cpl1 <> json_dumps fallback_cpl2.
Proof. split; vm_compute; discriminate. Qed.

(** C4, as the code has it: the fallback gives the payload of the event to
    the prompt of the first phase, the payloads of the units 3 and 4 to the
    prompts of the last two phases, and to the prompts of the units 1 and 2
    the payload of the event or that of unit 1; the prompt of unit 2 names
    [CPL1] and never gets the payload of unit 2. *)
Theorem fallback_of_phase_prompts (rt : runtime) (contexto : ContextoEstrategico)
    (evento : EventoMagnetico) (cpl1 cpl2 cpl3 : CPLDevastador) (prompt2 prompt3 : pystr) :
  prompt_fase_2 rt contexto evento = Ok prompt2 ->
  prompt_fase_3 contexto cpl1 = Ok prompt3 ->
  _generate_fallback_response (prompt_fase_1 contexto) = Ok (json_dumps fallback_evento)
  /\ (_generate_fallback_response prompt2 = Ok (json_dumps fallback_evento)
      \/ _generate_fallback_response prompt2 = Ok (json_dumps fallback_cpl1))
  /\ (_generate_fallback_response prompt3 = Ok (json_dumps fallback_evento)
      \/ _generate_fallback_response prompt3 = Ok (json_dumps fallback_cpl1))
  /\ _generate_fallback_response prompt3 <> Ok (json_dumps fallback_cpl2)
  /\ _generate_fallback_response (prompt_fase_4 contexto cpl2)
     = Ok (json_dumps fallback_cpl3)
  /\ _generate_fallback_response (prompt_fase_5 contexto cpl3)
     = Ok (json_dumps fallback_cpl4).
Proof.
  intros H2 H3.
  pose proof (fallback_response_cpl1 prompt3 (prompt_fase_3_names_cpl1 _ _ _ H3)) as F3.
  split; [apply fallback_response_fase_1, prompt_fase_1_names_phase |].
  split; [apply fallback_response_cpl1, (prompt_fase_2_names_cpl1 _ _ _ _ H2) |].
  split; [exact F3 |].
  split.
  - destruct fallback_texts_differ as [D1 D2].
    destruct F3 as [-> | ->]; intros H; apply Ok_eq in H; [apply D1 | apply D2]; exact H.
  - split; [unfold prompt_fase_4 | unfold prompt_fase_5]; vm_compute; reflexivity.
Qed.

Lemma fallback_of_phase_prompts_witness :
  _generate_fallback_response prompt_3_sample <> Ok (json_dumps fallback_cpl2).
Proof.
  assert (H2 : prompt_fase_2 runtime_sample contexto_vazio evento_sample
               = Ok prompt_2_sample) by (vm_compute; reflexivity).
  assert (H3 : prompt_fase_3 contexto_vazio (cpl_sample 1 "CPL1" [py "Loop A"; py "Loop B"])
               = Ok prompt_3_sample) by (vm_compute; reflexivity).
  exact (proj1 (proj2 (proj2 (proj2
           (fallback_of_phase_prompts runtime_sample contexto_vazio evento_sample
              (cpl_sample 1 "CPL1" [py "Loop A"; py "Loop B"])
              (cpl_sample 2 "CPL2" []) (cpl_sample 3 "CPL3" [])
              prompt_2_sample prompt_3_sample H2 H3))))).
Defined.

(** C2, as the code has it: when the generation of phase 4 (or 5) gives no
    text that parses, the handler of the phase maps the payload of the
    fallback, reads a key that this payload does not hold, and the
    [KeyError] leaves the phase. *)
Theorem fallback_mapping_of_last_units_raises (e : env) (session_id : pystr)
    (contexto : ContextoEstrategico) (cpl2 cpl3 : CPLDevastador) (w : world) :
  (forall text, resposta_limpa e 4 (prompt_fase_4 contexto cpl2) = Ok text ->
                json_loads text = None) ->
  (forall text, resposta_limpa e 5 (prompt_fase_5 contexto cpl3) = Ok text ->
                json_loads text = None) ->
  _fase_4_cpl3_caminho e session_id contexto cpl2 w
  = (Raise (KeyError (py "elementos_cinematograficos")), w)
  /\ _fase_5_cpl4_decisao e session_id contexto cpl3 w
     = (Raise (KeyError (py "elementos_cinematograficos")), w).
Proof.
  intros H4 H5. split.
  - unfold _fase_4_cpl3_caminho. cbv zeta. rewrite handler_fase_4.
    destruct (resposta_limpa e 4 (prompt_fase_4 contexto cpl2)) as [text | ex] eqn:E;
      [| reflexivity].
    unfold rbind at 1. unfold loads_or_raise. rewrite (H4 text eq_refl). reflexivity.
  - unfold _fase_5_cpl4_decisao. cbv zeta. rewrite handler_fase_5.
    destruct (resposta_limpa e 5 (prompt_fase_5 contexto cpl3)) as [text | ex] eqn:E;
      [| reflexivity].
    unfold rbind at 1. unfold loads_or_raise. rewrite (H5 text eq_refl). reflexivity.
Qed.

Lemma fallback_mapping_of_last_units_raises_witness :
  _fase_4_cpl3_caminho (env_sample api_ausente io_ok) (py "s1") contexto_vazio
    (cpl_sample 2 "CPL2" []) world_empty
  = (Raise (KeyError (py "elementos_cinematograficos")), world_empty).
Proof.
  refine (proj1 (fallback_mapping_of_last_units_raises (env_sample api_ausente io_ok)
                   (py "s1") contexto_vazio (cpl_sample 2 "CPL2" []) (cpl_sample 3 "CPL3" [])
                   world_empty _ _));
    intros text H; vm_compute in H; discriminate H.
Defined.

(** With a generation that answers every phase with a text that is no
    JSON, the pipeline ends on the [KeyError] of phase 4. *)
Lemma pipeline_stops_on_unusable_text :
  fst (executar_protocolo_completo (env_sample (api_texto "oops") io_ok)
         (py "Marketing Digital") (py "E-commerce") (py "Pequenos empresários") (py "s1")
         world_empty)
  = Raise (KeyError (py "elementos_cinematograficos")).
Proof. vm_compute. reflexivity. Qed.

(** ** The units and their prompts *)

Lemma prompt_fase_3_holds_loops (contexto : ContextoEstrategico) (cpl1 : CPLDevastador)
    (prompt : pystr) :
  prompt_fase_3 contexto cpl1 = Ok prompt ->
  exists loops,
    py_join (py ", ") (loops_abertos cpl1) = Ok loops /\ contains prompt loops = true.
Proof.
  unfold prompt_fase_3, rbind.
  destruct (py_join (py ", ") (loops_abertos cpl1)) as [loops |]; [| discriminate].
  intros H. apply Ok_eq in H. subst prompt. exists loops. split; [reflexivity |].
  apply contains_app_r, contains_prefix.
Qed.

Ltac destruct_binds :=
  repeat match goal with
         | |- context [match ?r with Ok _ => _ | Raise _ => _ end] =>
             destruct r; [| discriminate]
         end.

Lemma mapear_cpl1_numero (strict : bool) (data : json) (c : CPLDevastador) :
  mapear_cpl1 strict data = Ok c -> numero c = 1%Z.
Proof.
  unfold mapear_cpl1, rbind. destruct_binds.
  intros H. apply Ok_eq in H. subst c. reflexivity.
Qed.

Lemma mapear_cpl2_numero (handler : bool) (data : json) (c : CPLDevastador) :
  mapear_cpl2 handler data = Ok c -> numero c = 2%Z.
Proof.
  unfold mapear_cpl2, rbind. destruct_binds.
  intros H. apply Ok_eq in H. subst c. reflexivity.
Qed.

Lemma mapear_cpl3_numero (data : json) (c : CPLDevastador) :
  mapear_cpl3 data = Ok c -> numero c = 3%Z.
Proof.
  unfold mapear_cpl3, rbind. destruct_binds.
  intros H. apply Ok_eq in H. subst c. reflexivity.
Qed.

Lemma mapear_cpl4_numero (rt : runtime) (data : json) (c : CPLDevastador) :
  mapear_cpl4 rt data = Ok c -> numero c = 4%Z.
Proof.
  unfold mapear_cpl4, rbind. destruct_binds.
  intros H. apply Ok_eq in H. subst c. reflexivity.
Qed.

Lemma mapear_cpl_fallback_numero (n : Z) (data : json) (c : CPLDevastador) :
  mapear_cpl_fallback n data = Ok c -> numero c = n.
Proof.
  unfold mapear_cpl_fallback, rbind. destruct_binds.
  intros H. apply Ok_eq in H. subst c. reflexivity.
Qed.

(** What a phase returns was mapped, by its [try] block or by its
    handler. *)
Lemma concluir_ok {A} (e : env) (session_id : pystr) (fase : Z) (response : res pystr)
    (msg : string) (mapear mapear_handler : json -> res A) (prompt : pystr) (w : world)
    (a : A) :
  fst (concluir e session_id fase
         (do response <- response ;;
          do data <- loads_or_raise msg response ;;
          do x <- mapear data ;;
          Ok (data, x))
         (do data <- fallback_data prompt ;; mapear_handler data) w) = Ok a ->
  exists data, mapear data = Ok a \/ mapear_handler data = Ok a.
Proof.
  rewrite concluir_fst. unfold rbind.
  destruct response as [text |].
  - destruct (loads_or_raise msg text) as [data |].
    + destruct (mapear data) as [x |] eqn:E.
      * intros H. apply Ok_eq in H. subst x. exists data. left. exact E.
      * destruct (fallback_data prompt) as [d |]; [| discriminate].
        intros H. exists d. right. exact H.
    + destruct (fallback_data prompt) as [d |]; [| discriminate].
      intros H. exists d. right. exact H.
  - destruct (fallback_data prompt) as [d |]; [| discriminate].
    intros H. exists d. right. exact H.
Qed.

Lemma fase_2_numero (e : env) (session_id : pystr) (contexto : ContextoEstrategico)
    (evento : EventoMagnetico) (w : world) (c : CPLDevastador) :
  fst (_fase_2_cpl1_oportunidade e session_id contexto evento w) = Ok c -> numero c = 1%Z.
Proof.
  unfold _fase_2_cpl1_oportunidade.
  destruct (prompt_fase_2 (rt e) contexto evento) as [prompt |]; [| discriminate].
  cbv zeta. intros H. apply concluir_ok in H as (data & [H | H]);
    apply mapear_cpl1_numero in H; exact H.
Qed.

Lemma fase_3_numero (e : env) (session_id : pystr) (contexto : ContextoEstrategico)
    (cpl1 : CPLDevastador) (w : world) (c : CPLDevastador) :
  fst (_fase_3_cpl2_transformacao e session_id contexto cpl1 w) = Ok c -> numero c = 2%Z.
Proof.
  unfold _fase_3_cpl2_transformacao.
  destruct (prompt_fase_3 contexto cpl1) as [prompt |]; [| discriminate].
  cbv zeta. intros H. apply concluir_ok in H as (data & [H | H]);
    apply mapear_cpl2_numero in H; exact H.
Qed.

Lemma fase_4_numero (e : env) (session_id : pystr) (contexto : ContextoEstrategico)
    (cpl2 : CPLDevastador) (w : world) (c : CPLDevastador) :
  fst (_fase_4_cpl3_caminho e session_id contexto cpl2 w) = Ok c -> numero c = 3%Z.
Proof.
  unfold _fase_4_cpl3_caminho. cbv zeta. intros H.
  apply concluir_ok in H as (data & [H | H]);
    [apply mapear_cpl3_numero in H | apply mapear_cpl_fallback_numero in H]; exact H.
Qed.

Lemma fase_5_numero (e : env) (session_id : pystr) (contexto : ContextoEstrategico)
    (cpl3 : CPLDevastador) (w : world) (c : CPLDevastador) :
  fst (_fase_5_cpl4_decisao e session_id contexto cpl3 w) = Ok c -> numero c = 4%Z.
Proof.
  unfold _fase_5_cpl4_decisao. cbv zeta. intros H.
  apply concluir_ok in H as (data & [H | H]);
    [apply mapear_cpl4_numero in H | apply mapear_cpl_fallback_numero in H]; exact H.
Qed.

(** A result of the five phases holds what each of them returned. *)
Lemma executar_fases_ok (e : env) (session_id : pystr) (contexto : ContextoEstrategico)
    (search_results : json) (w : world) (r : resultado) :
  fst (executar_fases e session_id contexto search_results w) = Ok r ->
  exists w1 w2 w3 w4,
    fst (_fase_1_arquitetura_evento e session_id contexto w) = Ok (r_evento r)
    /\ fst (_fase_2_cpl1_oportunidade e session_id contexto (r_evento r) w1)
       = Ok (r_cpl1 r)
    /\ fst (_fase_3_cpl2_transformacao e session_id contexto (r_cpl1 r) w2)
       = Ok (r_cpl2 r)
    /\ fst (_fase_4_cpl3_caminho e session_id contexto (r_cpl2 r) w3) = Ok (r_cpl3 r)
    /\ fst (_fase_5_cpl4_decisao e session_id contexto (r_cpl3 r) w4) = Ok (r_cpl4 r)
    /\ r_contexto r = contexto /\ r_session_id r = session_id.
Proof.
  unfold executar_fases.
  unfold bind at 1.
  destruct (_fase_1_arquitetura_evento e session_id contexto w) as [[ev |] w1] eqn:E1;
    [| discriminate].
  unfold bind at 1.
  destruct (_fase_2_cpl1_oportunidade e session_id contexto ev w1) as [[c1 |] w2] eqn:E2;
    [| discriminate].
  unfold bind at 1.
  destruct (_fase_3_cpl2_transformacao e session_id contexto c1 w2) as [[c2 |] w3] eqn:E3;
    [| discriminate].
  unfold bind at 1.
  destruct (_fase_4_cpl3_caminho e session_id contexto c2 w3) as [[c3 |] w4] eqn:E4;
    [| discriminate].
  unfold bind at 1.
  destruct (_fase_5_cpl4_decisao e session_id contexto c3 w4) as [[c4 |] w5] eqn:E5;
    [| discriminate].
  cbv zeta. unfold bind, effect, ret. cbn [fst]. intros H. apply Ok_eq in H. subst r.
  exists w1, w2, w3, w4. cbn [r_evento r_cpl1 r_cpl2 r_cpl3 r_cpl4 r_contexto r_session_id].
  rewrite E2, E3, E4, E5. repeat split; reflexivity.
Qed.

(** A result of the pipeline is a result of its five phases. *)
Lemma executar_ok (e : env) (tema segmento publico_alvo session_id : pystr) (w : world)
    (r : resultado) :
  fst (executar_protocolo_completo e tema segmento publico_alvo session_id w) = Ok r ->
  exists search_results w1,
    fst (executar_fases e session_id (definir_contexto_busca e tema segmento publico_alvo)
           search_results w1) = Ok r.
Proof.
  unfold executar_protocolo_completo. cbv zeta. unfold bind at 1.
  destruct (search_engine e) as [search |]; [| discriminate].
  unfold lift.
  destruct (search (query tema segmento publico_alvo) session_id) as [sr |];
    [| discriminate].
  unfold bind at 1. unfold effect at 1. unfold bind at 1. unfold observe at 1.
  destruct (_validar_dados_coletados session_id _); [| discriminate].
  cbn [negb]. intros H. eexists. eexists. exact H.
Qed.


(** ** Persistence failures *)

Lemma write_chunks_com_io (e : env) (io' : path -> io_outcome) (p : path)
    (chunks : list (option pystr)) (w : world) :
  io' p = io e p -> write_chunks (com_io e io') p chunks w = write_chunks e p chunks w.
Proof. intros H. unfold write_chunks, com_io. cbn [io]. rewrite H. reflexivity. Qed.

(** The four writes of the context, over any four paths. *)
Lemma four_writes_com_io (e : env) (io' : path -> io_outcome) (p1 p2 p3 p4 : path)
    (t1 t2 t3 t4 : pystr) (w : world) :
  io' p1 = io e p1 -> io' p2 = io e p2 -> io' p3 = io e p3 -> io' p4 = io e p4 ->
  (let '(ok, w) := write_text (com_io e io') p1 t1 w in
   if negb ok then (false, w) else
   let '(ok, w) := write_text (com_io e io') p2 t2 w in
   if negb ok then (false, w) else
   let '(ok, w) := write_text (com_io e io') p3 t3 w in
   if negb ok then (false, w) else write_text (com_io e io') p4 t4 w)
  = (let '(ok, w) := write_text e p1 t1 w in
     if negb ok then (false, w) else
     let '(ok, w) := write_text e p2 t2 w in
     if negb ok then (false, w) else
     let '(ok, w) := write_text e p3 t3 w in
     if negb ok then (false, w) else write_text e p4 t4 w).
Proof.
  intros H1 H2 H3 H4. unfold write_text.
  rewrite (write_chunks_com_io e io' p1 _ w H1).
  destruct (write_chunks e p1 [Some t1] w) as [[] w1]; [| reflexivity]. cbn [negb].
  rewrite (write_chunks_com_io e io' p2 _ w1 H2).
  destruct (write_chunks e p2 [Some t2] w1) as [[] w2]; [| reflexivity]. cbn [negb].
  rewrite (write_chunks_com_io e io' p3 _ w2 H3).
  destruct (write_chunks e p3 [Some t3] w2) as [[] w3]; [| reflexivity]. cbn [negb].
  apply (write_chunks_com_io e io' p4 _ w3 H4).
Qed.

Lemma salvar_dados_contextuais_com_io (e : env) (io' : path -> io_outcome)
    (session_id : pystr) (search_results : json) (contexto : ContextoEstrategico)
    (w : world) :
  (forall p, In p (arquivos_criticos session_id) -> io' p = io e p) ->
  _salvar_dados_contextuais (com_io e io') session_id search_results contexto w
  = _salvar_dados_contextuais e session_id search_results contexto w.
Proof.
  intros H. unfold _salvar_dados_contextuais. cbv zeta.
  apply four_writes_com_io; apply H; unfold arquivos_criticos.
  - left; reflexivity.
  - right; left; reflexivity.
  - right; right; left; reflexivity.
  - right; right; right; left; reflexivity.
Qed.

(** Two computations that return the same whatever the world they start
    from still do so when each is followed by such computations. *)
Lemma bind_fst_agree {A B} (m m' : M A) (k k' : A -> M B) (w w' : world) :
  fst (m w) = fst (m' w') ->
  (forall a w1 w1', fst (k a w1) = fst (k' a w1')) ->
  fst (bind m k w) = fst (bind m' k' w').
Proof.
  intros Hm Hk. unfold bind.
  destruct (m w) as [[a | ex] w1], (m' w') as [[a' | ex'] w1']; cbn [fst] in Hm;
    try discriminate Hm.
  - apply Ok_eq in Hm. subst a'. apply Hk.
  - cbn [fst]. injection Hm as ->. reflexivity.
Qed.

Lemma fase_1_com_io (e : env) (io' : path -> io_outcome) (session_id : pystr)
    (contexto : ContextoEstrategico) (w w' : world) :
  fst (_fase_1_arquitetura_evento (com_io e io') session_id contexto w)
  = fst (_fase_1_arquitetura_evento e session_id contexto w').
Proof. unfold _fase_1_arquitetura_evento. cbv zeta. rewrite !concluir_fst. reflexivity. Qed.

Lemma fase_2_com_io (e : env) (io' : path -> io_outcome) (session_id : pystr)
    (contexto : ContextoEstrategico) (evento : EventoMagnetico) (w w' : world) :
  fst (_fase_2_cpl1_oportunidade (com_io e io') session_id contexto evento w)
  = fst (_fase_2_cpl1_oportunidade e session_id contexto evento w').
Proof.
  unfold _fase_2_cpl1_oportunidade. change (rt (com_io e io')) with (rt e).
  destruct (prompt_fase_2 (rt e) contexto evento); [| reflexivity].
  cbv zeta. rewrite !concluir_fst. reflexivity.
Qed.

Lemma fase_3_com_io (e : env) (io' : path -> io_outcome) (session_id : pystr)
    (contexto : ContextoEstrategico) (cpl1 : CPLDevastador) (w w' : world) :
  fst (_fase_3_cpl2_transformacao (com_io e io') session_id contexto cpl1 w)
  = fst (_fase_3_cpl2_transformacao e session_id contexto cpl1 w').
Proof.
  unfold _fase_3_cpl2_transformacao.
  destruct (prompt_fase_3 contexto cpl1); [| reflexivity].
  cbv zeta. rewrite !concluir_fst. reflexivity.
Qed.

Lemma fase_4_com_io (e : env) (io' : path -> io_outcome) (session_id : pystr)
    (contexto : ContextoEstrategico) (cpl2 : CPLDevastador) (w w' : world) :
  fst (_fase_4_cpl3_caminho (com_io e io') session_id contexto cpl2 w)
  = fst (_fase_4_cpl3_caminho e session_id contexto cpl2 w').
Proof. unfold _fase_4_cpl3_caminho. cbv zeta. rewrite !concluir_fst. reflexivity. Qed.

Lemma fase_5_com_io (e : env) (io' : path -> io_outcome) (session_id : pystr)
    (contexto : ContextoEstrategico) (cpl3 : CPLDevastador) (w w' : world) :
  fst (_fase_5_cpl4_decisao (com_io e io') session_id contexto cpl3 w)
  = fst (_fase_5_cpl4_decisao e session_id contexto cpl3 w').
Proof. unfold _fase_5_cpl4_decisao. cbv zeta. rewrite !concluir_fst. reflexivity. Qed.

(** What the five phases return does not depend on the files: neither on
    those that are there nor on whether they can be written. *)
Lemma executar_fases_com_io (e : env) (io' : path -> io_outcome) (session_id : pystr)
    (contexto : ContextoEstrategico) (search_results : json) (w w' : world) :
  fst (executar_fases (com_io e io') session_id contexto search_results w)
  = fst (executar_fases e session_id contexto search_results w').
Proof.
  unfold executar_fases.
  apply bind_fst_agree; [apply fase_1_com_io |]. intros ev w1 w1'.
  apply bind_fst_agree; [apply fase_2_com_io |]. intros c1 w2 w2'.
  apply bind_fst_agree; [apply fase_3_com_io |]. intros c2 w3 w3'.
  apply bind_fst_agree; [apply fase_4_com_io |]. intros c3 w4 w4'.
  apply bind_fst_agree; [apply fase_5_com_io |]. intros c4 w5 w5'.
  reflexivity.
Qed.

(** C9, as the code has it: a write of a phase file, of the result or of
    the bundle that fails is logged and nothing more.  What the pipeline
    returns or raises is the same under two operating systems that treat the
    four contextual files alike, whatever they do with every other file. *)
Theorem persistence_failures_are_swallowed (e : env) (io' : path -> io_outcome)
    (tema segmento publico_alvo session_id : pystr) (w : world) :
  (forall p, In p (arquivos_criticos session_id) -> io' p = io e p) ->
  fst (executar_protocolo_completo (com_io e io') tema segmento publico_alvo session_id w)
  = fst (executar_protocolo_completo e tema segmento publico_alvo session_id w).
Proof.
  intros H.
  destruct (search_engine e) as [search |] eqn:Hs.
  - destruct (search (query tema segmento publico_alvo) session_id) as [sr | ex] eqn:Hr.
    + rewrite (executar_com_busca (com_io e io') tema segmento publico_alvo session_id w
                 search sr Hs Hr).
      rewrite (executar_com_busca e tema segmento publico_alvo session_id w search sr Hs Hr).
      cbv zeta.
      change (definir_contexto_busca (com_io e io') tema segmento publico_alvo)
        with (definir_contexto_busca e tema segmento publico_alvo).
      rewrite (salvar_dados_contextuais_com_io e io' session_id sr _ w H).
      destruct (_validar_dados_coletados session_id _); [| reflexivity].
      apply executar_fases_com_io.
    + rewrite (executar_busca_falha (com_io e io') tema segmento publico_alvo session_id w
                 search ex Hs Hr).
      rewrite (executar_busca_falha e tema segmento publico_alvo session_id w search ex
                 Hs Hr).
      reflexivity.
  - rewrite (executar_sem_busca (com_io e io') tema segmento publico_alvo session_id w Hs).
    rewrite (executar_sem_busca e tema segmento publico_alvo session_id w Hs).
    reflexivity.
Qed.

Lemma persistence_failures_are_swallowed_witness :
  fst (executar_protocolo_completo
         (com_io (env_sample api_vazia io_ok) (io_so_contexto (py "s1")))
         (py "Marketing Digital") (py "E-commerce") (py "Pequenos empresários") (py "s1")
         world_empty)
  = fst (executar_protocolo_completo (env_sample api_vazia io_ok) (py "Marketing Digital")
           (py "E-commerce") (py "Pequenos empresários") (py "s1") world_empty).
Proof.
  apply (persistence_failures_are_swallowed (env_sample api_vazia io_ok)
           (io_so_contexto (py "s1")) (py "Marketing Digital") (py "E-commerce")
           (py "Pequenos empresários") (py "s1") world_empty).
  intros p [<- | [<- | [<- | [<- | []]]]]; vm_compute; reflexivity.
Defined.

(** The claim as stated fails: with an operating system that refuses the
    file of every phase, of the result and of the bundle, the pipeline
    still returns its result, and no such file is there. *)
Lemma persistence_failure_counterexample :
  let e := env_sample api_vazia (io_so_contexto (py "s1")) in
  let run :=
    executar_protocolo_completo e (py "Marketing Digital") (py "E-commerce")
      (py "Pequenos empresários") (py "s1") world_empty in
  io e (arquivo_fase (py "s1") 2) = IoOpenFails
  /\ io e (arquivo_resultado (py "s1")) = IoOpenFails
  /\ files (snd run) !! arquivo_fase (py "s1") 2 = None
  /\ dumps (snd run) !! arquivo_resultado (py "s1") = None
  /\ exists r, fst run = Ok r /\ numero (r_cpl4 r) = 4%Z.
Proof.
  cbv zeta.
  split; [vm_compute; reflexivity |]. split; [vm_compute; reflexivity |].
  split; [vm_compute; reflexivity |]. split; [vm_compute; reflexivity |].
  vm_compute. eexists. split; reflexivity.
Qed.

(** ** The missing search engine *)

Lemma etapas_keys_differ (session_id : pystr) :
  (session_id, py "cpl_devastador_erro") <> (session_id, py "cpl_devastador_concluido").
Proof.
  intros H. apply (f_equal snd) in H. vm_compute in H. discriminate H.
Qed.

(** C8, as the code has it: without a search engine the pipeline raises
    before any phase runs and before it writes any file.  The job runner
    stores one record and writes no file: the record of an error, under the
    step name and the category that every failure has, and no record of a
    completed run.  Its message is that of the search engine only when the
    runner got the services and a protocol; when it did not (which is so
    when the search module cannot be imported) the pipeline is not called
    and the message says that the protocol is not available. *)
Theorem missing_search_engine (e : env) (tema segmento publico_alvo session_id : pystr)
    (w : world) :
  search_engine e = None ->
  let w' := execute_cpl_devastador_thread e tema segmento publico_alvo session_id w in
  let error :=
    match get_services e with
    | Ok (Some true) =>
        py "Search engine é obrigatório - não há dados simulados permitidos"
    | Ok _ => py "Protocolo CPL Devastador não disponível"
    | Raise ex => str_exn (rt e) ex
    end in
  executar_protocolo_completo e tema segmento publico_alvo session_id w
  = (Raise (Exception (py "Search engine é obrigatório - não há dados simulados permitidos")),
     w)
  /\ files w' = files w
  /\ dumps w' = dumps w
  /\ etapas w'
     = <[(session_id, py "cpl_devastador_erro") :=
           {| e_categoria := py "cpl"; e_dados := EErro error (clock e 3) |}]> (etapas w)
  /\ etapas w' !! (session_id, py "cpl_devastador_concluido")
     = etapas w !! (session_id, py "cpl_devastador_concluido")
  /\ (search_module e = SearchModuleMissing ->
      error = py "Protocolo CPL Devastador não disponível").
Proof.
  intros Hs.
  pose proof (executar_sem_busca e tema segmento publico_alvo session_id w Hs) as Hx.
  cbv zeta. split; [exact Hx |].
  unfold execute_cpl_devastador_thread. cbv zeta. rewrite Hx.
  destruct (get_services e) as [[[|] |] | ex] eqn:G; unfold salvar_etapa, str_exn;
    cbn [files dumps etapas];
    (split; [reflexivity |]); (split; [reflexivity |]); (split; [reflexivity |]);
    (split; [apply lookup_insert_ne, etapas_keys_differ |]);
    intros Hm; unfold get_services in G; rewrite Hm in G; try discriminate G;
    reflexivity.
Qed.

Lemma missing_search_engine_witness :
  files (execute_cpl_devastador_thread
           (com_busca (env_sample api_vazia io_ok) (SearchModule None true))
           (py "Marketing Digital") (py "E-commerce") (py "Pequenos empresários") (py "s1")
           world_empty)
  = files world_empty.
Proof.
  exact (proj1 (proj2
           (missing_search_engine
              (com_busca (env_sample api_vazia io_ok) (SearchModule None true))
              (py "Marketing Digital") (py "E-commerce") (py "Pequenos empresários")
              (py "s1") world_empty eq_refl))).
Defined.

(** The claim as stated fails.  When the search module cannot be imported,
    which is how the search engine comes to be missing, the record holds the
    message of the unavailable protocol and not that of the collection step;
    and the record of a run that stops for want of data has the same step
    name and category as that of a run without a search engine. *)
Lemma missing_search_engine_counterexample :
  let run := fun e =>
    etapas (execute_cpl_devastador_thread e (py "Marketing Digital") (py "E-commerce")
              (py "Pequenos empresários") (py "s1") world_empty)
    !! (py "s1", py "cpl_devastador_erro") in
  search_engine (env_sem_busca (env_sample api_vazia io_ok)) = None
  /\ run (env_sem_busca (env_sample api_vazia io_ok))
     = Some {| e_categoria := py "cpl";
               e_dados := EErro (py "Protocolo CPL Devastador não disponível")
                            (py "2024-01-01T00:00:00") |}
  /\ run (com_busca (env_sample api_vazia io_ok) (SearchModule None true))
     = Some {| e_categoria := py "cpl";
               e_dados :=
                 EErro (py "Search engine é obrigatório - não há dados simulados permitidos")
                   (py "2024-01-01T00:00:00") |}
  /\ run (env_sample api_vazia io_recusa)
     = Some {| e_categoria := py "cpl";
               e_dados := EErro (py "Dados insuficientes coletados")
                            (py "2024-01-01T00:00:00") |}.
Proof.
  cbv zeta. split; [reflexivity |].
  split; [vm_compute; reflexivity |]. split; vm_compute; reflexivity.
Qed.

(** ** The prompts that a run asks the generation with *)

(** What a phase returns depends on the environment by what the generation
    answers to the prompt of the phase, and by nothing else. *)
Lemma fase_1_agree (e e' : env) (session_id : pystr) (contexto : ContextoEstrategico)
    (w w' : world) :
  api e' 1 (prompt_fase_1 contexto) = api e 1 (prompt_fase_1 contexto) ->
  fst (_fase_1_arquitetura_evento e' session_id contexto w')
  = fst (_fase_1_arquitetura_evento e session_id contexto w).
Proof.
  intros Ha. unfold _fase_1_arquitetura_evento. cbv zeta. rewrite !concluir_fst, Ha.
  reflexivity.
Qed.

Lemma fase_2_agree (e e' : env) (session_id : pystr) (contexto : ContextoEstrategico)
    (evento : EventoMagnetico) (prompt : pystr) (w w' : world) :
  rt e' = rt e ->
  prompt_fase_2 (rt e) contexto evento = Ok prompt ->
  api e' 2 prompt = api e 2 prompt ->
  fst (_fase_2_cpl1_oportunidade e' session_id contexto evento w')
  = fst (_fase_2_cpl1_oportunidade e session_id contexto evento w).
Proof.
  intros Hrt Hp Ha. unfold _fase_2_cpl1_oportunidade. rewrite Hrt, Hp. cbv zeta.
  rewrite !concluir_fst. unfold resposta_limpa. rewrite Ha. reflexivity.
Qed.

Lemma fase_3_agree (e e' : env) (session_id : pystr) (contexto : ContextoEstrategico)
    (cpl1 : CPLDevastador) (prompt : pystr) (w w' : world) :
  prompt_fase_3 contexto cpl1 = Ok prompt ->
  api e' 3 prompt = api e 3 prompt ->
  fst (_fase_3_cpl2_transformacao e' session_id contexto cpl1 w')
  = fst (_fase_3_cpl2_transformacao e session_id contexto cpl1 w).
Proof.
  intros Hp Ha. unfold _fase_3_cpl2_transformacao. rewrite Hp. cbv zeta.
  rewrite !concluir_fst. unfold resposta_limpa. rewrite Ha. reflexivity.
Qed.

Lemma fase_4_agree (e e' : env) (session_id : pystr) (contexto : ContextoEstrategico)
    (cpl2 : CPLDevastador) (w w' : world) :
  api e' 4 (prompt_fase_4 contexto cpl2) = api e 4 (prompt_fase_4 contexto cpl2) ->
  fst (_fase_4_cpl3_caminho e' session_id contexto cpl2 w')
  = fst (_fase_4_cpl3_caminho e session_id contexto cpl2 w).
Proof.
  intros Ha. unfold _fase_4_cpl3_caminho. cbv zeta.
  rewrite !concluir_fst. unfold resposta_limpa. rewrite Ha. reflexivity.
Qed.

Lemma fase_5_agree (e e' : env) (session_id : pystr) (contexto : ContextoEstrategico)
    (cpl3 : CPLDevastador) (w w' : world) :
  rt e' = rt e ->
  api e' 5 (prompt_fase_5 contexto cpl3) = api e 5 (prompt_fase_5 contexto cpl3) ->
  fst (_fase_5_cpl4_decisao e' session_id contexto cpl3 w')
  = fst (_fase_5_cpl4_decisao e session_id contexto cpl3 w).
Proof.
  intros Hrt Ha. unfold _fase_5_cpl4_decisao. cbv zeta.
  rewrite !concluir_fst. unfold resposta_limpa. rewrite Hrt, Ha. reflexivity.
Qed.

Lemma fase_2_prompt (e : env) (session_id : pystr) (contexto : ContextoEstrategico)
    (evento : EventoMagnetico) (w : world) (c : CPLDevastador) :
  fst (_fase_2_cpl1_oportunidade e session_id contexto evento w) = Ok c ->
  exists prompt, prompt_fase_2 (rt e) contexto evento = Ok prompt.
Proof.
  unfold _fase_2_cpl1_oportunidade.
  destruct (prompt_fase_2 (rt e) contexto evento) as [prompt |]; [| discriminate].
  intros _. exists prompt. reflexivity.
Qed.

Lemma fase_3_prompt (e : env) (session_id : pystr) (contexto : ContextoEstrategico)
    (cpl1 : CPLDevastador) (w : world) (c : CPLDevastador) :
  fst (_fase_3_cpl2_transformacao e session_id contexto cpl1 w) = Ok c ->
  exists prompt, prompt_fase_3 contexto cpl1 = Ok prompt.
Proof.
  unfold _fase_3_cpl2_transformacao.
  destruct (prompt_fase_3 contexto cpl1) as [prompt |]; [| discriminate].
  intros _. exists prompt. reflexivity.
Qed.

(** The result of the five phases, field by field. *)
Lemma executar_fases_result (e : env) (session_id : pystr) (contexto : ContextoEstrategico)
    (search_results : json) (w : world) (r : resultado) :
  fst (executar_fases e session_id contexto search_results w) = Ok r ->
  r = {| r_session_id := session_id; r_contexto := contexto; r_evento := r_evento r;
         r_cpl1 := r_cpl1 r; r_cpl2 := r_cpl2 r; r_cpl3 := r_cpl3 r; r_cpl4 := r_cpl4 r;
         r_dados_busca := _safe_asdict (rt e) search_results; r_timestamp := clock e 1 |}.
Proof.
  unfold executar_fases.
  unfold bind at 1.
  destruct (_fase_1_arquitetura_evento e session_id contexto w) as [[ev |] w1];
    [| discriminate].
  unfold bind at 1.
  destruct (_fase_2_cpl1_oportunidade e session_id contexto ev w1) as [[c1 |] w2];
    [| discriminate].
  unfold bind at 1.
  destruct (_fase_3_cpl2_transformacao e session_id contexto c1 w2) as [[c2 |] w3];
    [| discriminate].
  unfold bind at 1.
  destruct (_fase_4_cpl3_caminho e session_id contexto c2 w3) as [[c3 |] w4];
    [| discriminate].
  unfold bind at 1.
  destruct (_fase_5_cpl4_decisao e session_id contexto c3 w4) as [[c4 |] w5];
    [| discriminate].
  cbv zeta. unfold bind, effect, ret. cbn [fst]. intros H. apply Ok_eq in H. subst r.
  reflexivity.
Qed.

(** Five phases that return the units of [r] give the result [r]. *)
Lemma executar_fases_intro (e : env) (session_id : pystr) (contexto : ContextoEstrategico)
    (search_results : json) (w : world) (ev : EventoMagnetico)
    (c1 c2 c3 c4 : CPLDevastador) :
  (forall w, fst (_fase_1_arquitetura_evento e session_id contexto w) = Ok ev) ->
  (forall w, fst (_fase_2_cpl1_oportunidade e session_id contexto ev w) = Ok c1) ->
  (forall w, fst (_fase_3_cpl2_transformacao e session_id contexto c1 w) = Ok c2) ->
  (forall w, fst (_fase_4_cpl3_caminho e session_id contexto c2 w) = Ok c3) ->
  (forall w, fst (_fase_5_cpl4_decisao e session_id contexto c3 w) = Ok c4) ->
  fst (executar_fases e session_id contexto search_results w)
  = Ok {| r_session_id := session_id; r_contexto := contexto; r_evento := ev;
          r_cpl1 := c1; r_cpl2 := c2; r_cpl3 := c3; r_cpl4 := c4;
          r_dados_busca := _safe_asdict (rt e) search_results; r_timestamp := clock e 1 |}.
Proof.
  intros H1 H2 H3 H4 H5. unfold executar_fases.
  unfold bind at 1. specialize (H1 w).
  destruct (_fase_1_arquitetura_evento e session_id contexto w) as [[ev' |] w1];
    cbn [fst] in H1; [| discriminate]. apply Ok_eq in H1. subst ev'.
  unfold bind at 1. specialize (H2 w1).
  destruct (_fase_2_cpl1_oportunidade e session_id contexto ev w1) as [[c1' |] w2];
    cbn [fst] in H2; [| discriminate]. apply Ok_eq in H2. subst c1'.
  unfold bind at 1. specialize (H3 w2).
  destruct (_fase_3_cpl2_transformacao e session_id contexto c1 w2) as [[c2' |] w3];
    cbn [fst] in H3; [| discriminate]. apply Ok_eq in H3. subst c2'.
  unfold bind at 1. specialize (H4 w3).
  destruct (_fase_4_cpl3_caminho e session_id contexto c2 w3) as [[c3' |] w4];
    cbn [fst] in H4; [| discriminate]. apply Ok_eq in H4. subst c3'.
  unfold bind at 1. specialize (H5 w4).
  destruct (_fase_5_cpl4_decisao e session_id contexto c3 w4) as [[c4' |] w5];
    cbn [fst] in H5; [| discriminate]. apply Ok_eq in H5. subst c4'.
  reflexivity.
Qed.

Lemma salvar_dados_contextuais_com_api (e : env) (api' : nat -> pystr -> api_behaviour)
    (session_id : pystr) (search_results : json) (contexto : ContextoEstrategico)
    (w : world) :
  _salvar_dados_contextuais (com_api e api') session_id search_results contexto w
  = _salvar_dados_contextuais e session_id search_results contexto w.
Proof. reflexivity. Qed.


